(** * Case-study notebooks of cs5841-ee5841-sp25: a Rocq model

    The repository is a set of Jupyter notebooks.  Every notebook is a
    straight-line Python script that simulates or writes down a small table,
    hands it to scikit-learn / xgboost estimators and to matplotlib.

    The definitions come in these layers.

    - [np], [py], [pd], [sklearn]: the parts of numpy, Python, pandas and
      scikit-learn the notebooks call, as far as the notebooks' own code
      depends on them.  A finite double is a rational: numeric arrays are
      lists of rationals ([Q]), and the arithmetic the cells write down
      rounds every result to double precision ([float64]); the global
      numpy generator is a state monad over an abstract bit generator;
      exceptions are the left summand of a sum.
    - [Pid], [Spam], [Loan], [Wearable], [Stock], [House], [Fruit],
      [Emails], [Iris], [Fault]: the data cells of the notebooks up to the
      train/test split, written against these modules the way the cells
      are written in Python; [UnseenInput]: the two functions the spam
      notebook defines.
    - [Script]: every notebook as the sequence of statements its cells
      execute, with the variables each statement reads and binds, the
      stages of the pipeline they belong to, and a runner in an exception
      monad that logs the statements it performs.
    - [Tables], [Spec]: the properties of the notebooks in the terms of the
      models; [Demo]: a small generator and library on which everything
      evaluates.

    The second part proves the properties. *)

From Stdlib Require Import List String DecimalString ZArith QArith Qround Qabs Qpower
  Lqa Lia Bool Arith Permutation DecimalNat SpecFloat.
From ExtLib Require Import Structures.Monad Structures.MonadState Structures.MonadTrans
  Structures.MonadExc Data.Monads.StateMonad Data.Monads.EitherMonad.
Import ListNotations.
Import MonadNotation.
Local Open Scope monad_scope.
Local Open Scope string_scope.

#[local] Existing Instance Monad_stateT.

(** ** Double precision

    numpy computes with IEEE 754 binary64 numbers.  A finite double is a
    rational; an arithmetic operation returns the double nearest to the
    exact result, a tie going to the one with the even significand.  The
    significand has 53 bits and the least exponent of its last bit is
    -1074 (gradual underflow).  Overflow to an infinity is not modelled:
    the notebooks' arithmetic stays far below 2^1024. *)

Module float64.

Definition pow2 (e : Z) : Q := 2 ^ e.

(** The integer part of the binary logarithm of [x], for [0 < x]. *)
Definition ilog2 (x : Q) : Z :=
  let d := (Z.log2 (Qnum x) - Z.log2 (Z.pos (Qden x)))%Z in
  if Qle_bool (pow2 d) x then d else (d - 1)%Z.

(** The exponent of the last bit of the significand of the doubles next to
    [x]. *)
Definition exponent (x : Q) : Z := Z.max (ilog2 (Qabs x) - 52) (-1074).

(** The integer nearest to [y], the even one of two. *)
Definition nearest_even (y : Q) : Z :=
  let f := Qfloor y in
  match Qcompare (y - inject_Z f) (1 # 2) with
  | Lt => f
  | Gt => (f + 1)%Z
  | Eq => if Z.even f then f else (f + 1)%Z
  end.

(** The double nearest to [x]. *)
Definition round (x : Q) : Q :=
  if Qeq_bool x 0 then 0
  else Qred (inject_Z (nearest_even (x / pow2 (exponent x))) * pow2 (exponent x)).

(** The sum and the product of two doubles, as the processor returns
    them. *)
Definition add (x y : Q) : Q := round (x + y).
Definition mul (x y : Q) : Q := round (x * y).

Arguments round : simpl never.
Arguments add : simpl never.
Arguments mul : simpl never.

(** The rational a finite double of the standard library's specification
    of IEEE 754 stands for. *)
Definition of_spec (f : spec_float) : Q :=
  match f with
  | S754_finite s m e =>
      (if s then -1 else 1) * inject_Z (Z.pos m) * pow2 e
  | _ => 0
  end.

End float64.

(** ** numpy *)

Module np.

(** The generator behind [np.random]: a state, the way [np.random.seed]
    initialises it, and the three primitive draws the notebooks reach
    through [uniform], [normal], [randint] and [choice]. *)
Class BitGenerator := {
  rng_state : Type;
  seed_state : Z -> rng_state;
  random_sample : rng_state -> Q * rng_state;
  standard_normal : rng_state -> Q * rng_state;
  integers : Z -> Z -> rng_state -> Z * rng_state
}.

(** What numpy documents of [random_sample]: a value of the half-open unit
    interval. *)
Definition unit_sampler (G : BitGenerator) : Prop :=
  forall s, 0 <= fst (random_sample s) /\ fst (random_sample s) < 1.

Section Random.
Context {G : BitGenerator}.

(** Code that uses the global generator. *)
Definition random := state rng_state.

Definition draw {A : Type} (f : rng_state -> A * rng_state) : random A :=
  mkState f.

(** [np.random.seed(k)] *)
Definition seed (k : Z) : random unit := put (seed_state k).

(** [size] draws in a row, first draw first. *)
Fixpoint draws {A : Type} (d : random A) (size : nat) : random (list A) :=
  match size with
  | O => ret []
  | S size' => x <- d ;; xs <- draws d size' ;; ret (x :: xs)
  end.

(** [np.random.uniform(low, high, size)]: low + (high - low) * random_sample().
    The draw belongs to the library: its value is the image of the sample
    under this map.  numpy's samples are multiples of 2^-53, and for such
    a sample and the ranges of the PID cell, -2 to 2 and -0.5 to 0.5, the
    image is a double, the one numpy returns
    ([pid_uniform_draws_are_doubles]). *)
Definition uniform (low high : Q) (size : nat) : random (list Q) :=
  draws (u <- draw random_sample ;; ret (low + (high - low) * u)) size.

(** [np.random.normal(loc, scale, size)]: loc + scale * standard_normal(),
    in the same way; for the noise of the PID cell, 0 + 0.5 z, and for the
    returns of the stock notebook, 0 + 1 z, the image of a double is again
    the double numpy returns ([normal_draws_are_doubles]). *)
Definition normal (loc scale : Q) (size : nat) : random (list Q) :=
  draws (z <- draw standard_normal ;; ret (loc + scale * z)) size.

(** [np.random.randint(low, high, size)] *)
Definition randint (low high : Z) (size : nat) : random (list Z) :=
  draws (draw (integers low high)) size.

(** [np.random.choice([a, b], size, p=[p_a, p_b])]: one uniform draw per
    element, searched in the cumulative distribution [p_a, p_a + p_b]. *)
Definition choice2 {A : Type} (a b : A) (p_a : Q) (size : nat) : random (list A) :=
  draws (u <- draw random_sample ;; ret (if Qle_bool p_a u then b else a)) size.

End Random.

(** A decimal literal of the code denotes the double nearest to it. *)
Definition float (literal : Q) : Q := float64.round literal.

Arguments float : simpl never.

(** [np.cumsum]: the first cell as it is, every later cell the double sum
    of the cell before and the new value. *)
Fixpoint cumsum_from (acc : Q) (a : list Q) : list Q :=
  match a with
  | [] => []
  | x :: a' => float64.add acc x :: cumsum_from (float64.add acc x) a'
  end.

Definition cumsum (a : list Q) : list Q :=
  match a with
  | [] => []
  | x :: a' => x :: cumsum_from x a'
  end.

(** [np.arange(start, stop)] *)
Definition arange (start stop : Z) : list Z :=
  map (fun i => (start + Z.of_nat i)%Z) (seq 0 (Z.to_nat (stop - start))).

(** Broadcasting arithmetic in double precision: scalar with array, and
    array with array, every cell rounded.  numpy raises on arrays of
    different lengths; the notebooks only combine arrays drawn with one
    common size. *)
Definition sadd (c : Q) (a : list Q) : list Q := map (fun x => float64.add c x) a.
Definition smul (c : Q) (a : list Q) : list Q := map (fun x => float64.mul c x) a.
Definition adds (a : list Q) (c : Q) : list Q := map (fun x => float64.add x c) a.

Fixpoint vadd (a b : list Q) : list Q :=
  match a, b with
  | x :: a', y :: b' => float64.add x y :: vadd a' b'
  | _, _ => []
  end.

(** [np.where(cond, x, y)] with scalar branches. *)
Definition where_ {A B : Type} (cond : A -> bool) (x y : B) (a : list A) : list B :=
  map (fun v => if cond v then x else y) a.

(** The exact sum and mean, for the models of the library's estimators. *)
Fixpoint sum (a : list Q) : Q :=
  match a with
  | [] => 0
  | x :: a' => x + sum a'
  end.

Definition mean (a : list Q) : Q := sum a / inject_Z (Z.of_nat (List.length a)).

End np.

(** ** Python exceptions *)

Module py.

Inductive exn :=
| ValueError (msg : string)
| KeyError (key : string)
| IndexError (msg : string)
| NameError (name : string)
| LibraryError (origin msg : string).

(** A computation that returns or raises. *)
Definition result := sum exn.

Definition raised {A : Type} (r : result A) : option exn :=
  match r with inl e => Some e | inr _ => None end.

(** Code whose library calls are observed: every call is written to a log
    before its outcome is known, and an exception ends the computation with
    the log as it stands.  Nothing here catches: the notebooks hold no
    [try]. *)
Section Logged.
Context {E : Type}.

Definition M := eitherT exn (state (list E)).

Definition call {A : Type} (entry : E) (outcome : result A) : M A :=
  lift (modify (fun log => log ++ [entry])%list) ;;
  match outcome with
  | inl e => raise e
  | inr a => ret a
  end.

(** The outcome of a run from an empty log, and the calls performed. *)
Definition run {A : Type} (m : M A) : result A * list E :=
  runState (unEitherT m) [].

End Logged.

Arguments M : clear implicits.

End py.

(** ** pandas *)

Module pd.
Import py.

Section Frame.
Context {A : Type}.

(** A table: named columns in column order; every column holds the cells of
    all rows. *)
Definition DataFrame := list (string * list A).

Definition columns (df : DataFrame) : list string := map fst df.

(** [len(df)] *)
Definition len (df : DataFrame) : nat :=
  match df with
  | [] => O
  | (_, c) :: _ => List.length c
  end.

Definition same_length (d : list (string * list A)) : bool :=
  match d with
  | [] => true
  | (_, c) :: d' =>
      forallb (fun kc => List.length (snd kc) =? List.length c)%nat d'
  end.

(** [pd.DataFrame(dict)] refuses arrays of different lengths. *)
Definition DataFrame_of (d : list (string * list A)) : result DataFrame :=
  if same_length d then inr d
  else inl (ValueError "All arrays must be of the same length").

(** [df[name]] *)
Fixpoint getitem (df : DataFrame) (name : string) : result (list A) :=
  match df with
  | [] => inl (KeyError name)
  | (k, c) :: df' => if String.eqb k name then inr c else getitem df' name
  end.

(** [df[[name1; ...]]] *)
Fixpoint getitems (df : DataFrame) (names : list string) : result DataFrame :=
  match names with
  | [] => inr []
  | k :: names' =>
      c <- getitem df k ;;
      rest <- getitems df names' ;;
      ret ((k, c) :: rest)
  end.

(** [df.drop(name, axis=1)] *)
Definition drop (df : DataFrame) (name : string) : result DataFrame :=
  if existsb (String.eqb name) (columns df)
  then inr (filter (fun kc => negb (String.eqb (fst kc) name)) df)
  else inl (KeyError name).

Fixpoint replace_column (df : DataFrame) (name : string) (c : list A) : DataFrame :=
  match df with
  | [] => [(name, c)]
  | (k, c0) :: df' =>
      if String.eqb k name then (k, c) :: df'
      else (k, c0) :: replace_column df' name c
  end.

(** [df[name] = c]: overwrites the column or appends a new last one; the
    length of [c] has to be the length of the index. *)
Definition setitem (df : DataFrame) (name : string) (c : list A) : result DataFrame :=
  match df with
  | [] => inr [(name, c)]
  | _ =>
      if (List.length c =? len df)%nat then inr (replace_column df name c)
      else inl (ValueError "Length of values does not match length of index")
  end.

(** Every column has [n] cells. *)
Definition all_length (n : nat) (df : DataFrame) : Prop :=
  Forall (fun kc => List.length (snd kc) = n) df.

(** [df.values]: the table row by row ([default] only fills a cell that a
    ragged table would miss). *)
Definition values (default : A) (df : DataFrame) : list (list A) :=
  map (fun i => map (fun kc => nth i (snd kc) default) df) (seq 0 (len df)).

(** [pd.DataFrame(X, columns=names)] for a row-major array: one name per
    column of the array. *)
Definition DataFrame_of_rows (default : A) (X : list (list A)) (names : list string)
  : result DataFrame :=
  let width := match X with [] => O | row :: _ => List.length row end in
  if (List.length names =? width)%nat
  then inr (map (fun jn => (snd jn, map (fun row => nth (fst jn) row default) X))
                (combine (seq 0 width) names))
  else inl (ValueError "Shape of passed values does not match the columns").

End Frame.

Arguments DataFrame : clear implicits.

(** Float columns that may hold NaN: [None] is NaN. *)

(** The next valid value and how many NaN cells come before it. *)
Fixpoint next_valid (a : list (option Q)) : option (nat * Q) :=
  match a with
  | [] => None
  | Some v :: _ => Some (O, v)
  | None :: a' =>
      match next_valid a' with
      | Some (k, v) => Some (S k, v)
      | None => None
      end
  end.

(** [Series.interpolate()]: NaN cells between two valid cells are filled on
    the straight line between them, NaN cells after the last valid cell
    repeat it, leading NaN cells stay.  [last] is the cell just before [a],
    already filled. *)
Fixpoint interpolate_from (last : option Q) (a : list (option Q)) : list (option Q) :=
  match a with
  | [] => []
  | Some v :: a' => Some v :: interpolate_from (Some v) a'
  | None :: a' =>
      match last with
      | None => None :: interpolate_from None a'
      | Some l =>
          match next_valid a' with
          | Some (k, v) =>
              let filled := l + (v - l) / inject_Z (Z.of_nat (k + 2)) in
              Some filled :: interpolate_from (Some filled) a'
          | None => Some l :: interpolate_from (Some l) a'
          end
      end
  end.

Definition interpolate (a : list (option Q)) : list (option Q) :=
  interpolate_from None a.

(** [Series.rolling(window).mean()]: NaN until the window is full, NaN when
    the window holds one. *)
Fixpoint all_valid (a : list (option Q)) : option (list Q) :=
  match a with
  | [] => Some []
  | Some v :: a' =>
      match all_valid a' with
      | Some vs => Some (v :: vs)
      | None => None
      end
  | None :: _ => None
  end.

Definition rolling_mean (window : nat) (a : list (option Q)) : list (option Q) :=
  map (fun i =>
         if (S i <? window)%nat then None
         else match all_valid (firstn window (skipn (S i - window) a)) with
              | Some w => Some (np.mean w)
              | None => None
              end)
      (seq 0 (List.length a)).

(** [pd.date_range(start, periods=n, freq='D')], dates as day numbers. *)
Definition date_range (start : Z) (periods : nat) : list Z :=
  map (fun i => (start + Z.of_nat i)%Z) (seq 0 periods).

(** [Series.min()] of a column of day numbers (the notebooks never take it
    of an empty column, where pandas answers NaT). *)
Definition min (a : list Z) : Z :=
  match a with
  | [] => 0%Z
  | x :: a' => fold_left Z.min a' x
  end.

(** Reading float cells back as an array; NaN has no rational value and
    reads as 0 here, the columns read this way hold none. *)
Definition to_floats (a : list (option Q)) : list Q :=
  map (fun c => match c with Some v => v | None => 0 end) a.

End pd.

(** ** scikit-learn *)

Module sklearn.
Import py.

(** What the notebooks take from the library as given: the square root of
    the scaler, the shuffling permutation of [train_test_split], the two
    ready-made data sets, and the row-wise feature expansions. *)
Class Library := {
  sqrt : Q -> Q;
  permutation : Z -> nat -> list nat;
  make_classification : nat -> nat -> Z -> list (list Q) * list Z;
  load_iris : list (list Q) * list Z;
  polynomial_row : nat -> list Q -> list Q;
  count_row : list string -> string -> list Q
}.

(** The shapes the library documents for its two data sets:
    [make_classification] returns [n_samples] rows and as many labels, the
    Iris data are 150 rows with 150 labels. *)
Definition documented_shapes (L : Library) : Prop :=
  (forall n_samples n_features random_state,
     List.length (fst (make_classification n_samples n_features random_state)) = n_samples /\
     List.length (snd (make_classification n_samples n_features random_state)) = n_samples) /\
  List.length (fst load_iris) = 150%nat /\ List.length (snd load_iris) = 150%nat.

Section Preprocessing.
Context {L : Library}.

(** Column [j] of a row-major array. *)
Definition column (j : nat) (X : list (list Q)) : list Q :=
  map (fun row => nth j row 0) X.

Definition n_features (X : list (list Q)) : nat :=
  match X with
  | [] => O
  | row :: _ => List.length row
  end.

Definition variance (a : list Q) : Q :=
  np.mean (map (fun x => (x - np.mean a) * (x - np.mean a)) a).

(** A fitted [StandardScaler]: per feature the mean and the scale, the
    standard deviation, or 1 for a constant feature. *)
Record StandardScaler := {
  mean_ : list Q;
  scale_ : list Q
}.

Definition scale_of (a : list Q) : Q :=
  if Qeq_bool (variance a) 0 then 1 else sqrt (variance a).

Definition fit (X : list (list Q)) : StandardScaler :=
  {| mean_ := map (fun j => np.mean (column j X)) (seq 0 (n_features X));
     scale_ := map (fun j => scale_of (column j X)) (seq 0 (n_features X)) |}.

Fixpoint transform_row (row mean scale : list Q) : list Q :=
  match row, mean, scale with
  | x :: row', m :: mean', s :: scale' =>
      ((x - m) / s) :: transform_row row' mean' scale'
  | _, _, _ => []
  end.

Definition transform (sc : StandardScaler) (X : list (list Q)) : list (list Q) :=
  map (fun row => transform_row row (mean_ sc) (scale_ sc)) X.

Definition fit_transform (X : list (list Q)) : list (list Q) :=
  transform (fit X) X.

(** [PolynomialFeatures(degree).fit_transform(X)] and
    [CountVectorizer().fit_transform(corpus)]: one output row per input row. *)
Definition polynomial_features (degree : nat) (X : list (list Q)) : list (list Q) :=
  map (polynomial_row degree) X.

Definition count_vectorizer (corpus : list string) : list (list Q) :=
  map (count_row corpus) corpus.

End Preprocessing.

Section ModelSelection.
Context {L : Library}.

(** Number of test rows for a fractional [test_size]. *)
Definition n_test (test_size : Q) (n_samples : nat) : nat :=
  Z.to_nat (Qceiling (test_size * inject_Z (Z.of_nat n_samples))).

(** Rows of [a] at the positions [idx], in the order of [idx]. *)
Definition take {A : Type} (a : list A) (idx : list nat) : list A :=
  flat_map (fun i => match nth_error a i with
                     | Some r => [r]
                     | None => []
                     end) idx.

(** [train_test_split(X, y, test_size=..., random_state=...)]: the arrays
    must agree in their number of samples; the first [n_test] positions of
    the shuffled index go to the test part, the rest to the training part. *)
Definition train_test_split {A B : Type} (X : list A) (y : list B)
    (test_size : Q) (random_state : Z)
  : result (list A * list A * list B * list B) :=
  if (List.length X =? List.length y)%nat then
    let n_samples := List.length X in
    let shuffled := permutation random_state n_samples in
    let test := firstn (n_test test_size n_samples) shuffled in
    let train := skipn (n_test test_size n_samples) shuffled in
    inr (take X train, take X test, take y train, take y test)
  else
    inl (ValueError "Found input variables with inconsistent numbers of samples").

End ModelSelection.

End sklearn.

(** ** The two PID-tuning notebooks

    [unnamed/part_000] (boosting models) and the first notebook of
    [unnamed/part_001] (decision tree and random forest) hold the same
    simulation cell, character for character, and differ in how they name
    the target table before the split. *)

Module Pid.
Import py.

Record arrays := {
  error : list Q;
  derivative : list Q;
  integral : list Q;
  setpoint : list Q;
  Kp : list Q;
  Ki : list Q;
  Kd : list Q
}.

Definition feature_names : list string :=
  ["Error"; "Derivative"; "Integral"; "Setpoint"].

Definition target_names : list string := ["Kp"; "Ki"; "Kd"].

(** What the cells up to the split leave behind. *)
Record prepared := {
  data : pd.DataFrame Q;
  X : pd.DataFrame Q;
  y : pd.DataFrame Q;
  X_scaled : list (list Q);
  X_train : list (list Q);
  X_test : list (list Q);
  y_train : list (list Q);
  y_test : list (list Q)
}.

Section Cells.
Context {G : np.BitGenerator} {L : sklearn.Library}.

(** part_000:55-68, part_001:69-82.  The literals 2.0, 0.5 and 25 are
    doubles; 0.1, 0.05, 0.02 and 0.01 are not, and stand for the doubles
    nearest to them. *)
Definition simulate (n_samples : nat) : np.random arrays :=
  np.seed 42 ;;
  error <- np.uniform (-2) 2 n_samples ;;
  derivative <- np.uniform (-0.5) 0.5 n_samples ;;
  let integral := np.cumsum error in
  noise <- np.normal 0 0.5 n_samples ;;
  let setpoint := np.sadd 25 noise in
  let Kp := np.vadd (np.sadd 2 (np.smul 0.5 error))
                    (np.smul (np.float 0.1) derivative) in
  let Ki := np.sadd (np.float 0.1) (np.smul (np.float 0.05) integral) in
  let Kd := np.sadd (np.float 0.02) (np.smul (np.float 0.01) derivative) in
  ret {| error := error; derivative := derivative; integral := integral;
         setpoint := setpoint; Kp := Kp; Ki := Ki; Kd := Kd |}.

(** part_000:71-79, part_001:85-93 *)
Definition frame (a : arrays) : result (pd.DataFrame Q) :=
  pd.DataFrame_of
    [("Error", error a); ("Derivative", derivative a);
     ("Integral", integral a); ("Setpoint", setpoint a);
     ("Kp", Kp a); ("Ki", Ki a); ("Kd", Kd a)].

(** part_000:104-111: the targets are selected inside the call of
    [train_test_split]. *)
Definition prepare_boosting (data : pd.DataFrame Q) : result prepared :=
  X <- pd.getitems data ["Error"; "Derivative"; "Integral"; "Setpoint"] ;;
  let X_scaled := sklearn.fit_transform (pd.values 0 X) in
  y <- pd.getitems data ["Kp"; "Ki"; "Kd"] ;;
  parts <- sklearn.train_test_split X_scaled (pd.values 0 y) 0.2 42 ;;
  let '(X_train, X_test, y_train, y_test) := parts in
  ret {| data := data; X := X; y := y; X_scaled := X_scaled;
         X_train := X_train; X_test := X_test;
         y_train := y_train; y_test := y_test |}.

(** part_001:119-127: the targets are bound to [y] first. *)
Definition prepare_forest (data : pd.DataFrame Q) : result prepared :=
  X <- pd.getitems data ["Error"; "Derivative"; "Integral"; "Setpoint"] ;;
  y <- pd.getitems data ["Kp"; "Ki"; "Kd"] ;;
  let X_scaled := sklearn.fit_transform (pd.values 0 X) in
  parts <- sklearn.train_test_split X_scaled (pd.values 0 y) 0.2 42 ;;
  let '(X_train, X_test, y_train, y_test) := parts in
  ret {| data := data; X := X; y := y; X_scaled := X_scaled;
         X_train := X_train; X_test := X_test;
         y_train := y_train; y_test := y_test |}.

(** [n_samples = 1000] in both notebooks. *)
Definition n_samples : nat := 1000.

Definition boosting_notebook : np.random (arrays * result prepared) :=
  a <- simulate n_samples ;;
  ret (a, data <- frame a ;; prepare_boosting data).

Definition forest_notebook : np.random (arrays * result prepared) :=
  a <- simulate n_samples ;;
  ret (a, data <- frame a ;; prepare_forest data).

End Cells.
End Pid.

(** ** Row counts of the columns of a table *)

Module Rows.

(** At one program point: the number of rows of every feature column and of
    every target column of the data the notebook holds. *)
Record snapshot := {
  feature_rows : list nat;
  target_rows : list nat
}.

(** All columns, features and targets alike, have one common row count. *)
Definition consistent (sn : snapshot) : Prop :=
  exists n, Forall (eq n) (feature_rows sn) /\ Forall (eq n) (target_rows sn).

Definition consistentb (sn : snapshot) : bool :=
  match (feature_rows sn ++ target_rows sn)%list with
  | [] => true
  | n :: rest => forallb (Nat.eqb n) rest
  end.

Section Views.
Context {A : Type}.

(** A frame whose columns named in [targets] are the targets. *)
Definition of_frame (targets : list string) (df : pd.DataFrame A) : snapshot :=
  {| feature_rows :=
       map (fun kc => List.length (snd kc))
           (filter (fun kc => negb (existsb (String.eqb (fst kc)) targets)) df);
     target_rows :=
       map (fun kc => List.length (snd kc))
           (filter (fun kc => existsb (String.eqb (fst kc)) targets) df) |}.

(** A row-major feature array with a target vector (or target rows). *)
Definition of_arrays {B : Type} (default : A) (X : list (list A)) (y : list B) : snapshot :=
  {| feature_rows :=
       map (fun j => List.length (map (fun row => nth j row default) X))
           (seq 0 (match X with [] => O | row :: _ => List.length row end));
     target_rows := [List.length y] |}.

End Views.
End Rows.

(** ** Spam filter with Gaussian naive Bayes

    Second notebook of [unnamed/part_001]; the checkpoint
    [lec/lec03/.ipynb_checkpoints/Lec3-2_Demo-checkpoint.ipynb] holds the
    same cells up to the evaluation. *)

Module Spam.
Import py.

(** part_001:411-416 *)
Definition data : list (string * list Z) :=
  [("EmailID", np.arange 1 21);
   ("WordCount", [350; 200; 500; 150; 300; 450; 600; 250; 550; 400;
                  700; 100; 450; 370; 650; 230; 510; 330; 600; 220]%Z);
   ("CapFrequency", [2; 1; 3; 0; 4; 2; 3; 1; 3; 0;
                     5; 0; 2; 3; 4; 1; 3; 2; 4; 1]%Z);
   ("Spam", [1; 0; 1; 0; 1; 0; 1; 0; 1; 0;
             1; 0; 1; 0; 1; 0; 1; 0; 1; 0]%Z)].

Section Cells.
Context {L : sklearn.Library}.

(** part_001:418-457 *)
Definition tables : result (list Rows.snapshot) :=
  df <- pd.DataFrame_of data ;;
  X <- pd.getitems df ["WordCount"; "CapFrequency"] ;;
  y <- pd.getitem df "Spam" ;;
  _ <- sklearn.train_test_split (pd.values 0%Z X) y 0.2 42 ;;
  ret [Rows.of_frame ["Spam"] df;
       Rows.of_arrays 0%Z (pd.values 0%Z X) y].

End Cells.
End Spam.

(** ** Loan default with logistic regression ([unnamed/part_003]) *)

Module Loan.
Import py.

Record arrays := {
  income : list Z;
  age : list Z;
  credit_score : list Z;
  loan_default : list Z
}.

Section Cells.
Context {G : np.BitGenerator} {L : sklearn.Library}.

(** part_003:61-67 *)
Definition generate (n_samples : nat) : np.random arrays :=
  np.seed 42 ;;
  income <- np.randint 30000 150000 n_samples ;;
  age <- np.randint 18 70 n_samples ;;
  credit_score <- np.randint 600 800 n_samples ;;
  loan_default <- np.choice2 0%Z 1%Z 0.7 n_samples ;;
  ret {| income := income; age := age; credit_score := credit_score;
         loan_default := loan_default |}.

(** part_003:69-100 *)
Definition tables_of (a : arrays) : result (list Rows.snapshot) :=
  df <- pd.DataFrame_of
          [("Income", income a); ("Age", age a);
           ("Credit Score", credit_score a); ("Loan Default", loan_default a)] ;;
  X <- pd.getitems df ["Income"; "Age"; "Credit Score"] ;;
  y <- pd.getitem df "Loan Default" ;;
  _ <- sklearn.train_test_split (pd.values 0%Z X) y 0.2 42 ;;
  ret [Rows.of_frame ["Loan Default"] df;
       Rows.of_arrays 0%Z (pd.values 0%Z X) y].

Definition n_samples : nat := 1000.

Definition tables : np.random (result (list Rows.snapshot)) :=
  a <- generate n_samples ;; ret (tables_of a).

End Cells.
End Loan.

(** ** Wearable sensor data with logistic regression
    ([lec/lec05/Lec5_2_Demo.ipynb]) *)

Module Wearable.
Import py.

(** Lec5_2_Demo:81-88; the integer columns are written as floats, the
    frame has one float column. *)
Definition sample_data : list (string * list Q) :=
  [("heart_rate", [72; 80; 78; 65; 85; 92; 68; 76; 77; 79]);
   ("steps", [1000; 1500; 1200; 800; 1800; 2000; 900; 1000; 1100; 1300]);
   ("temperature", [36.5; 37.0; 36.8; 36.4; 37.1; 37.5; 36.6; 36.7; 36.9; 37.2]);
   ("activity_level", [1; 3; 2; 1; 4; 5; 1; 2; 3; 4]);
   ("sleep_duration", [7; 6; 7; 8; 5; 4; 8; 7; 6; 5]);
   ("label", [0; 1; 0; 0; 1; 1; 0; 0; 1; 0])].

Record arrays := {
  heart_rate : list Z;
  steps : list Z;
  temperature : list Q;
  activity_level : list Z;
  sleep_duration : list Z;
  label : list Z
}.

Section Cells.
Context {G : np.BitGenerator} {L : sklearn.Library}.

(** Lec5_2_Demo:115-123 *)
Definition generate (n_samples : nat) : np.random arrays :=
  np.seed 42 ;;
  heart_rate <- np.randint 60 100 n_samples ;;
  steps <- np.randint 500 2500 n_samples ;;
  temperature <- np.uniform 36.0 37.5 n_samples ;;
  activity_level <- np.randint 1 6 n_samples ;;
  sleep_duration <- np.randint 4 9 n_samples ;;
  label <- np.choice2 0%Z 1%Z 0.7 n_samples ;;
  ret {| heart_rate := heart_rate; steps := steps; temperature := temperature;
         activity_level := activity_level; sleep_duration := sleep_duration;
         label := label |}.

(** Lec5_2_Demo:91-95, 126-139, 186-229 *)
Definition tables_of (a : arrays) : result (list Rows.snapshot) :=
  df0 <- pd.DataFrame_of sample_data ;;
  X0 <- pd.drop df0 "label" ;;
  y0 <- pd.getitem df0 "label" ;;
  df <- pd.DataFrame_of
          [("heart_rate", map inject_Z (heart_rate a));
           ("steps", map inject_Z (steps a));
           ("temperature", temperature a);
           ("activity_level", map inject_Z (activity_level a));
           ("sleep_duration", map inject_Z (sleep_duration a));
           ("label", map inject_Z (label a))] ;;
  X <- pd.drop df "label" ;;
  y <- pd.getitem df "label" ;;
  let X_scaled := sklearn.fit_transform (pd.values 0 X) in
  _ <- sklearn.train_test_split X_scaled y 0.1 42 ;;
  ret [Rows.of_frame ["label"] df0;
       Rows.of_arrays 0 (pd.values 0 X0) y0;
       Rows.of_frame ["label"] df;
       Rows.of_arrays 0 (pd.values 0 X) y;
       Rows.of_arrays 0 X_scaled y].

Definition n_samples : nat := 1000.

Definition tables : np.random (result (list Rows.snapshot)) :=
  a <- generate n_samples ;; ret (tables_of a).

End Cells.
End Wearable.

(** ** Stock prices with polynomial regression
    (first notebook of [unnamed/part_002]) *)

Module Stock.
Import py.

Record arrays := {
  daily_returns : list Q;
  stock_prices : list Q
}.

(** 2020-01-01 as a day number (days since 1970-01-01). *)
Definition start_date : Z := 18262.

Section Cells.
Context {G : np.BitGenerator} {L : sklearn.Library}.

(** part_002:78-86: no call of [np.random.seed] comes before the draw. *)
Definition generate (initial_price volatility : Q) (n_days : nat) : np.random arrays :=
  daily_returns <- np.normal 0 volatility n_days ;;
  let stock_prices := np.sadd initial_price (np.cumsum daily_returns) in
  ret {| daily_returns := daily_returns; stock_prices := stock_prices |}.

(** part_002:89-117, 183-187, 259.  [Date] holds day numbers, first as
    dates and from line 116 on as days since the first date. *)
Definition tables_of (n_days : nat) (a : arrays) : result (list Rows.snapshot) :=
  let dates := pd.date_range start_date n_days in
  df <- pd.DataFrame_of
          [("Date", map (fun d => Some (inject_Z d)) dates);
           ("Stock Price", map Some (stock_prices a))] ;;
  price <- pd.getitem df "Stock Price" ;;
  df1 <- pd.setitem df "Stock Price" (pd.interpolate price) ;;
  price1 <- pd.getitem df1 "Stock Price" ;;
  df2 <- pd.setitem df1 "Moving Average" (pd.rolling_mean 5 price1) ;;
  let days := map (fun d => (d - pd.min dates)%Z) dates in
  df3 <- pd.setitem df2 "Date" (map (fun d => Some (inject_Z d)) days) ;;
  sel <- pd.getitems df3 ["Date"; "Stock Price"] ;;
  let scaled := sklearn.fit_transform (pd.values 0 (map (fun kc => (fst kc, pd.to_floats (snd kc))) sel)) in
  df4 <- pd.setitem df3 "Date" (map Some (sklearn.column 0 scaled)) ;;
  df5 <- pd.setitem df4 "Stock Price" (map Some (sklearn.column 1 scaled)) ;;
  Xf <- pd.getitems df5 ["Date"] ;;
  let X := pd.values 0 (map (fun kc => (fst kc, pd.to_floats (snd kc))) Xf) in
  yc <- pd.getitem df5 "Stock Price" ;;
  let y := pd.to_floats yc in
  let X_poly := sklearn.polynomial_features 3 X in
  _ <- sklearn.train_test_split X_poly y 0.2 42 ;;
  ret [Rows.of_frame ["Stock Price"] df;
       Rows.of_frame ["Stock Price"] df1;
       Rows.of_frame ["Stock Price"] df2;
       Rows.of_frame ["Stock Price"] df3;
       Rows.of_frame ["Stock Price"] df5;
       Rows.of_arrays 0 X y;
       Rows.of_arrays 0 X_poly y].

Definition initial_price : Q := 100.
Definition volatility : Q := 1.
Definition n_days : nat := 500.

Definition tables : np.random (result (list Rows.snapshot)) :=
  a <- generate initial_price volatility n_days ;; ret (tables_of n_days a).

End Cells.
End Stock.

(** ** House prices with linear regression
    (second notebook of [unnamed/part_002]) *)

Module House.
Import py.

(** [a.reshape(-1, 1)] and [X.flatten()] *)
Definition reshape_column {A : Type} (a : list A) : list (list A) :=
  map (fun x => [x]) a.

Definition flatten {A : Type} (X : list (list A)) : list A := List.concat X.

(** part_002:427-428 *)
Definition small_X : list (list Q) := reshape_column [1500; 1800; 2400; 3000; 1200].
Definition small_y : list Q := [350000; 450000; 500000; 600000; 250000].

Section Cells.
Context {G : np.BitGenerator} {L : sklearn.Library}.

(** part_002:440-444 *)
Definition generate (n : nat) : np.random (list (list Q) * list Q) :=
  np.seed 42 ;;
  sqft <- np.uniform 1000 4000 n ;;
  let X := reshape_column sqft in
  noise <- np.normal 0 50000 n ;;
  let y := np.vadd (np.adds (np.smul 100 (flatten X)) 50000) noise in
  ret (X, y).

(** part_002:469 *)
Definition tables_of (Xy : list (list Q) * list Q) : result (list Rows.snapshot) :=
  let '(X, y) := Xy in
  _ <- sklearn.train_test_split X y 0.2 42 ;;
  ret [Rows.of_arrays 0 small_X small_y; Rows.of_arrays 0 X y].

Definition tables : np.random (result (list Rows.snapshot)) :=
  Xy <- generate 1000 ;; ret (tables_of Xy).

End Cells.
End House.

(** ** Fruit classification with decision trees
    (third notebook of [lec/lec02/Lec2-3_Demo.ipynb]) *)

Module Fruit.
Import py.

(** The frame mixes integer columns with a column of names. *)
Inductive cell :=
| int (z : Z)
| str (s : string).

Section Cells.
Context {G : np.BitGenerator} {L : sklearn.Library}.

(** [(feature1 > 200) & (feature2 > 5)], element by element. *)
Fixpoint heavy_and_sweet (feature1 feature2 : list Z) : list bool :=
  match feature1, feature2 with
  | w :: f1, s :: f2 => ((200 <? w)%Z && (5 <? s)%Z) :: heavy_and_sweet f1 f2
  | _, _ => []
  end.

(** Lec2-3_Demo:458-463 *)
Definition generate (size : nat) : np.random (list Z * list Z * list string) :=
  np.seed 42 ;;
  feature1 <- np.randint 100 300 size ;;
  feature2 <- np.randint 1 10 size ;;
  let labels := np.where_ (fun b : bool => b) "Apple" "Orange"
                          (heavy_and_sweet feature1 feature2) in
  ret (feature1, feature2, labels).

(** Lec2-3_Demo:466-499 *)
Definition tables_of (g : list Z * list Z * list string) : result (list Rows.snapshot) :=
  let '(feature1, feature2, labels) := g in
  df <- pd.DataFrame_of
          [("Feature1", map int feature1); ("Feature2", map int feature2);
           ("Label", map str labels)] ;;
  Xf <- pd.getitems df ["Feature1"; "Feature2"] ;;
  let X := pd.values (int 0) Xf in
  y <- pd.getitem df "Label" ;;
  _ <- sklearn.train_test_split X y 0.3 42 ;;
  ret [Rows.of_frame ["Label"] df; Rows.of_arrays (int 0) X y].

Definition tables : np.random (result (list Rows.snapshot)) :=
  g <- generate 100 ;; ret (tables_of g).

End Cells.
End Fruit.

(** ** E-mail spam with multinomial naive Bayes
    (first notebook of [lec/lec02/Lec2-3_Demo.ipynb]) *)

Module Emails.
Import py.

(** Lec2-3_Demo:41-48 *)
Definition emails : list string :=
  ["Congratulations, you won a prize! Claim your free gift now";
   "Your invoice for the purchase is attached";
   "Get rich quick with this limited offer";
   "Important update regarding your account"].

Definition labels : list Z := [1; 0; 1; 0]%Z.

Section Cells.
Context {L : sklearn.Library}.

(** Lec2-3_Demo:75-87 *)
Definition tables : result (list Rows.snapshot) :=
  let X := sklearn.count_vectorizer emails in
  _ <- sklearn.train_test_split X labels 0.2 42 ;;
  ret [{| Rows.feature_rows := [List.length emails];
          Rows.target_rows := [List.length labels] |};
       Rows.of_arrays 0 X labels].

End Cells.
End Emails.

(** ** Decision-tree pruning on Iris
    (second notebook of [lec/lec02/Lec2-3_Demo.ipynb]) *)

Module Iris.
Import py.

Section Cells.
Context {L : sklearn.Library}.

(** Lec2-3_Demo:205-232 *)
Definition tables : result (list Rows.snapshot) :=
  let data := sklearn.load_iris in
  let X := fst data in
  let y := snd data in
  _ <- sklearn.train_test_split X y 0.2 42 ;;
  ret [Rows.of_arrays 0 X y].

End Cells.
End Iris.

(** ** Fault detection with bagging and boosting
    ([lec/lec07/Lec7_1_Demo.ipynb]) *)

Module Fault.
Import py.

Section Cells.
Context {L : sklearn.Library}.

(** Lec7_1_Demo:73: the data come from the library, seeded through its
    [random_state] argument; the global generator is not touched. *)
Definition generate : list (list Q) * list Z :=
  sklearn.make_classification 1000 20 42.

(** [f'Feature_{i+1}' for i in range(X.shape[1])] *)
Definition feature_names (X : list (list Q)) : list string :=
  map (fun i => "Feature_" ++ NilZero.string_of_uint (Nat.to_uint (i + 1)))
      (seq 0 (sklearn.n_features X)).

(** Lec7_1_Demo:76-89 *)
Definition tables_of (Xy : list (list Q) * list Z) : result (list Rows.snapshot) :=
  let '(X, y) := Xy in
  df <- pd.DataFrame_of_rows 0 X (feature_names X) ;;
  df1 <- pd.setitem df "Target" (map inject_Z y) ;;
  _ <- sklearn.train_test_split X y 0.2 42 ;;
  ret [Rows.of_arrays 0 X y;
       Rows.of_frame ["Target"] df1].

Definition tables : result (list Rows.snapshot) := tables_of generate.

End Cells.
End Fault.

(** ** The two functions of the spam notebook (part_001:543-547, 573-577)

    Both read the global fitted model [gnb].  [np.array] and [gnb.predict]
    are the library's: any function that returns or raises. *)

Module UnseenInput.
Import py.

Definition label (prediction : Z) : string :=
  if (prediction =? 1)%Z then "Spam" else "Not Spam".

Section Functions.
Variable np_array : list (list Z) -> result (list (list Z)).
Variable gnb_predict : list (list Z) -> result (list Z).

(** [predictions[0]] *)
Definition first (predictions : list Z) : M string Z :=
  match predictions with
  | p :: _ => ret p
  | [] => raise (IndexError "index 0 is out of bounds for axis 0 with size 0")
  end.

Definition predict_single_email (word_count cap_frequency : Z) : M string string :=
  input_data <- call "np.array" (np_array [[word_count; cap_frequency]]) ;;
  predictions <- call "gnb.predict" (gnb_predict input_data) ;;
  prediction <- first predictions ;;
  ret (if (prediction =? 1)%Z then "Spam" else "Not Spam").

Definition predict_batch_emails (email_list : list (list Z)) : M string (list string) :=
  input_data <- call "np.array" (np_array email_list) ;;
  predictions <- call "gnb.predict" (gnb_predict input_data) ;;
  ret (map (fun pred => if (pred =? 1)%Z then "Spam" else "Not Spam") predictions).

End Functions.
End UnseenInput.

(** ** Evaluation metrics

    Modelled from the spec: [accuracy_score] and [r2_score] are functions of
    scikit-learn, which the notebooks import and call (part_000:206-214,
    part_001:521); their code is not part of the repository.  The
    definitions are the standard ones the spec's glossary refers to: the
    share of positions where prediction and truth agree, and one minus the
    residual sum of squares over the total sum of squares (with the
    library's values 1 and 0 when the truth is constant). *)

Module metrics.

Fixpoint matches (y_true y_pred : list Z) : nat :=
  match y_true, y_pred with
  | t :: y_true', p :: y_pred' =>
      ((if (t =? p)%Z then 1 else 0) + matches y_true' y_pred')%nat
  | _, _ => O
  end.

Definition accuracy_score (y_true y_pred : list Z) : Q :=
  inject_Z (Z.of_nat (matches y_true y_pred)) /
  inject_Z (Z.of_nat (List.length y_true)).

(** Sum of the squared differences, position by position. *)
Fixpoint ss (a b : list Q) : Q :=
  match a, b with
  | x :: a', y :: b' => (x - y) * (x - y) + ss a' b'
  | _, _ => 0
  end.

Definition ss_res (y_true y_pred : list Q) : Q := ss y_true y_pred.

Definition ss_tot (y_true : list Q) : Q :=
  ss y_true (map (fun _ => np.mean y_true) y_true).

Definition r2_score (y_true y_pred : list Q) : Q :=
  if Qeq_bool (ss_tot y_true) 0 then
    (if Qeq_bool (ss_res y_true y_pred) 0 then 1 else 0)
  else 1 - ss_res y_true y_pred / ss_tot y_true.

End metrics.

(** ** The notebooks as scripts

    Every notebook is straight-line code: its code cells, top to bottom, are
    a sequence of assignments and calls without branches or loops.  A
    statement is kept with the line of the file it stands on, the variables
    it binds, the receiver and the name of the function it calls ("=" for
    an assignment whose right-hand side calls nothing, "def" for a function
    definition), and the variables its arguments read.  The result of a call
    that is used without being bound is named by line and function.  Calls
    of the notebook's own functions are replaced by the statements of their
    bodies, the parameters replaced by the variables passed.  Calls that only
    label, lay out or print and bind nothing ([print], [plt.xlabel],
    [plt.ylabel], [plt.title], [plt.legend], [plt.figure], [plt.subplot],
    [plt.tight_layout], [plt.colorbar], [plt.show], [ax.set_title],
    [df.head]) and the imports are left out; [min], [max], [len], [range]
    and [sqrt] count as part of the expression they stand in. *)

Module Script.
Import py.

Record stmt := Stmt {
  line : nat;
  binds : list string;
  receiver : string;
  func : string;
  reads : list string
}.

Record notebook := {
  title : string;
  file : string;
  body : list stmt
}.

(** part_000:249-255 *)
Definition plot_predictions (true_values predicted_values : string) : list stmt :=
  [Stmt 250 ["250:scatter"] "plt" "scatter" [true_values; predicted_values];
   Stmt 251 ["251:plot"] "plt" "plot" [true_values]].

(** part_001:543-547 *)
Definition predict_single_email (word_count cap_frequency : string) : list stmt :=
  [Stmt 545 ["input_data"] "np" "array" [word_count; cap_frequency];
   Stmt 546 ["546:predict"] "gnb" "predict" ["input_data"];
   Stmt 546 ["prediction"] "" "=" ["546:predict"];
   Stmt 547 ["return"] "" "=" ["prediction"]].

(** part_001:573-577 *)
Definition predict_batch_emails (email_list : string) : list stmt :=
  [Stmt 575 ["input_data"] "np" "array" [email_list];
   Stmt 576 ["predictions"] "gnb" "predict" ["input_data"];
   Stmt 577 ["return"] "" "=" ["predictions"]].

Definition pid_boosting : notebook :=
  {| title := "PID Controller Tuning using Boosting Models";
     file := "unnamed/part_000";
     body :=
    [Stmt 56 ["56:seed"] "np.random" "seed" [];
     Stmt 59 ["n_samples"] "" "=" [];
     Stmt 60 ["error"] "np.random" "uniform" ["n_samples"];
     Stmt 61 ["derivative"] "np.random" "uniform" ["n_samples"];
     Stmt 62 ["integral"] "np" "cumsum" ["error"];
     Stmt 63 ["63:normal"] "np.random" "normal" ["n_samples"];
     Stmt 63 ["setpoint"] "" "=" ["63:normal"];
     Stmt 66 ["Kp"] "" "=" ["error"; "derivative"];
     Stmt 67 ["Ki"] "" "=" ["integral"];
     Stmt 68 ["Kd"] "" "=" ["derivative"];
     Stmt 71 ["data"] "pd" "DataFrame" ["error"; "derivative"; "integral"; "setpoint"; "Kp"; "Ki"; "Kd"];
     Stmt 104 ["X"] "" "=" ["data"];
     Stmt 107 ["scaler"] "" "StandardScaler" [];
     Stmt 108 ["X_scaled"] "scaler" "fit_transform" ["X"];
     Stmt 111 ["X_train"; "X_test"; "y_train"; "y_test"] "" "train_test_split" ["X_scaled"; "data"];
     Stmt 136 ["ada_model_kp"] "" "AdaBoostRegressor" [];
     Stmt 137 ["137:fit"] "ada_model_kp" "fit" ["X_train"; "y_train"];
     Stmt 140 ["ada_model_ki"] "" "AdaBoostRegressor" [];
     Stmt 141 ["141:fit"] "ada_model_ki" "fit" ["X_train"; "y_train"];
     Stmt 144 ["ada_model_kd"] "" "AdaBoostRegressor" [];
     Stmt 145 ["145:fit"] "ada_model_kd" "fit" ["X_train"; "y_train"];
     Stmt 148 ["gb_model_kp"] "" "GradientBoostingRegressor" [];
     Stmt 149 ["149:fit"] "gb_model_kp" "fit" ["X_train"; "y_train"];
     Stmt 152 ["gb_model_ki"] "" "GradientBoostingRegressor" [];
     Stmt 153 ["153:fit"] "gb_model_ki" "fit" ["X_train"; "y_train"];
     Stmt 156 ["gb_model_kd"] "" "GradientBoostingRegressor" [];
     Stmt 157 ["157:fit"] "gb_model_kd" "fit" ["X_train"; "y_train"];
     Stmt 160 ["xg_model_kp"] "xgb" "XGBRegressor" [];
     Stmt 161 ["161:fit"] "xg_model_kp" "fit" ["X_train"; "y_train"];
     Stmt 164 ["xg_model_ki"] "xgb" "XGBRegressor" [];
     Stmt 165 ["165:fit"] "xg_model_ki" "fit" ["X_train"; "y_train"];
     Stmt 168 ["xg_model_kd"] "xgb" "XGBRegressor" [];
     Stmt 169 ["169:fit"] "xg_model_kd" "fit" ["X_train"; "y_train"];
     Stmt 193 ["ada_predictions_kp"] "ada_model_kp" "predict" ["X_test"];
     Stmt 194 ["ada_predictions_ki"] "ada_model_ki" "predict" ["X_test"];
     Stmt 195 ["ada_predictions_kd"] "ada_model_kd" "predict" ["X_test"];
     Stmt 197 ["gb_predictions_kp"] "gb_model_kp" "predict" ["X_test"];
     Stmt 198 ["gb_predictions_ki"] "gb_model_ki" "predict" ["X_test"];
     Stmt 199 ["gb_predictions_kd"] "gb_model_kd" "predict" ["X_test"];
     Stmt 201 ["xg_predictions_kp"] "xg_model_kp" "predict" ["X_test"];
     Stmt 202 ["xg_predictions_ki"] "xg_model_ki" "predict" ["X_test"];
     Stmt 203 ["xg_predictions_kd"] "xg_model_kd" "predict" ["X_test"];
     Stmt 206 ["r2_ada_kp"] "" "r2_score" ["y_test"; "ada_predictions_kp"];
     Stmt 207 ["r2_ada_ki"] "" "r2_score" ["y_test"; "ada_predictions_ki"];
     Stmt 208 ["r2_ada_kd"] "" "r2_score" ["y_test"; "ada_predictions_kd"];
     Stmt 209 ["r2_gb_kp"] "" "r2_score" ["y_test"; "gb_predictions_kp"];
     Stmt 210 ["r2_gb_ki"] "" "r2_score" ["y_test"; "gb_predictions_ki"];
     Stmt 211 ["r2_gb_kd"] "" "r2_score" ["y_test"; "gb_predictions_kd"];
     Stmt 212 ["r2_xg_kp"] "" "r2_score" ["y_test"; "xg_predictions_kp"];
     Stmt 213 ["r2_xg_ki"] "" "r2_score" ["y_test"; "xg_predictions_ki"];
     Stmt 214 ["r2_xg_kd"] "" "r2_score" ["y_test"; "xg_predictions_kd"];
     Stmt 249 ["plot_predictions"] "" "def" []]
    ++
    plot_predictions "y_test" "ada_predictions_kp"
    ++
    plot_predictions "y_test" "gb_predictions_kp"
    ++
    plot_predictions "y_test" "xg_predictions_kp"
    ++
    plot_predictions "y_test" "ada_predictions_ki"
    ++
    plot_predictions "y_test" "gb_predictions_ki"
    ++
    plot_predictions "y_test" "xg_predictions_ki"
    ++
    plot_predictions "y_test" "ada_predictions_kd"
    ++
    plot_predictions "y_test" "gb_predictions_kd"
    ++
    plot_predictions "y_test" "xg_predictions_kd" |}.

Definition pid_forest : notebook :=
  {| title := "PID Parameter Prediction using Random Forest";
     file := "unnamed/part_001";
     body :=
    [Stmt 70 ["70:seed"] "np.random" "seed" [];
     Stmt 73 ["n_samples"] "" "=" [];
     Stmt 74 ["error"] "np.random" "uniform" ["n_samples"];
     Stmt 75 ["derivative"] "np.random" "uniform" ["n_samples"];
     Stmt 76 ["integral"] "np" "cumsum" ["error"];
     Stmt 77 ["77:normal"] "np.random" "normal" ["n_samples"];
     Stmt 77 ["setpoint"] "" "=" ["77:normal"];
     Stmt 80 ["Kp"] "" "=" ["error"; "derivative"];
     Stmt 81 ["Ki"] "" "=" ["integral"];
     Stmt 82 ["Kd"] "" "=" ["derivative"];
     Stmt 85 ["data"] "pd" "DataFrame" ["error"; "derivative"; "integral"; "setpoint"; "Kp"; "Ki"; "Kd"];
     Stmt 119 ["X"] "" "=" ["data"];
     Stmt 120 ["y"] "" "=" ["data"];
     Stmt 123 ["scaler"] "" "StandardScaler" [];
     Stmt 124 ["X_scaled"] "scaler" "fit_transform" ["X"];
     Stmt 127 ["X_train"; "X_test"; "y_train"; "y_test"] "" "train_test_split" ["X_scaled"; "y"];
     Stmt 152 ["dt_model"] "" "DecisionTreeRegressor" [];
     Stmt 153 ["153:fit"] "dt_model" "fit" ["X_train"; "y_train"];
     Stmt 156 ["rf_model"] "" "RandomForestRegressor" [];
     Stmt 157 ["157:fit"] "rf_model" "fit" ["X_train"; "y_train"];
     Stmt 182 ["dt_predictions"] "dt_model" "predict" ["X_test"];
     Stmt 183 ["rf_predictions"] "rf_model" "predict" ["X_test"];
     Stmt 208 ["dt_r2_kp"] "" "r2_score" ["y_test"; "dt_predictions"];
     Stmt 209 ["rf_r2_kp"] "" "r2_score" ["y_test"; "rf_predictions"];
     Stmt 211 ["dt_r2_ki"] "" "r2_score" ["y_test"; "dt_predictions"];
     Stmt 212 ["rf_r2_ki"] "" "r2_score" ["y_test"; "rf_predictions"];
     Stmt 214 ["dt_r2_kd"] "" "r2_score" ["y_test"; "dt_predictions"];
     Stmt 215 ["rf_r2_kd"] "" "r2_score" ["y_test"; "rf_predictions"];
     Stmt 256 ["256:scatter"] "plt" "scatter" ["y_test"];
     Stmt 257 ["257:scatter"] "plt" "scatter" ["y_test"; "dt_predictions"];
     Stmt 264 ["264:scatter"] "plt" "scatter" ["y_test"];
     Stmt 265 ["265:scatter"] "plt" "scatter" ["y_test"; "dt_predictions"];
     Stmt 272 ["272:scatter"] "plt" "scatter" ["y_test"];
     Stmt 273 ["273:scatter"] "plt" "scatter" ["y_test"; "dt_predictions"];
     Stmt 310 ["310:scatter"] "plt" "scatter" ["y_test"];
     Stmt 311 ["311:scatter"] "plt" "scatter" ["y_test"; "rf_predictions"];
     Stmt 318 ["318:scatter"] "plt" "scatter" ["y_test"];
     Stmt 319 ["319:scatter"] "plt" "scatter" ["y_test"; "rf_predictions"];
     Stmt 326 ["326:scatter"] "plt" "scatter" ["y_test"];
     Stmt 327 ["327:scatter"] "plt" "scatter" ["y_test"; "rf_predictions"]] |}.

Definition spam_filter : notebook :=
  {| title := "Gaussian Naive Bayes Assisted Spam Email Filtering";
     file := "unnamed/part_001";
     body :=
    [Stmt 412 ["412:arange"] "np" "arange" [];
     Stmt 411 ["data"] "" "=" ["412:arange"];
     Stmt 418 ["df"] "pd" "DataFrame" ["data"];
     Stmt 453 ["X"] "" "=" ["df"];
     Stmt 454 ["y"] "" "=" ["df"];
     Stmt 457 ["X_train"; "X_test"; "y_train"; "y_test"] "" "train_test_split" ["X"; "y"];
     Stmt 484 ["gnb"] "" "GaussianNB" [];
     Stmt 487 ["487:fit"] "gnb" "fit" ["X_train"; "y_train"];
     Stmt 514 ["y_pred"] "gnb" "predict" ["X_test"];
     Stmt 521 ["accuracy"] "" "accuracy_score" ["y_test"; "y_pred"];
     Stmt 525 ["cm"] "" "confusion_matrix" ["y_test"; "y_pred"];
     Stmt 543 ["predict_single_email"] "" "def" [];
     Stmt 560 ["sample_email"] "" "=" []]
    ++
    predict_single_email "sample_email" "sample_email"
    ++
    [Stmt 573 ["predict_batch_emails"] "" "def" [];
     Stmt 590 ["sample_batch"] "" "=" []]
    ++
    predict_batch_emails "sample_batch" |}.

Definition stock_prices : notebook :=
  {| title := "Stock Price Prediction using Polynomial Regression";
     file := "unnamed/part_002";
     body :=
    [Stmt 78 ["initial_price"] "" "=" [];
     Stmt 79 ["volatility"] "" "=" [];
     Stmt 80 ["n_days"] "" "=" [];
     Stmt 83 ["daily_returns"] "np.random" "normal" ["volatility"; "n_days"];
     Stmt 86 ["86:cumsum"] "np" "cumsum" ["daily_returns"];
     Stmt 86 ["stock_prices"] "" "=" ["initial_price"; "86:cumsum"];
     Stmt 90 ["90:date_range"] "pd" "date_range" ["n_days"];
     Stmt 89 ["df"] "pd" "DataFrame" ["90:date_range"; "stock_prices"];
     Stmt 109 ["109:interpolate"] "df" "interpolate" [];
     Stmt 112 ["112:rolling"] "df" "rolling" [];
     Stmt 112 ["df"] "112:rolling" "mean" [];
     Stmt 115 ["scaler"] "" "StandardScaler" [];
     Stmt 116 ["116:min"] "df" "min" [];
     Stmt 116 ["df"] "" "=" ["df"; "116:min"];
     Stmt 117 ["df"] "scaler" "fit_transform" ["df"];
     Stmt 141 ["141:plot"] "plt" "plot" ["df"];
     Stmt 179 ["poly_degree"] "" "=" [];
     Stmt 180 ["poly"] "" "PolynomialFeatures" ["poly_degree"];
     Stmt 183 ["X"] "" "=" ["df"];
     Stmt 184 ["y"] "" "=" ["df"];
     Stmt 187 ["X_poly"] "poly" "fit_transform" ["X"];
     Stmt 208 ["208:scatter"] "plt" "scatter" ["X"; "y"];
     Stmt 215 ["X_poly_transformed"] "poly" "fit_transform" ["X"];
     Stmt 217 ["217:plot"] "plt" "plot" ["X"; "X_poly_transformed"];
     Stmt 218 ["218:plot"] "plt" "plot" ["X"; "X_poly_transformed"];
     Stmt 219 ["219:plot"] "plt" "plot" ["X"; "X_poly_transformed"];
     Stmt 259 ["X_train"; "X_test"; "y_train"; "y_test"] "" "train_test_split" ["X_poly"; "y"];
     Stmt 262 ["model"] "" "LinearRegression" [];
     Stmt 263 ["263:fit"] "model" "fit" ["X_train"; "y_train"];
     Stmt 266 ["y_pred"] "model" "predict" ["X_poly"];
     Stmt 268 ["268:scatter"] "plt" "scatter" ["X"; "y"];
     Stmt 269 ["269:plot"] "plt" "plot" ["X"; "y_pred"; "poly_degree"];
     Stmt 295 ["y_train_pred"] "model" "predict" ["X_train"];
     Stmt 296 ["y_test_pred"] "model" "predict" ["X_test"];
     Stmt 298 ["298:mean_squared_error"] "" "mean_squared_error" ["y_train"; "y_train_pred"];
     Stmt 298 ["rmse_train"] "" "=" ["298:mean_squared_error"];
     Stmt 299 ["299:mean_squared_error"] "" "mean_squared_error" ["y_test"; "y_test_pred"];
     Stmt 299 ["rmse_test"] "" "=" ["299:mean_squared_error"];
     Stmt 300 ["r2_train"] "" "r2_score" ["y_train"; "y_train_pred"];
     Stmt 301 ["r2_test"] "" "r2_score" ["y_test"; "y_test_pred"]] |}.

Definition house_prices : notebook :=
  {| title := "Predicting House Prices Using Linear Regression";
     file := "unnamed/part_002";
     body :=
    [Stmt 427 ["427:array"] "np" "array" [];
     Stmt 427 ["X"] "427:array" "reshape" [];
     Stmt 428 ["y"] "np" "array" [];
     Stmt 440 ["440:seed"] "np.random" "seed" [];
     Stmt 441 ["441:uniform"] "np.random" "uniform" [];
     Stmt 441 ["X"] "441:uniform" "reshape" [];
     Stmt 444 ["444:flatten"] "X" "flatten" [];
     Stmt 444 ["444:normal"] "np.random" "normal" [];
     Stmt 444 ["y"] "" "=" ["444:flatten"; "444:normal"];
     Stmt 469 ["X_train"; "X_test"; "y_train"; "y_test"] "" "train_test_split" ["X"; "y"];
     Stmt 494 ["model"] "" "LinearRegression" [];
     Stmt 495 ["495:fit"] "model" "fit" ["X_train"; "y_train"];
     Stmt 498 ["theta_0"] "" "=" ["model"];
     Stmt 499 ["theta_1"] "" "=" ["model"];
     Stmt 524 ["y_pred"] "model" "predict" ["X_test"];
     Stmt 525 ["mse"] "" "mean_squared_error" ["y_test"; "y_pred"];
     Stmt 526 ["r2"] "" "r2_score" ["y_test"; "y_pred"];
     Stmt 551 ["551:array"] "np" "array" [];
     Stmt 551 ["predicted_price"] "model" "predict" ["551:array"];
     Stmt 575 ["575:scatter"] "plt" "scatter" ["X_test"; "y_test"];
     Stmt 576 ["576:predict"] "model" "predict" ["X_test"];
     Stmt 576 ["576:plot"] "plt" "plot" ["X_test"; "576:predict"]] |}.

Definition loan_default : notebook :=
  {| title := "Predicting Loan Default using Logistic Regression";
     file := "unnamed/part_003";
     body :=
    [Stmt 61 ["61:seed"] "np.random" "seed" [];
     Stmt 63 ["n_samples"] "" "=" [];
     Stmt 64 ["income"] "np.random" "randint" ["n_samples"];
     Stmt 65 ["age"] "np.random" "randint" ["n_samples"];
     Stmt 66 ["credit_score"] "np.random" "randint" ["n_samples"];
     Stmt 67 ["loan_default"] "np.random" "choice" ["n_samples"];
     Stmt 69 ["df"] "pd" "DataFrame" ["income"; "age"; "credit_score"; "loan_default"];
     Stmt 97 ["X"] "" "=" ["df"];
     Stmt 98 ["y"] "" "=" ["df"];
     Stmt 100 ["X_train"; "X_test"; "y_train"; "y_test"] "" "train_test_split" ["X"; "y"];
     Stmt 123 ["scaler"] "" "StandardScaler" [];
     Stmt 124 ["X_train"] "scaler" "fit_transform" ["X_train"];
     Stmt 125 ["X_test"] "scaler" "transform" ["X_test"];
     Stmt 148 ["model"] "" "LogisticRegression" [];
     Stmt 150 ["150:fit"] "model" "fit" ["X_train"; "y_train"];
     Stmt 173 ["y_pred"] "model" "predict" ["X_test"];
     Stmt 175 ["accuracy"] "" "accuracy_score" ["y_test"; "y_pred"];
     Stmt 176 ["precision"] "" "precision_score" ["y_test"; "y_pred"];
     Stmt 177 ["recall"] "" "recall_score" ["y_test"; "y_pred"];
     Stmt 178 ["f1"] "" "f1_score" ["y_test"; "y_pred"];
     Stmt 185 ["conf_matrix"] "" "confusion_matrix" ["y_test"; "y_pred"];
     Stmt 211 ["211:scatter"] "plt" "scatter" ["X_test"; "y_pred"]] |}.

Definition email_naive_bayes : notebook :=
  {| title := "Email Spam Classification using Naive Bayes";
     file := "lec/lec02/Lec2-3_Demo.ipynb";
     body :=
    [Stmt 41 ["emails"] "" "=" [];
     Stmt 48 ["labels"] "" "=" [];
     Stmt 75 ["vectorizer"] "" "CountVectorizer" [];
     Stmt 76 ["X"] "vectorizer" "fit_transform" ["emails"];
     Stmt 87 ["X_train"; "X_test"; "y_train"; "y_test"] "" "train_test_split" ["X"; "labels"];
     Stmt 98 ["model"] "" "MultinomialNB" [];
     Stmt 99 ["99:fit"] "model" "fit" ["X_train"; "y_train"];
     Stmt 110 ["accuracy"] "" "accuracy_score" ["y_test"; "y_pred"];
     Stmt 111 ["cm"] "" "confusion_matrix" ["y_test"; "y_pred"];
     Stmt 112 ["class_report"] "" "classification_report" ["y_test"; "y_pred"]] |}.

Definition iris_pruning : notebook :=
  {| title := "Decision Tree Pruning for Iris Dataset";
     file := "lec/lec02/Lec2-3_Demo.ipynb";
     body :=
    [Stmt 205 ["data"] "" "load_iris" [];
     Stmt 206 ["X"] "" "=" ["data"];
     Stmt 207 ["y"] "" "=" ["data"];
     Stmt 232 ["X_train"; "X_test"; "y_train"; "y_test"] "" "train_test_split" ["X"; "y"];
     Stmt 257 ["clf_preprune"] "" "DecisionTreeClassifier" [];
     Stmt 258 ["258:fit"] "clf_preprune" "fit" ["X_train"; "y_train"];
     Stmt 283 ["train_acc_preprune"] "clf_preprune" "score" ["X_train"; "y_train"];
     Stmt 284 ["test_acc_preprune"] "clf_preprune" "score" ["X_test"; "y_test"];
     Stmt 311 ["clf_postprune"] "" "DecisionTreeClassifier" [];
     Stmt 312 ["312:fit"] "clf_postprune" "fit" ["X_train"; "y_train"];
     Stmt 337 ["train_acc_postprune"] "clf_postprune" "score" ["X_train"; "y_train"];
     Stmt 338 ["test_acc_postprune"] "clf_postprune" "score" ["X_test"; "y_test"]] |}.

Definition fruit_trees : notebook :=
  {| title := "Fruit Classification using Decision Trees";
     file := "lec/lec02/Lec2-3_Demo.ipynb";
     body :=
    [Stmt 458 ["458:seed"] "np.random" "seed" [];
     Stmt 459 ["feature1"] "np.random" "randint" [];
     Stmt 460 ["feature2"] "np.random" "randint" [];
     Stmt 463 ["labels"] "np" "where" ["feature1"; "feature2"];
     Stmt 466 ["df"] "pd" "DataFrame" ["feature1"; "feature2"; "labels"];
     Stmt 495 ["X"] "" "=" ["df"];
     Stmt 496 ["y"] "" "=" ["df"];
     Stmt 499 ["X_train"; "X_test"; "y_train"; "y_test"] "" "train_test_split" ["X"; "y"];
     Stmt 524 ["clf_entropy"] "" "DecisionTreeClassifier" [];
     Stmt 525 ["525:fit"] "clf_entropy" "fit" ["X_train"; "y_train"];
     Stmt 528 ["clf_gini"] "" "DecisionTreeClassifier" [];
     Stmt 529 ["529:fit"] "clf_gini" "fit" ["X_train"; "y_train"];
     Stmt 554 ["y_pred_entropy"] "clf_entropy" "predict" ["X_test"];
     Stmt 555 ["y_pred_gini"] "clf_gini" "predict" ["X_test"];
     Stmt 558 ["accuracy_entropy"] "" "accuracy_score" ["y_test"; "y_pred_entropy"];
     Stmt 559 ["accuracy_gini"] "" "accuracy_score" ["y_test"; "y_pred_gini"];
     Stmt 562 ["classification_error_entropy"] "" "=" ["accuracy_entropy"];
     Stmt 563 ["classification_error_gini"] "" "=" ["accuracy_gini"];
     Stmt 594 ["fig"; "ax"] "plt" "subplots" [];
     Stmt 595 ["595:plot_tree"] "tree" "plot_tree" ["clf_entropy"; "ax"];
     Stmt 598 ["598:plot_tree"] "tree" "plot_tree" ["clf_gini"; "ax"]] |}.

Definition spam_checkpoint : notebook :=
  {| title := "Gaussian Naive Bayes Assisted Spam Email Filtering (checkpoint)";
     file := "lec/lec03/.ipynb_checkpoints/Lec3-2_Demo-checkpoint.ipynb";
     body :=
    [Stmt 44 ["44:arange"] "np" "arange" [];
     Stmt 43 ["data"] "" "=" ["44:arange"];
     Stmt 50 ["df"] "pd" "DataFrame" ["data"];
     Stmt 69 ["X"] "" "=" ["df"];
     Stmt 70 ["y"] "" "=" ["df"];
     Stmt 73 ["X_train"; "X_test"; "y_train"; "y_test"] "" "train_test_split" ["X"; "y"];
     Stmt 96 ["gnb"] "" "GaussianNB" [];
     Stmt 99 ["99:fit"] "gnb" "fit" ["X_train"; "y_train"];
     Stmt 122 ["y_pred"] "gnb" "predict" ["X_test"];
     Stmt 129 ["accuracy"] "" "accuracy_score" ["y_test"; "y_pred"];
     Stmt 133 ["cm"] "" "confusion_matrix" ["y_test"; "y_pred"]] |}.

Definition wearable_sensor : notebook :=
  {| title := "Wearable Sensor Data Analysis for Disease Detection";
     file := "lec/lec05/Lec5_2_Demo.ipynb";
     body :=
    [Stmt 81 ["data"] "" "=" [];
     Stmt 91 ["df"] "pd" "DataFrame" ["data"];
     Stmt 94 ["X"] "df" "drop" [];
     Stmt 95 ["y"] "" "=" ["df"];
     Stmt 115 ["115:seed"] "np.random" "seed" [];
     Stmt 118 ["heart_rate"] "np.random" "randint" [];
     Stmt 119 ["steps"] "np.random" "randint" [];
     Stmt 120 ["temperature"] "np.random" "uniform" [];
     Stmt 121 ["activity_level"] "np.random" "randint" [];
     Stmt 122 ["sleep_duration"] "np.random" "randint" [];
     Stmt 123 ["label"] "np.random" "choice" [];
     Stmt 126 ["data"] "" "=" ["heart_rate"; "steps"; "temperature"; "activity_level"; "sleep_duration"; "label"];
     Stmt 135 ["df"] "pd" "DataFrame" ["data"];
     Stmt 138 ["X"] "df" "drop" [];
     Stmt 139 ["y"] "" "=" ["df"];
     Stmt 186 ["scaler"] "" "StandardScaler" [];
     Stmt 189 ["X_scaled"] "scaler" "fit_transform" ["X"];
     Stmt 192 ["192:DataFrame"] "pd" "DataFrame" ["X_scaled"; "X"];
     Stmt 229 ["X_train"; "X_test"; "y_train"; "y_test"] "" "train_test_split" ["X_scaled"; "y"];
     Stmt 266 ["model"] "" "LogisticRegression" [];
     Stmt 269 ["269:fit"] "model" "fit" ["X_train"; "y_train"];
     Stmt 304 ["y_pred"] "model" "predict" ["X_test"];
     Stmt 344 ["accuracy"] "" "accuracy_score" ["y_test"; "y_pred"];
     Stmt 348 ["348:classification_report"] "" "classification_report" ["y_test"; "y_pred"];
     Stmt 385 ["conf_matrix"] "" "confusion_matrix" ["y_test"; "y_pred"]] |}.

Definition fault_detection : notebook :=
  {| title := "Bagging and Boosting Approach for Fault Detection in Electrical Systems";
     file := "lec/lec07/Lec7_1_Demo.ipynb";
     body :=
    [Stmt 73 ["X"; "y"] "" "make_classification" [];
     Stmt 76 ["feature_names"] "" "=" ["X"];
     Stmt 77 ["df"] "pd" "DataFrame" ["X"; "feature_names"];
     Stmt 78 ["df"] "" "=" ["y"];
     Stmt 89 ["X_train"; "X_test"; "y_train"; "y_test"] "" "train_test_split" ["X"; "y"];
     Stmt 119 ["119:DecisionTreeClassifier"] "" "DecisionTreeClassifier" [];
     Stmt 119 ["bagging"] "" "BaggingClassifier" ["119:DecisionTreeClassifier"];
     Stmt 120 ["120:fit"] "bagging" "fit" ["X_train"; "y_train"];
     Stmt 123 ["bagging_pred"] "bagging" "predict" ["X_test"];
     Stmt 124 ["124:accuracy_score"] "" "accuracy_score" ["y_test"; "bagging_pred"];
     Stmt 149 ["boosting"] "" "GradientBoostingClassifier" [];
     Stmt 150 ["150:fit"] "boosting" "fit" ["X_train"; "y_train"];
     Stmt 153 ["boosting_pred"] "boosting" "predict" ["X_test"];
     Stmt 154 ["154:accuracy_score"] "" "accuracy_score" ["y_test"; "boosting_pred"];
     Stmt 179 ["179:accuracy_score"] "" "accuracy_score" ["y_test"; "bagging_pred"];
     Stmt 180 ["180:accuracy_score"] "" "accuracy_score" ["y_test"; "boosting_pred"]] |}.

Definition notebooks : list notebook :=
  [pid_boosting; pid_forest; spam_filter; stock_prices; house_prices;
   loan_default; email_naive_bayes; iris_pruning; fruit_trees;
   spam_checkpoint; wearable_sensor; fault_detection].

(** *** The stages of the pipeline *)

Inductive stage :=
| Generate
| Preprocess
| Split
| Fit
| Predict
| Evaluate
| Plot.

Definition stage_eqb (a b : stage) : bool :=
  match a, b with
  | Generate, Generate | Preprocess, Preprocess | Split, Split | Fit, Fit
  | Predict, Predict | Evaluate, Evaluate | Plot, Plot => true
  | _, _ => false
  end.

(** Position of a stage in generate, preprocess, split, fit, predict,
    evaluate, plot. *)
Definition rank (s : stage) : nat :=
  match s with
  | Generate => 0
  | Preprocess => 1
  | Split => 2
  | Fit => 3
  | Predict => 4
  | Evaluate => 5
  | Plot => 6
  end.

Definition mem (x : string) (l : list string) : bool := existsb (String.eqb x) l.

Definition sampling_functions : list string := ["uniform"; "normal"; "randint"; "choice"].

Definition generating_functions : list string :=
  ["seed"; "uniform"; "normal"; "randint"; "choice"; "cumsum"; "arange"; "array";
   "where"; "DataFrame"; "date_range"; "make_classification"; "load_iris"].

Definition preprocessing_functions : list string :=
  ["fit_transform"; "transform"; "interpolate"; "rolling"].

(** The four metrics the spec names, and all the scoring calls. *)
Definition standard_metrics : list string :=
  ["r2_score"; "accuracy_score"; "confusion_matrix"; "classification_report"].

Definition scoring_functions : list string :=
  (standard_metrics ++
   ["mean_squared_error"; "precision_score"; "recall_score"; "f1_score"; "score"])%list.

Definition plotting_functions : list string := ["scatter"; "plot"; "plot_tree"].

(** The estimator classes the notebooks import from scikit-learn and
    xgboost. *)
Definition library_estimators : list string :=
  ["AdaBoostRegressor"; "GradientBoostingRegressor"; "XGBRegressor";
   "DecisionTreeRegressor"; "RandomForestRegressor"; "GaussianNB";
   "LinearRegression"; "LogisticRegression"; "MultinomialNB";
   "DecisionTreeClassifier"; "BaggingClassifier"; "GradientBoostingClassifier"].

(** A variable bound to a literal: data written down in the cell. *)
Definition literal (s : stmt) : bool :=
  String.eqb (func s) "=" && match reads s with [] => true | _ => false end.

(** The stage a statement belongs to; other assignments, definitions and
    constructor calls belong to none. *)
Definition stage_of (s : stmt) : option stage :=
  if literal s then Some Generate
  else if String.eqb (func s) "train_test_split" then Some Split
  else if String.eqb (func s) "fit" then Some Fit
  else if String.eqb (func s) "predict" then Some Predict
  else if mem (func s) preprocessing_functions then Some Preprocess
  else if mem (func s) scoring_functions then Some Evaluate
  else if mem (func s) plotting_functions then Some Plot
  else if mem (func s) generating_functions then Some Generate
  else None.

Fixpoint stages (body : list stmt) : list stage :=
  match body with
  | [] => []
  | s :: body' =>
      match stage_of s with
      | Some st => st :: stages body'
      | None => stages body'
      end
  end.

(** The stages never step back in the pipeline order. *)
Fixpoint ordered (l : list stage) : bool :=
  match l with
  | [] => true
  | a :: l' =>
      match l' with
      | [] => true
      | b :: _ => (rank a <=? rank b)%nat && ordered l'
      end
  end.

Definition pipeline_ordered (nb : notebook) : bool := ordered (stages (body nb)).

(** No [b] before the first [a]. *)
Fixpoint precedes (a b : stage) (l : list stage) : bool :=
  match l with
  | [] => true
  | x :: l' =>
      if stage_eqb x a then true
      else if stage_eqb x b then false
      else precedes a b l'
  end.

(** No [a] after the first [b]. *)
Fixpoint none_after (a b : stage) (l : list stage) : bool :=
  match l with
  | [] => true
  | x :: l' =>
      if stage_eqb x b then negb (existsb (stage_eqb a) l')
      else none_after a b l'
  end.

(** *** What a statement can see: the statements before it *)

(** [P earlier s] holds of some statement [s] of the body, [earlier] being
    the statements before it, the nearest first. *)
Fixpoint scan (P : list stmt -> stmt -> bool) (earlier body : list stmt) : bool :=
  match body with
  | [] => false
  | s :: body' => P earlier s || scan P (s :: earlier) body'
  end.

(** [P earlier s] holds of every statement of the body. *)
Fixpoint scan_all (P : list stmt -> stmt -> bool) (earlier body : list stmt) : bool :=
  match body with
  | [] => true
  | s :: body' => P earlier s && scan_all P (s :: earlier) body'
  end.

(** The statement that bound [v] last. *)
Definition binder (earlier : list stmt) (v : string) : option stmt :=
  find (fun s => mem v (binds s)) earlier.

Definition bound (earlier : list stmt) (v : string) : bool :=
  match binder earlier v with Some _ => true | None => false end.

(** [v] holds the result of [predict] on a model that was fitted before. *)
Definition is_prediction (earlier : list stmt) (v : string) : bool :=
  match binder earlier v with
  | Some c =>
      String.eqb (func c) "predict" &&
      existsb (fun f => String.eqb (func f) "fit" &&
                        String.eqb (receiver f) (receiver c)) earlier
  | None => false
  end.

(** [v] holds targets: it is the target argument of the split or one of
    the two target parts the split returns. *)
Definition is_truth (earlier : list stmt) (v : string) : bool :=
  existsb (fun s => String.eqb (func s) "train_test_split" &&
                    (mem v (skipn 1 (reads s)) || mem v (skipn 2 (binds s))))
          earlier.

(** The script builds the data it splits: both arguments of a
    [train_test_split] are bound by earlier statements. *)
Definition constructs_dataset (nb : notebook) : bool :=
  scan (fun earlier s =>
          String.eqb (func s) "train_test_split" &&
          negb (match reads s with [] => true | _ => false end) &&
          forallb (bound earlier) (reads s))
       [] (body nb).

(** [fit] is called on an object built by a library estimator class. *)
Definition fits_library_model (nb : notebook) : bool :=
  scan (fun earlier s =>
          String.eqb (func s) "fit" &&
          match binder earlier (receiver s) with
          | Some c => mem (func c) library_estimators
          | None => false
          end)
       [] (body nb).

(** One of the four standard metrics is applied to a prediction. *)
Definition scores_predictions (nb : notebook) : bool :=
  scan (fun earlier s =>
          mem (func s) standard_metrics &&
          existsb (is_prediction earlier) (reads s))
       [] (body nb).

Definition scatter_or_line (s : stmt) : bool :=
  String.eqb (receiver s) "plt" && mem (func s) ["scatter"; "plot"].

(** A scatter or line plot shows predictions, and one shows the targets. *)
Definition plots_predictions (nb : notebook) : bool :=
  scan (fun earlier s => scatter_or_line s && existsb (is_prediction earlier) (reads s))
       [] (body nb).

Definition plots_truth (nb : notebook) : bool :=
  scan (fun earlier s => scatter_or_line s && existsb (is_truth earlier) (reads s))
       [] (body nb).

Definition compares_in_plot (nb : notebook) : bool :=
  plots_predictions nb && plots_truth nb.

(** A statement reads a variable that nothing bound. *)
Definition reads_unbound (nb : notebook) : bool :=
  scan (fun earlier s => negb (forallb (bound earlier) (reads s))) [] (body nb).

(** *** The global random generator *)

Definition is_seed (s : stmt) : bool :=
  String.eqb (receiver s) "np.random" && String.eqb (func s) "seed".

Definition is_sampling (s : stmt) : bool :=
  String.eqb (receiver s) "np.random" && mem (func s) sampling_functions.

(** The notebook draws from [np.random]. *)
Definition samples (nb : notebook) : bool := existsb is_sampling (body nb).

(** It draws, and [np.random.seed] is called before every draw. *)
Definition seeds_before_sampling (nb : notebook) : bool :=
  samples nb &&
  scan_all (fun earlier s => negb (is_sampling s) || existsb is_seed earlier)
           [] (body nb).

(** It draws without any earlier call of [np.random.seed]. *)
Definition samples_unseeded (nb : notebook) : bool :=
  scan (fun earlier s => is_sampling s && negb (existsb is_seed earlier))
       [] (body nb).

(** *** Where the features of a model call come from *)

(** The lines of the statements that lead to the first argument [v]: the
    statement that bound it, then the one that bound that statement's first
    argument, and so on. *)
Fixpoint feature_chain (fuel : nat) (earlier : list stmt) (v : string) : list nat :=
  match fuel with
  | O => []
  | Datatypes.S fuel' =>
      match binder earlier v with
      | Some c =>
          line c ::
          match reads c with
          | v' :: _ => feature_chain fuel' earlier v'
          | [] => []
          end
      | None => []
      end
  end.

Fixpoint lines_eqb (a b : list nat) : bool :=
  match a, b with
  | [], [] => true
  | x :: a', y :: b' => (x =? y)%nat && lines_eqb a' b'
  | _, _ => false
  end.

(** Every [fit] and [predict] of the body takes as first argument a
    variable with the chain [chain]. *)
Definition model_calls_fed_by (chain : list nat) (nb : notebook) : bool :=
  scan_all (fun earlier s =>
              if String.eqb (func s) "fit" || String.eqb (func s) "predict" then
                match reads s with
                | v :: _ => lines_eqb (feature_chain 8 earlier v) chain
                | [] => false
                end
              else true)
           [] (body nb).

(** *** Running a script

    [outcome s] is the exception statement [s] raises, if it raises; the
    runner performs the statements in order and logs each one. *)
Fixpoint run_body (outcome : stmt -> option exn) (body : list stmt) : M stmt unit :=
  match body with
  | [] => ret tt
  | s :: body' =>
      call s (match outcome s with Some e => inl e | None => inr tt end) ;;
      run_body outcome body'
  end.

Definition execute (outcome : stmt -> option exn) (nb : notebook) : result unit * list stmt :=
  run (run_body outcome (body nb)).

End Script.

(** ** The tables of all notebooks, up to the split *)

Module Tables.
Import py.

Section All.
Context {G : np.BitGenerator} {L : sklearn.Library}.

(** The PID notebooks: the frame, the selected features and targets, the
    scaled features with the targets. *)
Definition of_prepared (p : Pid.prepared) : list Rows.snapshot :=
  [Rows.of_frame Pid.target_names (Pid.data p);
   Rows.of_arrays 0 (pd.values 0 (Pid.X p)) (pd.values 0 (Pid.y p));
   Rows.of_arrays 0 (Pid.X_scaled p) (pd.values 0 (Pid.y p))].

Definition pid (nb : np.random (Pid.arrays * result Pid.prepared))
  : np.random (result (list Rows.snapshot)) :=
  r <- nb ;; ret (p <- snd r ;; ret (of_prepared p)).

(** Every notebook with the snapshots of its tables, as a computation over
    the global generator (which five of them never touch). *)
Definition all : list (Script.notebook * np.random (result (list Rows.snapshot))) :=
  [(Script.pid_boosting, pid Pid.boosting_notebook);
   (Script.pid_forest, pid Pid.forest_notebook);
   (Script.spam_filter, ret Spam.tables);
   (Script.stock_prices, Stock.tables);
   (Script.house_prices, House.tables);
   (Script.loan_default, Loan.tables);
   (Script.email_naive_bayes, ret Emails.tables);
   (Script.iris_pruning, ret Iris.tables);
   (Script.fruit_trees, Fruit.tables);
   (Script.spam_checkpoint, ret Spam.tables);
   (Script.wearable_sensor, Wearable.tables);
   (Script.fault_detection, ret Fault.tables)].

End All.
End Tables.

(** ** A generator and a library to run the models on

    A linear congruential generator and the simplest functions with the
    shapes of the library's: enough to evaluate every definition above on
    concrete inputs. *)

Module Demo.

Definition next (s : Z) : Z := ((1103515245 * s + 12345) mod 2147483648)%Z.

Definition unit_sample (s : Z) : Q := inject_Z (s mod 1000) / 1000.

Definition bell_sample (s : Z) : Q := (inject_Z (s mod 7) - 3) / 2.

Definition between (low high s : Z) : Z := (low + s mod (high - low))%Z.

Definition identity_permutation (random_state : Z) (n : nat) : list nat := seq 0 n.

Definition blank_classification (n_samples n_features : nat) (random_state : Z)
  : list (list Q) * list Z :=
  (repeat (repeat 0 n_features) n_samples, repeat 0%Z n_samples).

Definition blank_iris : list (list Q) * list Z :=
  (repeat [5.1; 3.5; 1.4; 0.2] 150, repeat 0%Z 150).

Definition powers (degree : nat) (row : list Q) : list Q :=
  match row with
  | [x] => map (fun k => x ^ Z.of_nat k) (seq 0 (S degree))
  | _ => row
  end.

Definition lengths_row (corpus : list string) (doc : string) : list Q :=
  [inject_Z (Z.of_nat (String.length doc))].

Definition generator : np.BitGenerator :=
  {| np.rng_state := Z;
     np.seed_state := fun k => k;
     np.random_sample := fun s => (unit_sample s, next s);
     np.standard_normal := fun s => (bell_sample s, next s);
     np.integers := fun low high s => (between low high s, next s) |}.

Definition library : sklearn.Library :=
  {| sklearn.sqrt := fun x => x;
     sklearn.permutation := identity_permutation;
     sklearn.make_classification := blank_classification;
     sklearn.load_iris := blank_iris;
     sklearn.polynomial_row := powers;
     sklearn.count_row := lengths_row |}.

(** [np.array] of a list of rows: numpy refuses rows of different lengths. *)
Definition np_array (rows : list (list Z)) : py.result (list (list Z)) :=
  match rows with
  | [] => inr []
  | row :: rest =>
      if forallb (fun r => (List.length r =? List.length row)%nat) rest
      then inr rows
      else inl (py.ValueError "setting an array element with a sequence: inhomogeneous shape")
  end.

(** A fitted classifier of two features that calls long e-mails spam. *)
Definition gnb_predict (X : list (list Z)) : py.result (list Z) :=
  if forallb (fun r => (List.length r =? 2)%nat) X
  then inr (map (fun r => if (390 <? hd 0%Z r)%Z then 1%Z else 0%Z) X)
  else inl (py.ValueError "X has a different number of features than GaussianNB is expecting").

End Demo.

(** ** The properties, in the terms of the models *)

Module Spec.

(** The frame of the seven arrays of a PID notebook and its two parts. *)
Definition frame_columns (a : Pid.arrays) : pd.DataFrame Q :=
  [("Error", Pid.error a); ("Derivative", Pid.derivative a);
   ("Integral", Pid.integral a); ("Setpoint", Pid.setpoint a);
   ("Kp", Pid.Kp a); ("Ki", Pid.Ki a); ("Kd", Pid.Kd a)].

Definition feature_columns (a : Pid.arrays) : pd.DataFrame Q :=
  [("Error", Pid.error a); ("Derivative", Pid.derivative a);
   ("Integral", Pid.integral a); ("Setpoint", Pid.setpoint a)].

Definition target_columns (a : Pid.arrays) : pd.DataFrame Q :=
  [("Kp", Pid.Kp a); ("Ki", Pid.Ki a); ("Kd", Pid.Kd a)].

(** What one run of the simulation cell fixes about its seven arrays. *)
Record well_simulated (n : nat) (a : Pid.arrays) : Prop := {
  ws_error : List.length (Pid.error a) = n;
  ws_derivative : List.length (Pid.derivative a) = n;
  ws_setpoint : List.length (Pid.setpoint a) = n;
  ws_integral : Pid.integral a = np.cumsum (Pid.error a);
  ws_Kp : Pid.Kp a = np.vadd (np.sadd 2 (np.smul 0.5 (Pid.error a)))
                             (np.smul (np.float 0.1) (Pid.derivative a));
  ws_Ki : Pid.Ki a = np.sadd (np.float 0.1) (np.smul (np.float 0.05) (Pid.integral a));
  ws_Kd : Pid.Kd a = np.sadd (np.float 0.02) (np.smul (np.float 0.01) (Pid.derivative a))
}.

(** The ranges the two uniform draws are taken from. *)
Definition in_range (a : Pid.arrays) : Prop :=
  Forall (fun x => -2 <= x /\ x <= 2) (Pid.error a) /\
  Forall (fun x => -0.5 <= x /\ x <= 0.5) (Pid.derivative a).

Section Prepared.
Context {L : sklearn.Library}.

(** What the cells between the frame and the models leave behind. *)
Record prepared_from (a : Pid.arrays) (p : Pid.prepared) : Prop := {
  pf_data : Pid.data p = frame_columns a;
  pf_X : Pid.X p = feature_columns a;
  pf_y : Pid.y p = target_columns a;
  pf_scaled : Pid.X_scaled p = sklearn.fit_transform (pd.values 0 (Pid.X p));
  pf_split : exists train test,
    Pid.X_train p = sklearn.take (Pid.X_scaled p) train /\
    Pid.X_test p = sklearn.take (Pid.X_scaled p) test /\
    Pid.y_train p = sklearn.take (pd.values 0 (Pid.y p)) train /\
    Pid.y_test p = sklearn.take (pd.values 0 (Pid.y p)) test;
  pf_parts :
    sklearn.train_test_split (Pid.X_scaled p) (pd.values 0 (Pid.y p)) 0.2 42 =
    inr (Pid.X_train p, Pid.X_test p, Pid.y_train p, Pid.y_test p)
}.

End Prepared.

(** The tables of a notebook are in order: the cells ran, and every
    snapshot is consistent. *)
Definition tables_ok (r : py.result (list Rows.snapshot)) : Prop :=
  exists sns, r = inr sns /\ sns <> [] /\ Forall Rows.consistent sns.

(** The target vector takes one value only. *)
Definition constant (y : list Q) : Prop :=
  forall a b, In a y -> In b y -> a == b.

(** What holds of the stages of every notebook, as one boolean. *)
Definition staged (nb : Script.notebook) : bool :=
  let l := Script.stages (Script.body nb) in
  existsb (Script.stage_eqb Script.Split) l && existsb (Script.stage_eqb Script.Fit) l &&
  Script.precedes Script.Generate Script.Split l &&
  Script.precedes Script.Split Script.Fit l &&
  Script.precedes Script.Fit Script.Predict l &&
  Script.precedes Script.Fit Script.Evaluate l &&
  Script.none_after Script.Preprocess Script.Fit l.

(** The notebooks in which [np.random.seed] comes before every draw. *)
Definition seeded_by_np_random_seed : list Script.notebook :=
  [Script.pid_boosting; Script.pid_forest; Script.house_prices;
   Script.loan_default; Script.fruit_trees; Script.wearable_sensor].

(** The notebooks that plot predictions next to the targets. *)
Definition plots_against_truth : list Script.notebook :=
  [Script.pid_boosting; Script.pid_forest; Script.stock_prices; Script.house_prices].

End Spec.


(** ** [plot_predictions] as a function (part_000:249-255)

    The drawing calls are matplotlib's: [plt] is any function that returns or
    raises.  [min] and [max] are Python's built-ins. *)

Module Plotting.
Import py.

Inductive drawing :=
| scatter (x y : list Q)
| line (x y : list Q)
| xlabel (text : string)
| ylabel (text : string)
| title (text : string)
| show.

(** One step of [min] and of [max]: the value kept so far is replaced by a
    strictly smaller, respectively strictly larger, one. *)
Definition smaller (m x : Q) : Q := if Qle_bool m x then m else x.
Definition larger (m x : Q) : Q := if Qle_bool x m then m else x.

Definition min (a : list Q) : result Q :=
  match a with
  | [] => inl (ValueError "min() arg is an empty sequence")
  | x :: a' => inr (fold_left smaller a' x)
  end.

Definition max (a : list Q) : result Q :=
  match a with
  | [] => inl (ValueError "max() arg is an empty sequence")
  | x :: a' => inr (fold_left larger a' x)
  end.

(** An expression that calls no library function: nothing is logged. *)
Definition value {A : Type} (r : result A) : M drawing A :=
  match r with
  | inl e => raise e
  | inr a => ret a
  end.

Section Function.
Variable plt : drawing -> result unit.

Definition draw (d : drawing) : M drawing unit := call d (plt d).

Definition plot_predictions (true_values predicted_values : list Q) (title_ : string)
  : M drawing unit :=
  draw (scatter true_values predicted_values) ;;
  x0 <- value (min true_values) ;;
  x1 <- value (max true_values) ;;
  y0 <- value (min true_values) ;;
  y1 <- value (max true_values) ;;
  draw (line [x0; x1] [y0; y1]) ;;
  draw (xlabel "True Values") ;;
  draw (ylabel "Predicted Values") ;;
  draw (title title_) ;;
  draw show.

End Function.
End Plotting.

(** ** The frames of the stock notebook, one by one (part_002:89-117, 183-187)

    The cells of [Stock.tables_of], with the frames they leave behind kept
    instead of their row counts. *)

Module StockFrames.
Import py.

Record frames := {
  created : pd.DataFrame (option Q);
  interpolated : pd.DataFrame (option Q);
  averaged : pd.DataFrame (option Q);
  in_days : pd.DataFrame (option Q);
  normalized : pd.DataFrame (option Q);
  X : list (list Q);
  y : list Q;
  X_poly : list (list Q)
}.

(** The table the scaler of line 117 is fitted on, when the prices hold no
    NaN: the day counts and the prices. *)
Definition scaler_input (n_days : nat) (a : Stock.arrays) : list (list Q) :=
  pd.values 0 [("Date", map inject_Z (map Z.of_nat (seq 0 n_days)));
               ("Stock Price", Stock.stock_prices a)].

Section Cells.
Context {L : sklearn.Library}.

Definition prepare (n_days : nat) (a : Stock.arrays) : result frames :=
  let dates := pd.date_range Stock.start_date n_days in
  df <- pd.DataFrame_of
          [("Date", map (fun d => Some (inject_Z d)) dates);
           ("Stock Price", map Some (Stock.stock_prices a))] ;;
  price <- pd.getitem df "Stock Price" ;;
  df1 <- pd.setitem df "Stock Price" (pd.interpolate price) ;;
  price1 <- pd.getitem df1 "Stock Price" ;;
  df2 <- pd.setitem df1 "Moving Average" (pd.rolling_mean 5 price1) ;;
  let days := map (fun d => (d - pd.min dates)%Z) dates in
  df3 <- pd.setitem df2 "Date" (map (fun d => Some (inject_Z d)) days) ;;
  sel <- pd.getitems df3 ["Date"; "Stock Price"] ;;
  let scaled := sklearn.fit_transform (pd.values 0 (map (fun kc => (fst kc, pd.to_floats (snd kc))) sel)) in
  df4 <- pd.setitem df3 "Date" (map Some (sklearn.column 0 scaled)) ;;
  df5 <- pd.setitem df4 "Stock Price" (map Some (sklearn.column 1 scaled)) ;;
  Xf <- pd.getitems df5 ["Date"] ;;
  let X := pd.values 0 (map (fun kc => (fst kc, pd.to_floats (snd kc))) Xf) in
  yc <- pd.getitem df5 "Stock Price" ;;
  let y := pd.to_floats yc in
  let X_poly := sklearn.polynomial_features 3 X in
  ret {| created := df; interpolated := df1; averaged := df2; in_days := df3;
         normalized := df5; X := X; y := y; X_poly := X_poly |}.

End Cells.
End StockFrames.

(** ** The scaling cell of the loan notebook (part_003:123-125)

    The scaler is fitted on the training part and applied to both parts. *)

Module LoanScaling.

Section Cells.
Context {L : sklearn.Library}.



End Cells.
End LoanScaling.

(** ** The column names of the fault-detection frame (Lec7_1_Demo:76) *)

Module FaultFrame.

(** [f'Feature_{i+1}'] *)
Definition feature_name (i : nat) : string :=
  "Feature_" ++ NilZero.string_of_uint (Nat.to_uint (i + 1)).

End FaultFrame.

(** ** More of what the libraries document *)

Module Contracts.

(** [np.random.randint(low, high)] returns an integer from [low] (inclusive)
    to [high] (exclusive). *)
Definition bounded_integers (G : np.BitGenerator) : Prop :=
  forall low high s, (low < high)%Z ->
    (low <= fst (np.integers low high s) < high)%Z.

(** The shuffled index of [train_test_split] holds every position once. *)
Definition shuffles (L : sklearn.Library) : Prop :=
  forall random_state n, Permutation (sklearn.permutation random_state n) (seq 0 n).

(** All rows have [w] cells. *)
Definition width {A : Type} (w : nat) (X : list (list A)) : Prop :=
  Forall (fun row => List.length row = w) X.

End Contracts.

(** ** Which data the models see *)

Module Checks.
Import Script.

(** The statement that bound [v] last, and the statements before it. *)
Fixpoint binder_before (earlier : list stmt) (v : string) : option (stmt * list stmt) :=
  match earlier with
  | [] => None
  | s :: rest => if mem v (binds s) then Some (s, rest) else binder_before rest v
  end.

Fixpoint index (v : string) (l : list string) : option nat :=
  match l with
  | [] => None
  | x :: l' => if String.eqb x v then Some O else option_map S (index v l')
  end.

(** Which of the four results of [train_test_split] the variable [v] holds,
    0 to 3 in the order of the call's left-hand side (training features,
    test features, training targets, test targets); a result that went
    through [fit_transform] or [transform] is still that part. *)
Fixpoint part_of (fuel : nat) (earlier : list stmt) (v : string) : option nat :=
  match fuel with
  | O => None
  | S fuel' =>
      match binder_before earlier v with
      | Some (c, rest) =>
          if String.eqb (func c) "train_test_split" then index v (binds c)
          else if mem (func c) ["fit_transform"; "transform"] then
            match reads c with
            | v' :: _ => part_of fuel' rest v'
            | [] => None
            end
          else None
      | None => None
      end
  end.

(** [features] and [targets] are the two halves of one part. *)
Definition same_part (earlier : list stmt) (features targets : string) : bool :=
  match part_of 4 earlier features, part_of 4 earlier targets with
  | Some i, Some j => (i + 2 =? j)%nat
  | _, _ => false
  end.

(** Every [fit] of a model takes the training features and the training
    targets. *)
Definition fits_on_training_part (nb : notebook) : bool :=
  scan_all (fun earlier s =>
              if String.eqb (func s) "fit" then
                match reads s with
                | [features; targets] =>
                    match part_of 4 earlier features, part_of 4 earlier targets with
                    | Some 0%nat, Some 2%nat => true
                    | _, _ => false
                    end
                | _ => false
                end
              else true)
           [] (body nb).

(** Every [model.score(X, y)] takes the two halves of one part, and every
    metric applied to targets and to an assigned variable takes the
    prediction for the features of the part the targets belong to. *)
Definition scores_on_matching_part (nb : notebook) : bool :=
  scan_all (fun earlier s =>
              if String.eqb (func s) "score" then
                match reads s with
                | [features; targets] => same_part earlier features targets
                | _ => false
                end
              else if mem (func s) scoring_functions then
                match reads s with
                | [targets; predicted] =>
                    match binder_before earlier predicted with
                    | Some (c, rest) =>
                        String.eqb (func c) "predict" &&
                        match reads c with
                        | [features] =>
                            match part_of 4 rest features, part_of 4 earlier targets with
                            | Some i, Some j => (i + 2 =? j)%nat
                            | _, _ => false
                            end
                        | _ => false
                        end
                    | None => true
                    end
                | _ => false
                end
              else true)
           [] (body nb).

(** Every [predict] and [score] is called on a model that [fit] was called
    on before. *)
Definition fitted_before_use (nb : notebook) : bool :=
  scan_all (fun earlier s =>
              if String.eqb (func s) "predict" || String.eqb (func s) "score" then
                existsb (fun f => String.eqb (func f) "fit" &&
                                  String.eqb (receiver f) (receiver s)) earlier
              else true)
           [] (body nb).

(** No model is fitted a second time. *)
Definition fitted_once (nb : notebook) : bool :=
  scan_all (fun earlier s =>
              if String.eqb (func s) "fit" then
                negb (existsb (fun f => String.eqb (func f) "fit" &&
                                        String.eqb (receiver f) (receiver s)) earlier)
              else true)
           [] (body nb).

(** What a statement takes its data from: its arguments and, for a method,
    the object it is called on. *)
Definition inputs (earlier : list stmt) (s : stmt) : list string :=
  if bound earlier (receiver s) then receiver s :: reads s else reads s.

(** [v] is bound, and so is, step by step, everything it was computed
    from. *)
Fixpoint grounded (fuel : nat) (earlier : list stmt) (v : string) : bool :=
  match fuel with
  | O => false
  | S fuel' =>
      match binder_before earlier v with
      | Some (c, rest) => forallb (grounded fuel' rest) (inputs rest c)
      | None => false
      end
  end.

(** A statement that draws, loads or builds the data. *)
Definition is_generation (s : stmt) : bool :=
  is_sampling s ||
  mem (func s) ["make_classification"; "load_iris"; "DataFrame"; "date_range";
                "cumsum"; "where"; "arange"].

Definition is_split (s : stmt) : bool := String.eqb (func s) "train_test_split".

(** Every split takes two arguments, both computed, step by step, from
    earlier statements; and every statement that draws, loads or builds
    the data stands before the first split. *)
Definition splits_generated_data (nb : notebook) : bool :=
  scan_all (fun earlier s =>
              if is_split s then
                match reads s with
                | [features; targets] =>
                    grounded 12 earlier features && grounded 12 earlier targets
                | _ => false
                end
              else if is_generation s then negb (existsb is_split earlier)
              else true)
           [] (body nb).

(** Every [predict] whose result is scored or plotted in the PID notebooks
    takes the test features. *)
Definition predicts_from_test_features (nb : notebook) : bool :=
  scan_all (fun earlier s =>
              if String.eqb (func s) "predict" then
                match reads s with
                | [features] =>
                    match part_of 4 earlier features with
                    | Some 1%nat => true
                    | _ => false
                    end
                | _ => false
                end
              else true)
           [] (body nb).

End Checks.

(** ** A generator at the lower end

    [random_sample] may return 0.0: this generator always does, and draws
    the lowest integer and a zero deviate. *)

Module Lowest.

Definition generator : np.BitGenerator :=
  {| np.rng_state := unit;
     np.seed_state := fun _ => tt;
     np.random_sample := fun s => (0, s);
     np.standard_normal := fun s => (0, s);
     np.integers := fun low high s => (low, s) |}.

End Lowest.
(** * Facts *)

Import Spec.

(** ** The demonstration generator and library keep the documented contracts *)

Lemma demo_unit_sampler : np.unit_sampler Demo.generator.
Proof.
  intros s. simpl. unfold Demo.unit_sample.
  pose proof (Z.mod_pos_bound s 1000 ltac:(lia)) as [Hlo Hhi].
  split.
  - apply Qle_shift_div_l; [reflexivity|].
    rewrite Qmult_0_l. change 0 with (inject_Z 0). rewrite <- Zle_Qle. exact Hlo.
  - apply Qlt_shift_div_r; [reflexivity|].
    rewrite Qmult_1_l. change 1000 with (inject_Z 1000). rewrite <- Zlt_Qlt. exact Hhi.
Qed.

Lemma demo_documented_shapes : sklearn.documented_shapes Demo.library.
Proof.
  split.
  - intros n f r. split; apply repeat_length.
  - split; apply repeat_length.
Qed.

(** ** Rounding to double precision *)

Section Float64Facts.
Import float64.

Lemma pow2_pos (e : Z) : 0 < pow2 e.
Proof. apply Qpower_0_lt. reflexivity. Qed.

Lemma pow2_le (a b : Z) : (a <= b)%Z -> pow2 a <= pow2 b.
Proof. intros H. apply Qpower_le_compat_l; [exact H | discriminate]. Qed.

Lemma pow2_lt (a b : Z) : (a < b)%Z -> pow2 a < pow2 b.
Proof. intros H. apply Qpower_lt_compat_l; [exact H | reflexivity]. Qed.

Lemma pow2_plus (a b : Z) : pow2 (a + b) == pow2 a * pow2 b.
Proof. apply Qpower_plus. discriminate. Qed.

Lemma pow2_inject (n : Z) : (0 <= n)%Z -> pow2 n == inject_Z (2 ^ n).
Proof. intros H. unfold pow2. now rewrite Zpower_Qpower. Qed.

(** [ilog2 x] is the binade of [x]. *)
Lemma ilog2_spec (x : Q) :
  0 < x -> pow2 (ilog2 x) <= x /\ x < pow2 (ilog2 x + 1).
Proof.
  intros Hx. destruct x as [p q]. unfold ilog2. cbn [Qnum Qden].
  assert (Hp : (0 < p)%Z) by (unfold Qlt in Hx; simpl in Hx; lia).
  set (lp := Z.log2 p). set (lq := Z.log2 (Z.pos q)).
  destruct (Z.log2_spec p Hp) as [Hp1 Hp2]. fold lp in Hp1, Hp2.
  destruct (Z.log2_spec (Z.pos q) ltac:(lia)) as [Hq1 Hq2]. fold lq in Hq1, Hq2.
  assert (Hlp : (0 <= lp)%Z) by apply Z.log2_nonneg.
  assert (Hlq : (0 <= lq)%Z) by apply Z.log2_nonneg.
  assert (Hx' : (p # q) * inject_Z (Z.pos q) == inject_Z p).
  { unfold Qeq, Qmult, inject_Z. simpl. lia. }
  assert (Hq0 : 0 < inject_Z (Z.pos q)) by (unfold Qlt; simpl; lia).
  assert (HP1 : pow2 lp <= inject_Z p) by (rewrite pow2_inject by lia; now rewrite <- Zle_Qle).
  assert (HP2 : inject_Z p < pow2 (lp + 1))
    by (rewrite pow2_inject by lia; rewrite <- Zlt_Qlt; lia).
  assert (HQ1 : pow2 lq <= inject_Z (Z.pos q))
    by (rewrite pow2_inject by lia; now rewrite <- Zle_Qle).
  assert (HQ2 : inject_Z (Z.pos q) < pow2 (lq + 1))
    by (rewrite pow2_inject by lia; rewrite <- Zlt_Qlt; lia).
  (* x < 2^(d+1) and 2^(d-1) <= x *)
  assert (Hup : (p # q) < pow2 (lp - lq + 1)).
  { apply (Qmult_lt_r _ _ (inject_Z (Z.pos q)) Hq0). rewrite Hx'.
    eapply Qlt_le_trans; [exact HP2|].
    replace (lp + 1)%Z with ((lp - lq + 1) + lq)%Z by lia. rewrite pow2_plus.
    apply Qmult_le_l; [apply pow2_pos | exact HQ1]. }
  assert (Hlow : pow2 (lp - lq - 1) <= (p # q)).
  { apply (Qmult_le_r _ _ (inject_Z (Z.pos q)) Hq0). rewrite Hx'.
    eapply Qle_trans; [|exact HP1].
    replace lp with ((lp - lq - 1) + (lq + 1))%Z at 2 by lia. rewrite pow2_plus.
    apply Qmult_le_l; [apply pow2_pos | now apply Qlt_le_weak]. }
  destruct (Qle_bool (pow2 (lp - lq)) (p # q)) eqn:E.
  - apply Qle_bool_iff in E. split; [exact E | exact Hup].
  - split; [exact Hlow|].
    replace (lp - lq - 1 + 1)%Z with (lp - lq)%Z by lia.
    apply Qnot_le_lt. intros H. apply Qle_bool_iff in H. congruence.
Qed.

Lemma ilog2_le (x y : Q) : 0 < x -> x <= y -> (ilog2 x <= ilog2 y)%Z.
Proof.
  intros Hx Hxy.
  destruct (ilog2_spec x Hx) as [Hx1 _].
  destruct (ilog2_spec y ltac:(eapply Qlt_le_trans; eassumption)) as [_ Hy2].
  assert (H : pow2 (ilog2 x) < pow2 (ilog2 y + 1)).
  { eapply Qle_lt_trans; [exact Hx1|]. eapply Qle_lt_trans; [exact Hxy | exact Hy2]. }
  apply Qpower_lt_compat_l_inv in H; [lia | reflexivity].
Qed.

(** The nearest integer is the floor or the next integer, and at most one
    half away. *)
Lemma nearest_even_cases (y : Q) :
  (nearest_even y = Qfloor y /\ y - inject_Z (Qfloor y) <= 1 # 2) \/
  (nearest_even y = (Qfloor y + 1)%Z /\ 1 # 2 <= y - inject_Z (Qfloor y)).
Proof.
  unfold nearest_even.
  destruct (Qcompare_spec (y - inject_Z (Qfloor y)) (1 # 2)) as [E|E|E].
  - destruct (Z.even (Qfloor y)); [left|right]; split; try reflexivity;
      rewrite E; apply Qle_refl.
  - left. split; [reflexivity | now apply Qlt_le_weak].
  - right. split; [reflexivity | now apply Qlt_le_weak].
Qed.

Lemma floor_bounds (y : Q) :
  inject_Z (Qfloor y) <= y /\ y < inject_Z (Qfloor y) + 1.
Proof.
  split; [apply Qfloor_le|].
  pose proof (Qlt_floor y) as H. rewrite inject_Z_plus in H. exact H.
Qed.

Lemma nearest_even_error (y : Q) :
  - (1 # 2) <= inject_Z (nearest_even y) - y /\ inject_Z (nearest_even y) - y <= 1 # 2.
Proof.
  destruct (floor_bounds y) as [H1 H2].
  destruct (nearest_even_cases y) as [[-> H]|[-> H]].
  - split; lra.
  - rewrite inject_Z_plus. change (inject_Z 1) with 1. split; lra.
Qed.

(** Rounding to an integer does not cross an integer. *)
Lemma nearest_even_le (y : Q) (n : Z) : y <= inject_Z n -> (nearest_even y <= n)%Z.
Proof.
  intros H. destruct (floor_bounds y) as [H1 H2].
  destruct (nearest_even_cases y) as [[-> _]|[-> Hh]].
  - rewrite Zle_Qle. lra.
  - assert (Hlt : inject_Z (Qfloor y) < inject_Z n) by lra.
    rewrite <- Zlt_Qlt in Hlt. lia.
Qed.

Lemma nearest_even_ge (y : Q) (n : Z) : inject_Z n <= y -> (n <= nearest_even y)%Z.
Proof.
  intros H.
  assert (Hf : (n <= Qfloor y)%Z).
  { rewrite <- (Qfloor_Z n). now apply Qfloor_resp_le. }
  destruct (nearest_even_cases y) as [[-> _]|[-> _]]; lia.
Qed.

Lemma nearest_even_le_compat (a b : Q) : a <= b -> (nearest_even a <= nearest_even b)%Z.
Proof.
  intros Hab.
  pose proof (Qfloor_resp_le a b Hab) as Hf.
  destruct (Z.eq_dec (Qfloor a) (Qfloor b)) as [E|E].
  - unfold nearest_even. rewrite E.
    destruct (Qcompare_spec (a - inject_Z (Qfloor b)) (1 # 2)) as [Ea|Ea|Ea];
      destruct (Qcompare_spec (b - inject_Z (Qfloor b)) (1 # 2)) as [Eb|Eb|Eb];
      try (destruct (Z.even (Qfloor b))); try lia; exfalso; lra.
  - assert (Hlt : (Qfloor a + 1 <= Qfloor b)%Z) by lia.
    destruct (nearest_even_cases a) as [[-> _]|[-> _]];
      destruct (nearest_even_cases b) as [[-> _]|[-> _]]; lia.
Qed.

Lemma nearest_even_Z (n : Z) : nearest_even (inject_Z n) = n.
Proof.
  apply Z.le_antisymm.
  - apply nearest_even_le. apply Qle_refl.
  - apply nearest_even_ge. apply Qle_refl.
Qed.

Lemma round_zero (x : Q) : x == 0 -> round x = 0.
Proof. intros H. unfold round. apply Qeq_bool_iff in H. now rewrite H. Qed.

Lemma round_scaled (x : Q) :
  ~ x == 0 ->
  round x == inject_Z (nearest_even (x / pow2 (exponent x))) * pow2 (exponent x).
Proof.
  intros H. unfold round. destruct (Qeq_bool x 0) eqn:E.
  - apply Qeq_bool_iff in E. contradiction.
  - apply Qred_correct.
Qed.

Lemma scaled_back (x : Q) (e : Z) : x / pow2 e * pow2 e == x.
Proof. field. apply Qpower_not_0. discriminate. Qed.

(** A double is at most half a unit of its last place away. *)
Lemma round_error (x : Q) :
  - (pow2 (exponent x) * (1 # 2)) <= round x - x /\
  round x - x <= pow2 (exponent x) * (1 # 2).
Proof.
  pose proof (pow2_pos (exponent x)) as Hp.
  destruct (Qeq_dec x 0) as [E|E].
  - rewrite (round_zero x E). set (p := pow2 (exponent x)) in *. clearbody p. split; lra.
  - rewrite (round_scaled x E).
    destruct (nearest_even_error (x / pow2 (exponent x))) as [H1 H2].
    pose proof (scaled_back x (exponent x)) as Hx.
    set (m := x / pow2 (exponent x)) in *.
    set (k := inject_Z (nearest_even m)) in *.
    set (p := pow2 (exponent x)) in *.
    assert (Hd : k * p - x == (k - m) * p) by (rewrite <- Hx at 1; ring).
    rewrite Hd. clearbody k m p. split; nra.
Qed.

Lemma Qabs_pos_of (x : Q) : ~ x == 0 -> 0 < Qabs x.
Proof.
  intros Hx. apply Qabs_case; intros H.
  - destruct (Qlt_le_dec 0 x) as [H1|H1]; [exact H1|].
    exfalso. apply Hx. now apply Qle_antisym.
  - destruct (Qlt_le_dec 0 (- x)) as [H1|H1]; [exact H1|].
    exfalso. apply Hx. lra.
Qed.

Lemma exponent_le (x : Q) (k : Z) :
  ~ x == 0 -> Qabs x < pow2 k -> (-1021 <= k)%Z -> (exponent x <= k - 53)%Z.
Proof.
  intros Hx Hk Hmin. unfold exponent.
  pose proof (Qabs_pos_of x Hx) as Hpos.
  destruct (ilog2_spec (Qabs x) Hpos) as [H1 _].
  assert (H : pow2 (ilog2 (Qabs x)) < pow2 k) by (eapply Qle_lt_trans; eassumption).
  apply Qpower_lt_compat_l_inv in H; [lia | reflexivity].
Qed.

Lemma Qabs_of_nonneg (x : Q) : 0 <= x -> Qabs x = x.
Proof.
  destruct x as [p q]. unfold Qle, Qabs. simpl. intros H.
  now rewrite Z.abs_eq by lia.
Qed.

Lemma Qabs_of_nonpos (x : Q) : x <= 0 -> Qabs x = - x.
Proof.
  destruct x as [p q]. unfold Qle, Qabs, Qopp. simpl. intros H.
  now rewrite Z.abs_neq by lia.
Qed.

Lemma round_nonneg (x : Q) : 0 <= x -> 0 <= round x.
Proof.
  intros Hx. destruct (Qeq_dec x 0) as [E|E].
  - rewrite (round_zero x E). apply Qle_refl.
  - rewrite (round_scaled x E). apply Qmult_le_0_compat.
    + change 0 with (inject_Z 0). rewrite <- Zle_Qle. apply nearest_even_ge.
      apply Qle_shift_div_l; [apply pow2_pos|]. change (inject_Z 0) with 0. lra.
    + apply Qlt_le_weak, pow2_pos.
Qed.

Lemma round_nonpos (x : Q) : x <= 0 -> round x <= 0.
Proof.
  intros Hx. destruct (Qeq_dec x 0) as [E|E].
  - rewrite (round_zero x E). apply Qle_refl.
  - rewrite (round_scaled x E).
    assert (H : inject_Z (nearest_even (x / pow2 (exponent x))) <= 0).
    { change 0 with (inject_Z 0). rewrite <- Zle_Qle. apply nearest_even_le.
      apply Qle_shift_div_r; [apply pow2_pos|]. change (inject_Z 0) with 0. lra. }
    pose proof (pow2_pos (exponent x)) as Hp.
    set (k := inject_Z (nearest_even (x / pow2 (exponent x)))) in *.
    set (p := pow2 (exponent x)) in *. clearbody k p. nra.
Qed.

Lemma div_pow2_le (x y : Q) (e : Z) : x <= y -> x / pow2 e <= y / pow2 e.
Proof.
  intros H. apply Qle_shift_div_l; [apply pow2_pos|]. now rewrite scaled_back.
Qed.

(** Rounding keeps the order: of positive numbers, *)
Lemma round_le_pos (x y : Q) : 0 < x -> x <= y -> round x <= round y.
Proof.
  intros Hx Hxy.
  assert (Hy : 0 < y) by (eapply Qlt_le_trans; eassumption).
  assert (Ex : ~ x == 0) by (intros E; rewrite E in Hx; discriminate Hx).
  assert (Ey : ~ y == 0) by (intros E; rewrite E in Hy; discriminate Hy).
  rewrite (round_scaled x Ex), (round_scaled y Ey).
  pose proof (ilog2_le x y Hx Hxy) as Hl.
  destruct (ilog2_spec x Hx) as [Hx1 Hx2]. destruct (ilog2_spec y Hy) as [Hy1 Hy2].
  unfold exponent. rewrite (Qabs_of_nonneg x), (Qabs_of_nonneg y) by now apply Qlt_le_weak.
  set (lx := ilog2 x) in *. set (ly := ilog2 y) in *.
  set (cx := Z.max (lx - 52) (-1074)). set (cy := Z.max (ly - 52) (-1074)).
  assert (Hc : (cx <= cy)%Z) by (unfold cx, cy; lia).
  destruct (Z.eq_dec cx cy) as [E|E].
  - rewrite E. apply Qmult_le_compat_r; [|apply Qlt_le_weak, pow2_pos].
    rewrite <- Zle_Qle. apply nearest_even_le_compat. now apply div_pow2_le.
  - assert (Hcy : cy = (ly - 52)%Z) by (unfold cx, cy in *; lia).
    assert (Hlt : (lx + 1 <= ly)%Z) by (unfold cx, cy in *; lia).
    apply Qle_trans with (pow2 ly).
    + assert (Hk : (nearest_even (x / pow2 cx) <= 2 ^ (ly - cx))%Z).
      { apply nearest_even_le. rewrite <- pow2_inject by (unfold cx, cy in *; lia).
        apply Qle_shift_div_r; [apply pow2_pos|]. rewrite <- pow2_plus.
        replace (ly - cx + cx)%Z with ly by lia.
        apply Qlt_le_weak. eapply Qlt_le_trans; [exact Hx2|]. now apply pow2_le. }
      rewrite Zle_Qle in Hk. rewrite <- pow2_inject in Hk by (unfold cx, cy in *; lia).
      assert (HB : pow2 ly == pow2 (ly - cx) * pow2 cx).
      { rewrite <- pow2_plus. replace (ly - cx + cx)%Z with ly by lia. reflexivity. }
      rewrite HB.
      apply Qmult_le_compat_r; [exact Hk | apply Qlt_le_weak, pow2_pos].
    + assert (Hk : (2 ^ 52 <= nearest_even (y / pow2 cy))%Z).
      { apply nearest_even_ge. rewrite <- pow2_inject by lia.
        apply Qle_shift_div_l; [apply pow2_pos|]. rewrite <- pow2_plus.
        replace (52 + cy)%Z with ly by lia. exact Hy1. }
      rewrite Zle_Qle in Hk. rewrite <- pow2_inject in Hk by lia.
      assert (HB : pow2 ly == pow2 52 * pow2 cy).
      { rewrite <- pow2_plus. replace (52 + cy)%Z with ly by lia. reflexivity. }
      rewrite HB.
      apply Qmult_le_compat_r; [exact Hk | apply Qlt_le_weak, pow2_pos].
Qed.

(** of negative numbers, *)
Lemma round_le_neg (x y : Q) : y < 0 -> x <= y -> round x <= round y.
Proof.
  intros Hy Hxy.
  assert (Hx : x < 0) by (eapply Qle_lt_trans; eassumption).
  assert (Ex : ~ x == 0) by (intros E; rewrite E in Hx; discriminate Hx).
  assert (Ey : ~ y == 0) by (intros E; rewrite E in Hy; discriminate Hy).
  rewrite (round_scaled x Ex), (round_scaled y Ey).
  assert (Hnx : 0 < - x) by lra. assert (Hny : 0 < - y) by lra.
  pose proof (ilog2_le (- y) (- x) Hny ltac:(lra)) as Hl.
  destruct (ilog2_spec (- x) Hnx) as [Hx1 Hx2].
  destruct (ilog2_spec (- y) Hny) as [Hy1 Hy2].
  unfold exponent. rewrite (Qabs_of_nonpos x), (Qabs_of_nonpos y) by now apply Qlt_le_weak.
  set (lx := ilog2 (- x)) in *. set (ly := ilog2 (- y)) in *.
  set (cx := Z.max (lx - 52) (-1074)). set (cy := Z.max (ly - 52) (-1074)).
  assert (Hc : (cy <= cx)%Z) by (unfold cx, cy; lia).
  destruct (Z.eq_dec cx cy) as [E|E].
  - rewrite E. apply Qmult_le_compat_r; [|apply Qlt_le_weak, pow2_pos].
    rewrite <- Zle_Qle. apply nearest_even_le_compat. now apply div_pow2_le.
  - assert (Hcx : cx = (lx - 52)%Z) by (unfold cx, cy in *; lia).
    assert (Hlt : (ly + 1 <= lx)%Z) by (unfold cx, cy in *; lia).
    assert (HB1 : pow2 lx == pow2 52 * pow2 cx).
    { rewrite <- pow2_plus. replace (52 + cx)%Z with lx by lia. reflexivity. }
    assert (HB2 : pow2 lx == pow2 (lx - cy) * pow2 cy).
    { rewrite <- pow2_plus. replace (lx - cy + cy)%Z with lx by lia. reflexivity. }
    pose proof (pow2_pos cx) as Hpx. pose proof (pow2_pos cy) as Hpy.
    apply Qle_trans with (- pow2 lx).
    + assert (Hk : (nearest_even (x / pow2 cx) <= - 2 ^ 52)%Z).
      { apply nearest_even_le. rewrite inject_Z_opp, <- pow2_inject by lia.
        apply Qle_shift_div_r; [exact Hpx|].
        setoid_replace (- pow2 52 * pow2 cx) with (- pow2 lx) by (rewrite HB1; ring).
        lra. }
      rewrite Zle_Qle, inject_Z_opp in Hk. rewrite <- pow2_inject in Hk by lia.
      rewrite HB1.
      set (k := inject_Z (nearest_even (x / pow2 cx))) in *.
      set (p := pow2 cx) in *. set (b := pow2 52) in *. clearbody k p b. nra.
    + assert (Hk : (- 2 ^ (lx - cy) <= nearest_even (y / pow2 cy))%Z).
      { apply nearest_even_ge. rewrite inject_Z_opp, <- pow2_inject by lia.
        apply Qle_shift_div_l; [exact Hpy|].
        setoid_replace (- pow2 (lx - cy) * pow2 cy) with (- pow2 lx) by (rewrite HB2; ring).
        assert (H : pow2 (ly + 1) <= pow2 lx) by now apply pow2_le.
        lra. }
      rewrite Zle_Qle, inject_Z_opp in Hk. rewrite <- pow2_inject in Hk by lia.
      rewrite HB2.
      set (k := inject_Z (nearest_even (y / pow2 cy))) in *.
      set (p := pow2 cy) in *. set (b := pow2 (lx - cy)) in *. clearbody k p b. nra.
Qed.

(** of all numbers. *)
Lemma round_le (x y : Q) : x <= y -> round x <= round y.
Proof.
  intros Hxy.
  destruct (Qlt_le_dec 0 x) as [Hx|Hx].
  - now apply round_le_pos.
  - destruct (Qlt_le_dec y 0) as [Hy|Hy].
    + now apply round_le_neg.
    + apply Qle_trans with 0; [now apply round_nonpos | now apply round_nonneg].
Qed.

(** Rounding does not depend on how the rational is written. *)
Lemma ilog2_comp (x y : Q) : 0 < x -> x == y -> ilog2 x = ilog2 y.
Proof.
  intros Hx E. assert (Hy : 0 < y) by (now rewrite <- E).
  apply Z.le_antisymm; apply ilog2_le; try assumption; rewrite E; apply Qle_refl.
Qed.

Lemma nearest_even_comp (a b : Q) : a == b -> nearest_even a = nearest_even b.
Proof.
  intros E. apply Z.le_antisymm; apply nearest_even_le_compat; rewrite E; apply Qle_refl.
Qed.

Lemma exponent_comp (x y : Q) : ~ x == 0 -> x == y -> exponent x = exponent y.
Proof.
  intros Hx E. unfold exponent. f_equal. f_equal.
  apply ilog2_comp; [now apply Qabs_pos_of | now rewrite E].
Qed.

Lemma round_comp (x y : Q) : x == y -> round x = round y.
Proof.
  intros E. destruct (Qeq_dec x 0) as [Hx|Hx].
  - rewrite (round_zero x Hx). symmetry. apply round_zero. now rewrite <- E.
  - assert (Hy : ~ y == 0) by (now rewrite <- E).
    unfold round.
    destruct (Qeq_bool x 0) eqn:Ex; [apply Qeq_bool_iff in Ex; contradiction|].
    destruct (Qeq_bool y 0) eqn:Ey; [apply Qeq_bool_iff in Ey; contradiction|].
    apply Qred_complete. rewrite (exponent_comp x y Hx E).
    rewrite (nearest_even_comp (x / pow2 (exponent y)) (y / pow2 (exponent y)))
      by (now rewrite E).
    reflexivity.
Qed.

(** An integer below [2^53] in size is a double. *)
Lemma round_Z (n : Z) : (Z.abs n < 2 ^ 53)%Z -> round (inject_Z n) == inject_Z n.
Proof.
  intros Hn. destruct (Z.eq_dec n 0) as [->|Hn0]; [reflexivity|].
  assert (Hx : ~ inject_Z n == 0).
  { change 0 with (inject_Z 0). rewrite inject_Z_injective. exact Hn0. }
  rewrite (round_scaled _ Hx).
  set (c := exponent (inject_Z n)).
  assert (Hc : (c <= 0)%Z).
  { unfold c. replace 0%Z with (53 - 53)%Z by reflexivity.
    apply exponent_le; [exact Hx| |lia].
    rewrite pow2_inject by lia.
    assert (Ha : Qabs (inject_Z n) = inject_Z (Z.abs n)) by reflexivity.
    rewrite Ha, <- Zlt_Qlt. lia. }
  assert (Hs : inject_Z n / pow2 c == inject_Z (n * 2 ^ (- c))).
  { rewrite inject_Z_mult, <- pow2_inject by lia.
    unfold pow2. rewrite Qpower_opp. field. apply Qpower_not_0. discriminate. }
  rewrite (nearest_even_comp _ _ Hs), nearest_even_Z.
  rewrite inject_Z_mult, <- pow2_inject by lia.
  unfold pow2. rewrite Qpower_opp. field. apply Qpower_not_0. discriminate.
Qed.

(** Close to [x]: below [2^k] in size, a double is within [2^(k-54)]. *)
Lemma round_near (x : Q) (k : Z) :
  Qabs x < pow2 k -> (-1021 <= k)%Z ->
  - pow2 (k - 54) <= round x - x /\ round x - x <= pow2 (k - 54).
Proof.
  intros Hk Hmin.
  destruct (Qeq_dec x 0) as [E|E].
  - rewrite (round_zero x E). pose proof (pow2_pos (k - 54)) as Hp.
    set (p := pow2 (k - 54)) in *. clearbody p. split; lra.
  - destruct (round_error x) as [H1 H2].
    pose proof (exponent_le x k E Hk Hmin) as He.
    assert (Hp : pow2 (exponent x) * (1 # 2) <= pow2 (k - 54)).
    { replace (k - 54)%Z with ((k - 53) + -1)%Z by lia. rewrite pow2_plus.
      change (pow2 (-1)) with (1 # 2).
      apply Qmult_le_compat_r; [now apply pow2_le | discriminate]. }
    split; lra.
Qed.

(** A number with a significand of 53 bits and an exponent [e] of at least
    -1074 is a double. *)
Lemma round_dyadic (n e : Z) :
  (Z.abs n < 2 ^ 53)%Z -> (-1074 <= e)%Z ->
  round (inject_Z n * pow2 e) == inject_Z n * pow2 e.
Proof.
  intros Hn He. destruct (Z.eq_dec n 0) as [->|Hn0].
  { rewrite (round_zero (inject_Z 0 * pow2 e)) by ring. ring. }
  pose proof (pow2_pos e) as Hpe.
  assert (Hx : ~ inject_Z n * pow2 e == 0).
  { intros H. apply Qmult_integral in H as [H|H].
    - change 0 with (inject_Z 0) in H. rewrite inject_Z_injective in H. contradiction.
    - rewrite H in Hpe. discriminate Hpe. }
  rewrite (round_scaled _ Hx).
  set (c := exponent (inject_Z n * pow2 e)).
  assert (Hc : (c <= e)%Z).
  { unfold c. replace e with ((e + 53) - 53)%Z at 2 by lia.
    apply exponent_le; [exact Hx| |lia].
    rewrite Qabs_Qmult, (Qabs_of_nonneg (pow2 e)) by (now apply Qlt_le_weak).
    rewrite pow2_plus, Qmult_comm.
    apply Qmult_lt_l; [exact Hpe|].
    rewrite pow2_inject by lia.
    assert (Ha : Qabs (inject_Z n) = inject_Z (Z.abs n)) by reflexivity.
    rewrite Ha, <- Zlt_Qlt. lia. }
  assert (Hp : pow2 e == inject_Z (2 ^ (e - c)) * pow2 c).
  { rewrite <- pow2_inject by lia. rewrite <- pow2_plus. now replace (e - c + c)%Z with e by lia. }
  assert (Hs : inject_Z n * pow2 e / pow2 c == inject_Z (n * 2 ^ (e - c))).
  { rewrite inject_Z_mult, Hp. field. apply Qpower_not_0. discriminate. }
  rewrite (nearest_even_comp _ _ Hs), nearest_even_Z.
  rewrite inject_Z_mult, Hp. ring.
Qed.

(** The draws of the PID cell are doubles: numpy computes
    [low + (high - low) * random_sample()] in double precision, and its
    samples are multiples of 2^-53; for the two ranges of the cell no
    rounding takes place. *)
Lemma pid_uniform_draws_are_doubles (k : Z) :
  (0 <= k < 2 ^ 53)%Z ->
  let u := inject_Z k * pow2 (-53) in
  add (-2) (mul (2 - -2) u) == -2 + (2 - -2) * u /\
  add (-0.5) (mul (0.5 - -0.5) u) == -0.5 + (0.5 - -0.5) * u.
Proof.
  intros Hk u.
  assert (P53 : pow2 (-53) == pow2 (-2) * pow2 (-51)) by reflexivity.
  assert (E4 : (2 - -2) * u == inject_Z k * pow2 (-51)).
  { unfold u. rewrite P53. change (pow2 (-2)) with (1 # 4). ring. }
  assert (E1 : (0.5 - -0.5) * u == inject_Z k * pow2 (-53)).
  { unfold u. ring. }
  split.
  - unfold add, mul.
    rewrite (round_comp _ _ E4).
    assert (R : round (inject_Z k * pow2 (-51)) == inject_Z k * pow2 (-51))
      by (apply round_dyadic; lia).
    assert (S : -2 + round (inject_Z k * pow2 (-51)) ==
                inject_Z (k - 2 ^ 52) * pow2 (-51)).
    { rewrite R. unfold Z.sub. rewrite inject_Z_plus.
      change (inject_Z (- 2 ^ 52)) with (- inject_Z (2 ^ 52)).
      rewrite <- (pow2_inject 52) by lia.
      assert (T : pow2 52 * pow2 (-51) == 2) by reflexivity.
      rewrite Qmult_plus_distr_l.
      setoid_replace (- pow2 52 * pow2 (-51)) with (- (pow2 52 * pow2 (-51))) by ring.
      rewrite T. ring. }
    rewrite (round_comp _ _ S), round_dyadic by lia.
    rewrite <- S, R, E4. reflexivity.
  - unfold add, mul.
    rewrite (round_comp _ _ E1).
    assert (R : round (inject_Z k * pow2 (-53)) == inject_Z k * pow2 (-53))
      by (apply round_dyadic; lia).
    assert (S : -0.5 + round (inject_Z k * pow2 (-53)) ==
                inject_Z (k - 2 ^ 52) * pow2 (-53)).
    { rewrite R. unfold Z.sub. rewrite inject_Z_plus.
      change (inject_Z (- 2 ^ 52)) with (- inject_Z (2 ^ 52)).
      rewrite <- (pow2_inject 52) by lia.
      assert (T : pow2 52 * pow2 (-53) == 0.5) by reflexivity.
      rewrite Qmult_plus_distr_l.
      setoid_replace (- pow2 52 * pow2 (-53)) with (- (pow2 52 * pow2 (-53))) by ring.
      rewrite T. ring. }
    rewrite (round_comp _ _ S), round_dyadic by lia.
    rewrite <- S, R, E1. reflexivity.
Qed.

(** The normal draws of the PID cell and of the stock notebook are doubles:
    [0 + 0.5 * z] and [0 + 1 * z] are the doubles numpy returns for every
    double [z] that is not among the smallest subnormal ones. *)
Lemma normal_draws_are_doubles (m e : Z) :
  (Z.abs m < 2 ^ 53)%Z -> (-1073 <= e)%Z ->
  let z := inject_Z m * pow2 e in
  add 0 (mul 0.5 z) == 0 + 0.5 * z /\
  add 0 (mul 1 z) == 0 + 1 * z.
Proof.
  intros Hm He z. split.
  - assert (E : 0.5 * z == inject_Z m * pow2 (e - 1)).
    { unfold z. replace (e - 1)%Z with (e + -1)%Z by lia. rewrite pow2_plus.
      change (pow2 (-1)) with (1 # 2). ring. }
    assert (R : round (inject_Z m * pow2 (e - 1)) == inject_Z m * pow2 (e - 1))
      by (apply round_dyadic; lia).
    unfold add, mul. rewrite (round_comp _ _ E).
    assert (S : 0 + round (inject_Z m * pow2 (e - 1)) == inject_Z m * pow2 (e - 1))
      by (rewrite R; ring).
    rewrite (round_comp _ _ S), R, E. ring.
  - assert (E : 1 * z == inject_Z m * pow2 e) by (unfold z; ring).
    assert (R : round (inject_Z m * pow2 e) == inject_Z m * pow2 e)
      by (apply round_dyadic; lia).
    unfold add, mul. rewrite (round_comp _ _ E).
    assert (S : 0 + round (inject_Z m * pow2 e) == inject_Z m * pow2 e)
      by (rewrite R; ring).
    rewrite (round_comp _ _ S), R, E. ring.
Qed.

End Float64Facts.

(** ** Lists and arrays *)

Section ArrayFacts.

Lemma sadd_length c a : List.length (np.sadd c a) = List.length a.
Proof. apply length_map. Qed.

Lemma smul_length c a : List.length (np.smul c a) = List.length a.
Proof. apply length_map. Qed.

Lemma adds_length a c : List.length (np.adds a c) = List.length a.
Proof. apply length_map. Qed.

Lemma vadd_length a b :
  List.length a = List.length b -> List.length (np.vadd a b) = List.length a.
Proof.
  revert b; induction a as [|x a IH]; intros [|y b] H; simpl in *;
    try reflexivity; try discriminate.
  f_equal. apply IH. now injection H.
Qed.

Lemma cumsum_from_length acc a : List.length (np.cumsum_from acc a) = List.length a.
Proof. revert acc; induction a as [|x a IH]; intros acc; simpl; [|rewrite IH]; reflexivity. Qed.

Lemma cumsum_length a : List.length (np.cumsum a) = List.length a.
Proof. destruct a as [|x a]; simpl; [|rewrite cumsum_from_length]; reflexivity. Qed.

Lemma nth_sadd c a i :
  (i < List.length a)%nat -> nth i (np.sadd c a) 0 = float64.add c (nth i a 0).
Proof.
  intros Hi. unfold np.sadd.
  rewrite (nth_indep _ 0 (float64.add c 0)) by (now rewrite length_map).
  apply (map_nth (fun x => float64.add c x)).
Qed.

Lemma nth_smul c a i :
  (i < List.length a)%nat -> nth i (np.smul c a) 0 = float64.mul c (nth i a 0).
Proof.
  intros Hi. unfold np.smul.
  rewrite (nth_indep _ 0 (float64.mul c 0)) by (now rewrite length_map).
  apply (map_nth (fun x => float64.mul c x)).
Qed.

Lemma nth_adds a c i :
  (i < List.length a)%nat -> nth i (np.adds a c) 0 = float64.add (nth i a 0) c.
Proof.
  intros Hi. unfold np.adds.
  rewrite (nth_indep _ 0 (float64.add 0 c)) by (now rewrite length_map).
  apply (map_nth (fun x => float64.add x c)).
Qed.

Lemma nth_vadd a b i :
  (i < List.length a)%nat -> (i < List.length b)%nat ->
  nth i (np.vadd a b) 0 = float64.add (nth i a 0) (nth i b 0).
Proof.
  revert b i; induction a as [|x a IH]; intros [|y b] [|i] Ha Hb; simpl in *;
    try lia; try reflexivity.
  apply IH; lia.
Qed.

(** The running sum: the first cell is the first value, every later cell
    the double sum of the cell before and the value of the row. *)
Lemma nth_cumsum_from_S acc a i :
  (S i < List.length a)%nat ->
  nth (S i) (np.cumsum_from acc a) 0 =
  float64.add (nth i (np.cumsum_from acc a) 0) (nth (S i) a 0).
Proof.
  revert acc i; induction a as [|x a IH]; intros acc i Hi; simpl in Hi; [lia|].
  destruct a as [|y a]; [simpl in Hi; lia|].
  destruct i as [|i]; [reflexivity|].
  change (nth (S (S i)) (np.cumsum_from acc (x :: y :: a)) 0)
    with (nth (S i) (np.cumsum_from (float64.add acc x) (y :: a)) 0).
  rewrite IH by (simpl in *; lia). reflexivity.
Qed.

Lemma nth_cumsum_0 a : nth 0 (np.cumsum a) 0 = nth 0 a 0.
Proof. destruct a; reflexivity. Qed.

Lemma nth_cumsum_S a i :
  (S i < List.length a)%nat ->
  nth (S i) (np.cumsum a) 0 = float64.add (nth i (np.cumsum a) 0) (nth (S i) a 0).
Proof.
  destruct a as [|x a]; intros Hi; simpl in Hi; [lia|].
  destruct i as [|i].
  - destruct a as [|y a]; [simpl in Hi; lia|]. reflexivity.
  - change (nth (S (S i)) (np.cumsum (x :: a)) 0)
      with (nth (S i) (np.cumsum_from x a) 0).
    rewrite nth_cumsum_from_S by lia. reflexivity.
Qed.

Lemma Forall_nth_Q (P : Q -> Prop) (a : list Q) i :
  Forall P a -> (i < List.length a)%nat -> P (nth i a 0).
Proof. intros H Hi. rewrite Forall_forall in H. apply H, nth_In, Hi. Qed.

End ArrayFacts.

(** ** The global generator *)

Section RandomFacts.
Context {G : np.BitGenerator}.

Lemma draws_length {A : Type} (d : np.random A) (n : nat) (s : np.rng_state) :
  List.length (fst (runState (np.draws d n) s)) = n.
Proof.
  revert s; induction n as [|n IH]; intros s; simpl; [reflexivity|].
  destruct (runState d s) as [x s1]. specialize (IH s1).
  destruct (runState (np.draws d n) s1) as [xs s2]. simpl in *. now rewrite IH.
Qed.

Lemma draws_Forall {A : Type} (P : A -> Prop) (d : np.random A) :
  (forall s, P (fst (runState d s))) ->
  forall n s, Forall P (fst (runState (np.draws d n) s)).
Proof.
  intros Hd n; induction n as [|n IH]; intros s; simpl; [constructor|].
  specialize (Hd s). destruct (runState d s) as [x s1]. specialize (IH s1).
  destruct (runState (np.draws d n) s1) as [xs s2]. simpl in *. now constructor.
Qed.

(** The first of [n + 1] draws is the draw from the starting state. *)
Lemma draws_head {A : Type} (d : np.random A) (n : nat) (s : np.rng_state) (default : A) :
  hd default (fst (runState (np.draws d (S n)) s)) = fst (runState d s).
Proof.
  simpl. destruct (runState d s) as [x s1].
  destruct (runState (np.draws d n) s1) as [xs s2]. reflexivity.
Qed.

Lemma uniform_length low high n s :
  List.length (fst (runState (np.uniform low high n) s)) = n.
Proof. apply draws_length. Qed.

Lemma normal_length loc scale n s :
  List.length (fst (runState (np.normal loc scale n) s)) = n.
Proof. apply draws_length. Qed.

Lemma randint_length low high n s :
  List.length (fst (runState (np.randint low high n) s)) = n.
Proof. apply draws_length. Qed.

Lemma choice2_length {A : Type} (a b : A) p n s :
  List.length (fst (runState (np.choice2 a b p n) s)) = n.
Proof. apply draws_length. Qed.

(** [uniform(low, high)] stays between its bounds. *)
Lemma uniform_range low high n s :
  np.unit_sampler G -> low <= high ->
  Forall (fun x => low <= x /\ x <= high) (fst (runState (np.uniform low high n) s)).
Proof.
  intros HG Hlh. apply draws_Forall. intros s1. simpl.
  pose proof (HG s1) as [H0 H1].
  destruct (np.random_sample s1) as [u s2]. simpl in *.
  split; nra.
Qed.

End RandomFacts.

(** ** The PID simulation cell *)

Section PidFacts.
Context {G : np.BitGenerator} {L : sklearn.Library}.

(** The arrays of the cell, spelled out: the seed fixes the state the first
    draw starts from. *)
Lemma simulate_arrays (n : nat) (s0 : np.rng_state) :
  exists s1 s2,
    let e := fst (runState (np.uniform (-2) 2 n) (np.seed_state 42)) in
    let d := fst (runState (np.uniform (-0.5) 0.5 n) s1) in
    let z := fst (runState (np.normal 0 0.5 n) s2) in
    evalState (Pid.simulate n) s0 =
      {| Pid.error := e; Pid.derivative := d; Pid.integral := np.cumsum e;
         Pid.setpoint := np.sadd 25 z;
         Pid.Kp := np.vadd (np.sadd 2 (np.smul 0.5 e)) (np.smul (np.float 0.1) d);
         Pid.Ki := np.sadd (np.float 0.1) (np.smul (np.float 0.05) (np.cumsum e));
         Pid.Kd := np.sadd (np.float 0.02) (np.smul (np.float 0.01) d) |}.
Proof.
  unfold Pid.simulate, evalState. simpl.
  destruct (runState (np.uniform (-2) 2 n) (np.seed_state 42)) as [e s1] eqn:E1.
  destruct (runState (np.uniform (-0.5) 0.5 n) s1) as [d s2] eqn:E2.
  destruct (runState (np.normal 0 0.5 n) s2) as [z s3] eqn:E3.
  exists s1, s2. simpl. rewrite E2, E3. reflexivity.
Qed.

Lemma simulate_well (n : nat) (s0 : np.rng_state) :
  well_simulated n (evalState (Pid.simulate n) s0).
Proof.
  destruct (simulate_arrays n s0) as (s1 & s2 & H). cbv zeta in H. rewrite H.
  constructor; cbn [Pid.error Pid.derivative Pid.setpoint Pid.integral Pid.Kp Pid.Ki Pid.Kd].
  - apply uniform_length.
  - apply uniform_length.
  - rewrite sadd_length. apply normal_length.
  - reflexivity.
  - reflexivity.
  - reflexivity.
  - reflexivity.
Qed.

Lemma simulate_in_range (n : nat) (s0 : np.rng_state) :
  np.unit_sampler G -> in_range (evalState (Pid.simulate n) s0).
Proof.
  intros HG. destruct (simulate_arrays n s0) as (s1 & s2 & H). cbv zeta in H. rewrite H.
  split; cbn [Pid.error Pid.derivative]; apply uniform_range; try exact HG; discriminate.
Qed.

Lemma well_simulated_lengths n a :
  well_simulated n a ->
  List.length (Pid.integral a) = n /\ List.length (Pid.Kp a) = n /\
  List.length (Pid.Ki a) = n /\ List.length (Pid.Kd a) = n.
Proof.
  intros [He Hd Hs Hi Hp Hki Hkd].
  assert (Hil : List.length (Pid.integral a) = n)
    by (rewrite Hi, cumsum_length; exact He).
  repeat split.
  - exact Hil.
  - rewrite Hp, vadd_length; rewrite ?sadd_length, ?smul_length; congruence.
  - rewrite Hki, sadd_length, smul_length. exact Hil.
  - rewrite Hkd, sadd_length, smul_length. exact Hd.
Qed.

End PidFacts.

(** ** The gains of one row, in double precision *)

Section GainFacts.
Import float64.

Lemma round_near_between (x : Q) (k : Z) :
  - pow2 k < x -> x < pow2 k -> (-1021 <= k)%Z ->
  - pow2 (k - 54) <= round x - x /\ round x - x <= pow2 (k - 54).
Proof.
  intros H1 H2 Hk. apply round_near; [|exact Hk].
  apply Qabs_Qlt_condition. split; assumption.
Qed.

(** [Kp = 2.0 + 0.5 * error + 0.1 * derivative] for one row: the stored
    value lies between the doubles 0.95 and 3.05 and within 1e-15 of the
    exact value of the expression. *)
Lemma kp_of_row (e d : Q) :
  -2 <= e -> e <= 2 -> -0.5 <= d -> d <= 0.5 ->
  let kp := add (add 2 (mul 0.5 e)) (mul (np.float 0.1) d) in
  (np.float 0.95 <= kp /\ kp <= np.float 3.05) /\
  (- (1 # 1000000000000000) <= kp - (2 + 0.5 * e + 0.1 * d) /\
   kp - (2 + 0.5 * e + 0.1 * d) <= 1 # 1000000000000000).
Proof.
  intros He1 He2 Hd1 Hd2. cbv zeta. unfold add, mul.
  assert (Hc : np.float 0.1 = 3602879701896397 # 36028797018963968)
    by (vm_compute; reflexivity).
  rewrite Hc.
  set (c := 3602879701896397 # 36028797018963968).
  set (lo := - (3602879701896397 # 72057594037927936)).
  set (hi := 3602879701896397 # 72057594037927936).
  (* the ranges *)
  pose proof (round_le (-1) (0.5 * e) ltac:(lra)) as A1.
  pose proof (round_le (0.5 * e) 1 ltac:(lra)) as A2.
  replace (round (-1)) with (-1) in A1 by (vm_compute; reflexivity).
  replace (round 1) with 1 in A2 by (vm_compute; reflexivity).
  pose proof (round_near_between (0.5 * e) 1 ltac:(change (pow2 1) with 2; lra)
                ltac:(change (pow2 1) with 2; lra) ltac:(lia)) as [D1 D1'].
  change (pow2 (1 - 54)) with (1 # 9007199254740992) in D1, D1'.
  set (t1 := round (0.5 * e)) in *.
  pose proof (round_le 1 (2 + t1) ltac:(lra)) as B1.
  pose proof (round_le (2 + t1) 3 ltac:(lra)) as B2.
  replace (round 1) with 1 in B1 by (vm_compute; reflexivity).
  replace (round 3) with 3 in B2 by (vm_compute; reflexivity).
  pose proof (round_near_between (2 + t1) 2 ltac:(change (pow2 2) with 4; lra)
                ltac:(change (pow2 2) with 4; lra) ltac:(lia)) as [D2 D2'].
  change (pow2 (2 - 54)) with (1 # 4503599627370496) in D2, D2'.
  set (t2 := round (2 + t1)) in *.
  pose proof (round_le lo (c * d) ltac:(unfold lo, c; lra)) as C1.
  pose proof (round_le (c * d) hi ltac:(unfold hi, c; lra)) as C2.
  replace (round lo) with lo in C1 by (vm_compute; reflexivity).
  replace (round hi) with hi in C2 by (vm_compute; reflexivity).
  pose proof (round_near_between (c * d) 0 ltac:(change (pow2 0) with 1; unfold c; lra)
                ltac:(change (pow2 0) with 1; unfold c; lra) ltac:(lia)) as [D3 D3'].
  change (pow2 (0 - 54)) with (1 # 18014398509481984) in D3, D3'.
  set (t3 := round (c * d)) in *.
  pose proof (round_le (1 + lo) (t2 + t3) ltac:(lra)) as K1.
  pose proof (round_le (t2 + t3) (3 + hi) ltac:(lra)) as K2.
  replace (round (1 + lo)) with (np.float 0.95) in K1 by (vm_compute; reflexivity).
  replace (round (3 + hi)) with (np.float 3.05) in K2 by (vm_compute; reflexivity).
  pose proof (round_near_between (t2 + t3) 2
                ltac:(change (pow2 2) with 4; unfold lo, hi in *; lra)
                ltac:(change (pow2 2) with 4; unfold lo, hi in *; lra) ltac:(lia)) as [D4 D4'].
  change (pow2 (2 - 54)) with (1 # 4503599627370496) in D4, D4'.
  set (kp := round (t2 + t3)) in *.
  split; [split; assumption|].
  unfold c, lo, hi in *. clearbody t1 t2 t3 kp. split; lra.
Qed.

(** [Kd = 0.02 + 0.01 * derivative] for one row. *)
Lemma kd_of_row (d : Q) :
  -0.5 <= d -> d <= 0.5 ->
  let kd := add (np.float 0.02) (mul (np.float 0.01) d) in
  (np.float 0.015 <= kd /\ kd <= np.float 0.025) /\
  (- (1 # 100000000000000000) <= kd - (0.02 + 0.01 * d) /\
   kd - (0.02 + 0.01 * d) <= 1 # 100000000000000000).
Proof.
  intros Hd1 Hd2. cbv zeta. unfold add, mul.
  assert (Hc : np.float 0.01 = 5764607523034235 # 576460752303423488)
    by (vm_compute; reflexivity).
  assert (Hb : np.float 0.02 = 5764607523034235 # 288230376151711744)
    by (vm_compute; reflexivity).
  rewrite Hc, Hb.
  set (c := 5764607523034235 # 576460752303423488).
  set (b := 5764607523034235 # 288230376151711744).
  set (lo := - (5764607523034235 # 1152921504606846976)).
  set (hi := 5764607523034235 # 1152921504606846976).
  pose proof (round_le lo (c * d) ltac:(unfold lo, c; lra)) as C1.
  pose proof (round_le (c * d) hi ltac:(unfold hi, c; lra)) as C2.
  replace (round lo) with lo in C1 by (vm_compute; reflexivity).
  replace (round hi) with hi in C2 by (vm_compute; reflexivity).
  pose proof (round_near_between (c * d) (-7)
                ltac:(change (pow2 (-7)) with (1 # 128); unfold c; lra)
                ltac:(change (pow2 (-7)) with (1 # 128); unfold c; lra) ltac:(lia)) as [D1 D1'].
  change (pow2 (-7 - 54)) with (1 # 2305843009213693952) in D1, D1'.
  set (t := round (c * d)) in *.
  pose proof (round_le (b + lo) (b + t) ltac:(lra)) as K1.
  pose proof (round_le (b + t) (b + hi) ltac:(lra)) as K2.
  replace (round (b + lo)) with (np.float 0.015) in K1 by (vm_compute; reflexivity).
  replace (round (b + hi)) with (np.float 0.025) in K2 by (vm_compute; reflexivity).
  pose proof (round_near_between (b + t) (-5)
                ltac:(change (pow2 (-5)) with (1 # 32); unfold b, lo, hi in *; lra)
                ltac:(change (pow2 (-5)) with (1 # 32); unfold b, lo, hi in *; lra)
                ltac:(lia)) as [D2 D2'].
  change (pow2 (-5 - 54)) with (1 # 576460752303423488) in D2, D2'.
  set (kd := round (b + t)) in *.
  split; [split; assumption|].
  unfold c, b, lo, hi in *. clearbody t kd. split; lra.
Qed.

(** The running double sum of values between -2 and 2 stays as bounded as
    the exact sum and, as long as it is below 2000, drifts from it by at
    most [2^-43] with every addition. *)
Lemma cumsum_from_near (a : list Q) :
  forall (acc : Q) (m : Z),
  Forall (fun x => -2 <= x /\ x <= 2) a ->
  (0 <= m)%Z -> (m + 2 * Z.of_nat (List.length a) <= 2000)%Z ->
  - inject_Z m <= acc -> acc <= inject_Z m ->
  forall i, (i < List.length a)%nat ->
    let s := nth i (np.cumsum_from acc a) 0 in
    (- inject_Z (m + 2 * Z.of_nat (S i)) <= s /\
     s <= inject_Z (m + 2 * Z.of_nat (S i))) /\
    (- (inject_Z (Z.of_nat (S i)) * pow2 (-43)) <= s - (acc + np.sum (firstn (S i) a)) /\
     s - (acc + np.sum (firstn (S i) a)) <= inject_Z (Z.of_nat (S i)) * pow2 (-43)).
Proof.
  induction a as [|x a IH]; intros acc m Ha Hm Hlen Hacc1 Hacc2 i Hi;
    [simpl in Hi; lia|].
  pose proof (Forall_inv Ha) as [Hx1 Hx2]. pose proof (Forall_inv_tail Ha) as Ha'.
  cbn [List.length] in Hlen, Hi.
  assert (Hm2 : (m + 2 <= 2000)%Z) by lia.
  assert (HmQ : inject_Z (m + 2) <= 2000).
  { change 2000 with (inject_Z 2000). rewrite <- Zle_Qle. exact Hm2. }
  assert (Hsum : inject_Z (m + 2) == inject_Z m + 2).
  { rewrite inject_Z_plus. reflexivity. }
  set (acc' := round (acc + x)).
  assert (Hb : - inject_Z (m + 2) <= acc' /\ acc' <= inject_Z (m + 2)).
  { unfold acc'. split.
    - rewrite <- inject_Z_opp. rewrite <- (round_Z (- (m + 2))) by lia.
      apply round_le. rewrite inject_Z_opp. lra.
    - rewrite <- (round_Z (m + 2)) by lia. apply round_le. lra. }
  assert (Hd : - pow2 (-43) <= acc' - (acc + x) /\ acc' - (acc + x) <= pow2 (-43)).
  { unfold acc'.
    apply (round_near_between (acc + x) 11); [| |lia];
      change (pow2 11) with 2048; lra. }
  pose proof (pow2_pos (-43)) as Hu.
  set (u := pow2 (-43)) in *.
  destruct i as [|j].
  - cbn [nth np.cumsum_from firstn np.sum]. fold (add acc x). unfold add. fold acc'.
    cbv zeta. change (Z.of_nat 1) with 1%Z.
    replace (m + 2 * 1)%Z with (m + 2)%Z by lia.
    change (inject_Z 1) with 1. clearbody u acc'. split; split; lra.
  - cbv zeta.
    change (nth (S j) (np.cumsum_from acc (x :: a)) 0)
      with (nth j (np.cumsum_from acc' a) 0).
    change (firstn (S (S j)) (x :: a)) with (x :: firstn (S j) a).
    cbn [np.sum].
    destruct (IH acc' (m + 2)%Z Ha' ltac:(lia) ltac:(lia) (proj1 Hb) (proj2 Hb) j ltac:(lia))
      as [[B1 B2] [E1 E2]].
    replace (m + 2 + 2 * Z.of_nat (S j))%Z with (m + 2 * Z.of_nat (S (S j)))%Z in B1, B2
      by lia.
    fold u in E1, E2.
    assert (Hk : inject_Z (Z.of_nat (S (S j))) == inject_Z (Z.of_nat (S j)) + 1).
    { rewrite (Nat2Z.inj_succ (S j)), <- Z.add_1_r, inject_Z_plus. reflexivity. }
    rewrite Hk.
    set (k := inject_Z (Z.of_nat (S j))) in *.
    set (s := nth j (np.cumsum_from acc' a) 0) in *.
    set (t := np.sum (firstn (S j) a)) in *.
    clearbody u acc' k s t. split; [split; assumption|]. split; nra.
Qed.

End GainFacts.



(** ** pandas and the split *)

Section FrameFacts.
Context {A : Type}.

Lemma DataFrame_of_ok (n : nat) (d : list (string * list A)) :
  pd.all_length n d -> pd.DataFrame_of d = inr d.
Proof.
  intros H. unfold pd.DataFrame_of.
  assert (Hs : pd.same_length d = true).
  { destruct d as [|[k c] d']; [reflexivity|]. simpl.
    pose proof (Forall_inv H) as Hc. pose proof (Forall_inv_tail H) as Hd'.
    simpl in Hc.
    apply forallb_forall. intros kc Hin.
    rewrite Forall_forall in Hd'. rewrite (Hd' kc Hin), Hc. apply Nat.eqb_refl. }
  now rewrite Hs.
Qed.

Lemma getitem_length (n : nat) (df : pd.DataFrame A) (k : string) (c : list A) :
  pd.all_length n df -> pd.getitem df k = inr c -> List.length c = n.
Proof.
  induction df as [|[k0 c0] df IH]; intros H Hg; simpl in Hg; [discriminate|].
  pose proof (Forall_inv H) as Hc. pose proof (Forall_inv_tail H) as Hdf.
  simpl in Hc. destruct (String.eqb k0 k).
  - injection Hg as <-. exact Hc.
  - now apply IH.
Qed.

Lemma getitems_all_length (n : nat) (df : pd.DataFrame A) (names : list string)
    (X : pd.DataFrame A) :
  pd.all_length n df -> pd.getitems df names = inr X ->
  pd.all_length n X /\ pd.columns X = names.
Proof.
  intros H. revert X. induction names as [|k names IH]; intros X Hg; simpl in Hg.
  - injection Hg as <-. split; [constructor | reflexivity].
  - destruct (pd.getitem df k) as [e|c] eqn:Ec; [discriminate|].
    destruct (pd.getitems df names) as [e|rest] eqn:Er; [discriminate|].
    injection Hg as <-. destruct (IH rest eq_refl) as [Hl Hn]. split.
    + constructor; [exact (getitem_length n df k c H Ec) | exact Hl].
    + simpl. now rewrite Hn.
Qed.

Lemma drop_all_length (n : nat) (df X : pd.DataFrame A) (k : string) :
  pd.all_length n df -> pd.drop df k = inr X -> pd.all_length n X.
Proof.
  intros H Hd. unfold pd.drop in Hd.
  destruct (existsb (String.eqb k) (pd.columns df)); [|discriminate].
  injection Hd as <-. unfold pd.all_length in *.
  rewrite Forall_forall in *. intros kc Hin. apply filter_In in Hin. now apply H.
Qed.

Lemma replace_column_all_length (n : nat) (df : pd.DataFrame A) (k : string) (c : list A) :
  pd.all_length n df -> List.length c = n ->
  pd.all_length n (pd.replace_column df k c).
Proof.
  intros H Hc. induction df as [|[k0 c0] df IH]; simpl.
  - constructor; [exact Hc | constructor].
  - pose proof (Forall_inv H) as Hc0. pose proof (Forall_inv_tail H) as Hdf.
    destruct (String.eqb k0 k).
    + constructor; [exact Hc | exact Hdf].
    + constructor; [exact Hc0 | now apply IH].
Qed.

Lemma len_all_length (n : nat) (df : pd.DataFrame A) :
  pd.all_length n df -> df <> [] -> pd.len df = n.
Proof.
  intros H Hne. destruct df as [|[k c] df]; [congruence|].
  exact (Forall_inv H).
Qed.

Lemma setitem_all_length (n : nat) (df : pd.DataFrame A) (k : string) (c : list A) :
  pd.all_length n df -> List.length c = n ->
  pd.setitem df k c = inr (pd.replace_column df k c) /\
  pd.all_length n (pd.replace_column df k c).
Proof.
  intros H Hc. split; [|now apply replace_column_all_length].
  unfold pd.setitem. destruct df as [|kc df]; [reflexivity|].
  rewrite (len_all_length n) by (assumption || discriminate).
  rewrite Hc, Nat.eqb_refl. reflexivity.
Qed.

Lemma values_length (default : A) (df : pd.DataFrame A) :
  List.length (pd.values default df) = pd.len df.
Proof. unfold pd.values. now rewrite length_map, length_seq. Qed.

Lemma values_row_length (default : A) (df : pd.DataFrame A) (row : list A) :
  In row (pd.values default df) -> List.length row = List.length df.
Proof.
  unfold pd.values. rewrite in_map_iff. intros (i & <- & _). apply length_map.
Qed.

(** Row counts of a frame whose columns all have [n] cells. *)
Lemma of_frame_consistent (n : nat) (targets : list string) (df : pd.DataFrame A) :
  pd.all_length n df -> Rows.consistent (Rows.of_frame targets df).
Proof.
  intros H. exists n. unfold Rows.of_frame; simpl. unfold pd.all_length in H.
  rewrite Forall_forall in H.
  split; apply Forall_forall; intros m Hm; apply in_map_iff in Hm;
    destruct Hm as (kc & <- & Hin); apply filter_In in Hin; symmetry; now apply H.
Qed.

Lemma of_arrays_consistent {B : Type} (default : A) (X : list (list A)) (y : list B) :
  List.length X = List.length y -> Rows.consistent (Rows.of_arrays default X y).
Proof.
  intros H. exists (List.length y). unfold Rows.of_arrays; simpl. split.
  - apply Forall_forall. intros m Hm. apply in_map_iff in Hm.
    destruct Hm as (j & <- & _). now rewrite length_map.
  - constructor; [reflexivity | constructor].
Qed.

End FrameFacts.

Section SplitFacts.
Context {L : sklearn.Library}.

(** The split raises exactly when features and targets differ in their
    number of rows. *)
Lemma train_test_split_ok {A B : Type} (X : list A) (y : list B) test_size random_state :
  List.length X = List.length y ->
  exists parts, sklearn.train_test_split X y test_size random_state = inr parts.
Proof.
  intros H. unfold sklearn.train_test_split.
  rewrite H, Nat.eqb_refl. eexists. reflexivity.
Qed.

Lemma train_test_split_raises {A B : Type} (X : list A) (y : list B) test_size random_state :
  List.length X <> List.length y ->
  exists e, sklearn.train_test_split X y test_size random_state = inl e.
Proof.
  intros H. unfold sklearn.train_test_split.
  apply Nat.eqb_neq in H. rewrite H. eexists. reflexivity.
Qed.

Lemma take_In {A : Type} (a : list A) (idx : list nat) (r : A) :
  In r (sklearn.take a idx) -> In r a.
Proof.
  unfold sklearn.take. rewrite in_flat_map. intros (i & _ & Hr).
  destruct (nth_error a i) as [r0|] eqn:E; [|contradiction].
  destruct Hr as [<-|[]]. eapply nth_error_In, E.
Qed.

Lemma fit_transform_length (X : list (list Q)) :
  List.length (sklearn.fit_transform X) = List.length X.
Proof. unfold sklearn.fit_transform, sklearn.transform. apply length_map. Qed.

Lemma polynomial_features_length degree (X : list (list Q)) :
  List.length (sklearn.polynomial_features degree X) = List.length X.
Proof. apply length_map. Qed.

End SplitFacts.

Section PrepareFacts.
Context {G : np.BitGenerator} {L : sklearn.Library}.

Lemma train_test_split_parts {A B : Type} (X : list A) (y : list B) test_size random_state :
  List.length X = List.length y ->
  exists train test,
    sklearn.train_test_split X y test_size random_state =
      inr (sklearn.take X train, sklearn.take X test,
           sklearn.take y train, sklearn.take y test).
Proof.
  intros H. unfold sklearn.train_test_split.
  rewrite H, Nat.eqb_refl. eexists _, _. reflexivity.
Qed.

Lemma transform_row_length (row mean scale : list Q) :
  List.length mean = List.length row -> List.length scale = List.length row ->
  List.length (sklearn.transform_row row mean scale) = List.length row.
Proof.
  revert mean scale; induction row as [|x row IH]; intros [|m mean] [|s scale] Hm Hs;
    simpl in *; try discriminate; try reflexivity.
  f_equal. apply IH; lia.
Qed.

(** Scaling keeps the width of a table whose rows all have one width. *)
Lemma fit_transform_row_length (X : list (list Q)) (w : nat) (row : list Q) :
  (forall r, In r X -> List.length r = w) ->
  In row (sklearn.fit_transform X) -> List.length row = w.
Proof.
  intros Hw Hin. unfold sklearn.fit_transform, sklearn.transform in Hin.
  apply in_map_iff in Hin. destruct Hin as (r & <- & Hr).
  assert (Hn : sklearn.n_features X = w).
  { destruct X as [|r0 X']; [contradiction|]. simpl. apply Hw. now left. }
  rewrite transform_row_length; unfold sklearn.fit; simpl;
    rewrite ?length_map, ?length_seq, ?Hn; auto; symmetry; auto.
Qed.

Lemma frame_columns_length n a :
  well_simulated n a -> pd.all_length n (frame_columns a).
Proof.
  intros W. destruct (well_simulated_lengths n a W) as (Hi & Hp & Hki & Hkd).
  destruct W. unfold frame_columns, pd.all_length.
  repeat constructor; simpl; assumption.
Qed.

Lemma frame_ok n a :
  well_simulated n a -> Pid.frame a = inr (frame_columns a).
Proof. intros W. apply (DataFrame_of_ok n), frame_columns_length, W. Qed.

Lemma features_targets_rows n a :
  well_simulated n a ->
  List.length (sklearn.fit_transform (pd.values 0 (feature_columns a))) =
  List.length (pd.values 0 (target_columns a)).
Proof.
  intros W. destruct (well_simulated_lengths n a W) as (Hi & Hp & Hki & Hkd).
  rewrite fit_transform_length, !values_length. simpl. destruct W. congruence.
Qed.

Lemma prepare_boosting_ok n a :
  well_simulated n a ->
  exists p, Pid.prepare_boosting (frame_columns a) = inr p /\ prepared_from a p.
Proof.
  intros W. unfold Pid.prepare_boosting.
  cbn -[sklearn.train_test_split sklearn.fit_transform pd.values].
  destruct (train_test_split_parts
              (sklearn.fit_transform (pd.values 0 (feature_columns a)))
              (pd.values 0 (target_columns a)) 0.2 42
              (features_targets_rows n a W)) as (train & test & Hs).
  unfold feature_columns, target_columns in Hs. rewrite Hs.
  eexists. split; [reflexivity|].
  constructor; cbn [Pid.data Pid.X Pid.y Pid.X_scaled Pid.X_train Pid.X_test Pid.y_train Pid.y_test];
    try reflexivity; [|exact Hs].
  exists train, test. repeat split; reflexivity.
Qed.

Lemma prepare_forest_ok n a :
  well_simulated n a ->
  exists p, Pid.prepare_forest (frame_columns a) = inr p /\ prepared_from a p.
Proof.
  intros W. unfold Pid.prepare_forest.
  cbn -[sklearn.train_test_split sklearn.fit_transform pd.values].
  destruct (train_test_split_parts
              (sklearn.fit_transform (pd.values 0 (feature_columns a)))
              (pd.values 0 (target_columns a)) 0.2 42
              (features_targets_rows n a W)) as (train & test & Hs).
  unfold feature_columns, target_columns in Hs. rewrite Hs.
  eexists. split; [reflexivity|].
  constructor; cbn [Pid.data Pid.X Pid.y Pid.X_scaled Pid.X_train Pid.X_test Pid.y_train Pid.y_test];
    try reflexivity; [|exact Hs].
  exists train, test. repeat split; reflexivity.
Qed.

(** One run of either notebook: well simulated arrays, and the cells after
    the simulation succeed on them. *)
Lemma notebook_run (nb : np.random (Pid.arrays * py.result Pid.prepared)) (s0 : np.rng_state) :
  In nb [Pid.boosting_notebook; Pid.forest_notebook] ->
  well_simulated Pid.n_samples (fst (evalState nb s0)) /\
  exists p, snd (evalState nb s0) = inr p /\ prepared_from (fst (evalState nb s0)) p.
Proof.
  intros [<-|[<-|[]]].
  - unfold Pid.boosting_notebook, evalState.
    change (runState (a <- Pid.simulate Pid.n_samples ;;
                      ret (a, data <- Pid.frame a ;; Pid.prepare_boosting data)) s0)
      with (let (a, s) := runState (Pid.simulate Pid.n_samples) s0 in
            ((a, data <- Pid.frame a ;; Pid.prepare_boosting data), s)).
    pose proof (simulate_well Pid.n_samples s0) as W. unfold evalState in W.
    destruct (runState (Pid.simulate Pid.n_samples) s0) as [a s]. cbn [fst snd] in *.
    split; [exact W|]. rewrite (frame_ok _ _ W).
    exact (prepare_boosting_ok _ _ W).
  - unfold Pid.forest_notebook, evalState.
    change (runState (a <- Pid.simulate Pid.n_samples ;;
                      ret (a, data <- Pid.frame a ;; Pid.prepare_forest data)) s0)
      with (let (a, s) := runState (Pid.simulate Pid.n_samples) s0 in
            ((a, data <- Pid.frame a ;; Pid.prepare_forest data), s)).
    pose proof (simulate_well Pid.n_samples s0) as W. unfold evalState in W.
    destruct (runState (Pid.simulate Pid.n_samples) s0) as [a s]. cbn [fst snd] in *.
    split; [exact W|]. rewrite (frame_ok _ _ W).
    exact (prepare_forest_ok _ _ W).
Qed.

(** The arrays of a notebook are those of its simulation cell. *)
Lemma notebook_arrays (nb : np.random (Pid.arrays * py.result Pid.prepared)) (s0 : np.rng_state) :
  In nb [Pid.boosting_notebook; Pid.forest_notebook] ->
  fst (evalState nb s0) = evalState (Pid.simulate Pid.n_samples) s0.
Proof.
  intros [<-|[<-|[]]].
  - unfold Pid.boosting_notebook, evalState.
    change (runState (a <- Pid.simulate Pid.n_samples ;;
                      ret (a, data <- Pid.frame a ;; Pid.prepare_boosting data)) s0)
      with (let (a, s) := runState (Pid.simulate Pid.n_samples) s0 in
            ((a, data <- Pid.frame a ;; Pid.prepare_boosting data), s)).
    destruct (runState (Pid.simulate Pid.n_samples) s0) as [a s]. reflexivity.
  - unfold Pid.forest_notebook, evalState.
    change (runState (a <- Pid.simulate Pid.n_samples ;;
                      ret (a, data <- Pid.frame a ;; Pid.prepare_forest data)) s0)
      with (let (a, s) := runState (Pid.simulate Pid.n_samples) s0 in
            ((a, data <- Pid.frame a ;; Pid.prepare_forest data), s)).
    destruct (runState (Pid.simulate Pid.n_samples) s0) as [a s]. reflexivity.
Qed.

Lemma notebook_in_range (nb : np.random (Pid.arrays * py.result Pid.prepared)) (s0 : np.rng_state) :
  np.unit_sampler G ->
  In nb [Pid.boosting_notebook; Pid.forest_notebook] ->
  in_range (fst (evalState nb s0)).
Proof.
  intros HG [<-|[<-|[]]].
  - unfold Pid.boosting_notebook, evalState.
    change (runState (a <- Pid.simulate Pid.n_samples ;;
                      ret (a, data <- Pid.frame a ;; Pid.prepare_boosting data)) s0)
      with (let (a, s) := runState (Pid.simulate Pid.n_samples) s0 in
            ((a, data <- Pid.frame a ;; Pid.prepare_boosting data), s)).
    pose proof (simulate_in_range Pid.n_samples s0 HG) as R. unfold evalState in R.
    destruct (runState (Pid.simulate Pid.n_samples) s0) as [a s]. exact R.
  - unfold Pid.forest_notebook, evalState.
    change (runState (a <- Pid.simulate Pid.n_samples ;;
                      ret (a, data <- Pid.frame a ;; Pid.prepare_forest data)) s0)
      with (let (a, s) := runState (Pid.simulate Pid.n_samples) s0 in
            ((a, data <- Pid.frame a ;; Pid.prepare_forest data), s)).
    pose proof (simulate_in_range Pid.n_samples s0 HG) as R. unfold evalState in R.
    destruct (runState (Pid.simulate Pid.n_samples) s0) as [a s]. exact R.
Qed.

End PrepareFacts.

(** ** Which data the models see *)

Section CheckFacts.
Import Script Checks.

Lemma scan_all_spec (P : list stmt -> stmt -> bool) (earlier body : list stmt) :
  scan_all P earlier body = true ->
  forall pre s post, body = (pre ++ s :: post)%list -> P (rev pre ++ earlier)%list s = true.
Proof.
  revert earlier; induction body as [|t body IH]; intros earlier H pre s post E.
  - destruct pre; discriminate E.
  - cbn [scan_all] in H. apply andb_prop in H as [Ht Hrest].
    destruct pre as [|u pre]; simpl in E; injection E as <- E.
    + subst body. exact Ht.
    + specialize (IH (t :: earlier) Hrest pre s post E).
      simpl rev. now rewrite <- app_assoc.
Qed.

Lemma checks_hold :
  forallb (fun nb => fits_on_training_part nb && scores_on_matching_part nb &&
                     fitted_before_use nb && fitted_once nb &&
                     splits_generated_data nb) notebooks = true.
Proof. vm_compute. reflexivity. Qed.

Lemma checks_of (nb : notebook) :
  In nb notebooks ->
  fits_on_training_part nb = true /\ scores_on_matching_part nb = true /\
  fitted_before_use nb = true /\ fitted_once nb = true /\
  splits_generated_data nb = true.
Proof.
  intros Hnb. pose proof checks_hold as H. rewrite forallb_forall in H.
  specialize (H nb Hnb). apply andb_prop in H as [H H5]. apply andb_prop in H as [H H4].
  apply andb_prop in H as [H H3]. apply andb_prop in H as [H1 H2]. auto.
Qed.

(** The statement that bound a variable last stands among the earlier
    ones. *)
Lemma binder_before_In (earlier : list stmt) (v : string) (c : stmt) (rest : list stmt) :
  binder_before earlier v = Some (c, rest) ->
  In c earlier /\ mem v (binds c) = true.
Proof.
  induction earlier as [|s earlier IH]; intros H; simpl in H; [discriminate|].
  destruct (mem v (binds s)) eqn:E.
  - injection H as <- <-. split; [now left | exact E].
  - destruct (IH H) as [Hin Hm]. split; [now right | exact Hm].
Qed.

Lemma grounded_bound (fuel : nat) (earlier : list stmt) (v : string) :
  grounded fuel earlier v = true ->
  exists c, In c earlier /\ mem v (binds c) = true.
Proof.
  destruct fuel as [|fuel]; intros H; simpl in H; [discriminate|].
  destruct (binder_before earlier v) as [[c rest]|] eqn:E; [|discriminate].
  exists c. eapply binder_before_In, E.
Qed.

(** In every notebook, a split takes two arguments that are computed, step
    by step, from statements before it, and no statement that draws, loads
    or builds the data follows a split. *)
Lemma splits_take_generated_data (nb : notebook) (pre post : list stmt) (s : stmt) :
  In nb notebooks ->
  body nb = (pre ++ s :: post)%list ->
  (is_split s = true ->
   exists features targets,
     reads s = [features; targets] /\
     grounded 12 (rev pre) features = true /\ grounded 12 (rev pre) targets = true /\
     (exists c, In c pre /\ mem features (binds c) = true) /\
     (exists c, In c pre /\ mem targets (binds c) = true)) /\
  (is_generation s = true -> forall t, In t pre -> is_split t = false).
Proof.
  intros Hnb Hbody. destruct (checks_of nb Hnb) as (_ & _ & _ & _ & Hgen).
  pose proof (scan_all_spec _ _ _ Hgen pre s post Hbody) as H.
  rewrite app_nil_r in H. cbv beta in H. split.
  - intros E. rewrite E in H.
    destruct (reads s) as [|features [|targets [|]]]; try discriminate H.
    apply andb_prop in H as [H1 H2].
    exists features, targets. repeat split; try assumption.
    + destruct (grounded_bound _ _ _ H1) as (c & Hc & Hm).
      exists c. split; [now apply in_rev | exact Hm].
    + destruct (grounded_bound _ _ _ H2) as (c & Hc & Hm).
      exists c. split; [now apply in_rev | exact Hm].
  - intros E t Ht.
    destruct (is_split s) eqn:Es.
    + unfold is_generation, is_split, is_sampling in E, Es.
      apply String.eqb_eq in Es. rewrite Es in E.
      rewrite andb_false_r in E. discriminate E.
    + rewrite E in H. apply negb_true_iff in H.
      destruct (is_split t) eqn:Et; [|reflexivity].
      assert (Hex : existsb is_split (rev pre) = true).
      { apply existsb_exists. exists t. split; [now apply -> in_rev | exact Et]. }
      congruence.
Qed.

(** In every notebook, every call of [fit] on a model takes the training
    features and the training targets that [train_test_split] returned
    (scaled or not), never a test part; every call [model.score(X, y)]
    takes the features and the targets of one part; and every metric that
    is applied to targets and to an assigned prediction takes the
    prediction made from the features of the part the targets belong to. *)
Lemma models_fit_and_score_on_their_parts
    (nb : notebook) (pre post : list stmt) (s : stmt) :
  In nb notebooks ->
  body nb = (pre ++ s :: post)%list ->
  (func s = "fit" ->
   exists features targets,
     reads s = [features; targets] /\
     part_of 4 (rev pre) features = Some 0%nat /\
     part_of 4 (rev pre) targets = Some 2%nat) /\
  (func s = "score" ->
   exists features targets i,
     reads s = [features; targets] /\
     part_of 4 (rev pre) features = Some i /\
     part_of 4 (rev pre) targets = Some (i + 2)%nat) /\
  (func s <> "score" -> mem (func s) scoring_functions = true ->
   exists targets predicted,
     reads s = [targets; predicted] /\
     forall c rest,
       binder_before (rev pre) predicted = Some (c, rest) ->
       func c = "predict" /\
       exists features i,
         reads c = [features] /\
         part_of 4 rest features = Some i /\
         part_of 4 (rev pre) targets = Some (i + 2)%nat).
Proof.
  intros Hnb Hbody. destruct (checks_of nb Hnb) as (Hfit & Hscore & _ & _ & _).
  pose proof (scan_all_spec _ _ _ Hfit pre s post Hbody) as Hf.
  pose proof (scan_all_spec _ _ _ Hscore pre s post Hbody) as Hs.
  rewrite app_nil_r in Hf, Hs. cbv beta in Hf, Hs.
  split; [|split].
  - clear Hs. intros E. rewrite E in Hf. cbn [String.eqb Ascii.eqb Bool.eqb] in Hf.
    destruct (reads s) as [|features [|targets [|]]]; try discriminate Hf.
    exists features, targets. split; [reflexivity|].
    destruct (part_of 4 (rev pre) features) as [[|]|] eqn:E1; try discriminate Hf.
    destruct (part_of 4 (rev pre) targets) as [[|[|[|]]]|] eqn:E2; try discriminate Hf.
    auto.
  - clear Hf. intros E. rewrite E in Hs. cbn [String.eqb Ascii.eqb Bool.eqb] in Hs.
    destruct (reads s) as [|features [|targets [|]]]; try discriminate Hs.
    unfold same_part in Hs.
    destruct (part_of 4 (rev pre) features) as [i|] eqn:E1; try discriminate Hs.
    destruct (part_of 4 (rev pre) targets) as [j|] eqn:E2; try discriminate Hs.
    apply Nat.eqb_eq in Hs. subst j. exists features, targets, i. auto.
  - clear Hf. intros Hne Hmem. apply String.eqb_neq in Hne. rewrite Hne, Hmem in Hs.
    destruct (reads s) as [|targets [|predicted [|]]]; try discriminate Hs.
    exists targets, predicted. split; [reflexivity|].
    intros c rest Hb. rewrite Hb in Hs. apply andb_prop in Hs as [Hp Hs].
    apply String.eqb_eq in Hp. split; [exact Hp|].
    destruct (reads c) as [|features [|]]; try discriminate Hs.
    destruct (part_of 4 rest features) as [i|] eqn:E1; try discriminate Hs.
    destruct (part_of 4 (rev pre) targets) as [j|] eqn:E2; try discriminate Hs.
    apply Nat.eqb_eq in Hs. subst j. exists features, i. auto.
Qed.

(** In every notebook, [predict] and [score] are only called on a model
    on which an earlier statement called [fit], and no model is fitted
    twice. *)
Lemma models_are_fitted_once_before_use
    (nb : notebook) (pre post : list stmt) (s : stmt) :
  In nb notebooks ->
  body nb = (pre ++ s :: post)%list ->
  (func s = "predict" \/ func s = "score" ->
   exists f, In f pre /\ func f = "fit" /\ receiver f = receiver s) /\
  (func s = "fit" ->
   forall f, In f pre -> func f = "fit" -> receiver f <> receiver s).
Proof.
  intros Hnb Hbody. destruct (checks_of nb Hnb) as (_ & _ & Huse & Honce & _).
  pose proof (scan_all_spec _ _ _ Huse pre s post Hbody) as Hu.
  pose proof (scan_all_spec _ _ _ Honce pre s post Hbody) as Ho.
  rewrite app_nil_r in Hu, Ho. cbv beta in Hu, Ho. split.
  - intros E.
    assert (Hb : String.eqb (func s) "predict" || String.eqb (func s) "score" = true).
    { destruct E as [-> | ->]; reflexivity. }
    rewrite Hb in Hu. apply existsb_exists in Hu as (f & Hin & Hf).
    apply andb_prop in Hf as [H1 H2].
    apply String.eqb_eq in H1, H2. exists f. split; [|auto].
    now apply in_rev.
  - intros E f Hin Hf Hr. rewrite E in Ho. cbn [String.eqb Ascii.eqb Bool.eqb] in Ho.
    apply negb_true_iff in Ho.
    assert (Hex : existsb (fun f0 => String.eqb (func f0) "fit" &&
                                     String.eqb (receiver f0) (receiver s)) (rev pre) = true).
    { apply existsb_exists. exists f. split; [now apply -> in_rev|].
      rewrite Hf, Hr. rewrite !String.eqb_refl. reflexivity. }
    congruence.
Qed.

Lemma binder_before_split (earlier : list stmt) (v : string) (c : stmt) (rest : list stmt) :
  binder_before earlier v = Some (c, rest) ->
  exists nearer, earlier = (nearer ++ c :: rest)%list.
Proof.
  induction earlier as [|s earlier IH]; intros H; simpl in H; [discriminate|].
  destruct (mem v (binds s)).
  - injection H as <- <-. now exists [].
  - destruct (IH H) as (nearer & ->). now exists (s :: nearer).
Qed.

(** A part of a split comes from a split. *)
Lemma part_of_split (fuel : nat) (earlier : list stmt) (v : string) (i : nat) :
  part_of fuel earlier v = Some i -> exists sp, In sp earlier /\ is_split sp = true.
Proof.
  revert earlier v; induction fuel as [|fuel IH]; intros earlier v H; cbn [part_of] in H;
    [discriminate|].
  destruct (binder_before earlier v) as [[c rest]|] eqn:E; [|discriminate].
  destruct (binder_before_split _ _ _ _ E) as (nearer & ->).
  destruct (String.eqb (func c) "train_test_split") eqn:Ec.
  - exists c. split; [apply in_or_app; right; now left | exact Ec].
  - destruct (mem (func c) ["fit_transform"; "transform"]); [|discriminate H].
    destruct (reads c) as [|v' ?]; [discriminate H|].
    destruct (IH rest v' H) as (sp & Hin & Hsp).
    exists sp. split; [apply in_or_app; right; now right | exact Hsp].
Qed.

(** The order of a notebook, statement by statement. *)
Lemma statements_in_order (nb : notebook) (pre post : list stmt) (s : stmt) :
  In nb notebooks ->
  body nb = (pre ++ s :: post)%list ->
  (is_split s = true ->
   exists features targets,
     reads s = [features; targets] /\
     grounded 12 (rev pre) features = true /\ grounded 12 (rev pre) targets = true /\
     (exists c, In c pre /\ mem features (binds c) = true) /\
     (exists c, In c pre /\ mem targets (binds c) = true)) /\
  (is_generation s = true -> forall t, In t pre -> is_split t = false) /\
  (func s = "fit" ->
   exists features targets,
     reads s = [features; targets] /\
     part_of 4 (rev pre) features = Some 0%nat /\
     part_of 4 (rev pre) targets = Some 2%nat /\
     exists sp, In sp pre /\ is_split sp = true) /\
  (func s = "predict" \/ func s = "score" ->
   exists f, In f pre /\ func f = "fit" /\ receiver f = receiver s) /\
  (func s <> "score" -> mem (func s) scoring_functions = true ->
   exists targets predicted,
     reads s = [targets; predicted] /\
     forall c rest,
       binder_before (rev pre) predicted = Some (c, rest) ->
       func c = "predict" /\
       exists f, In f rest /\ func f = "fit" /\ receiver f = receiver c).
Proof.
  intros Hnb Hbody.
  destruct (splits_take_generated_data nb pre post s Hnb Hbody) as [S1 S2].
  destruct (models_fit_and_score_on_their_parts nb pre post s Hnb Hbody) as (F1 & _ & F3).
  destruct (models_are_fitted_once_before_use nb pre post s Hnb Hbody) as [U1 _].
  split; [exact S1|]. split; [exact S2|]. split; [|split; [exact U1|]].
  - intros E. destruct (F1 E) as (features & targets & Hr & H0 & H2).
    exists features, targets. repeat split; try assumption.
    destruct (part_of_split _ _ _ _ H0) as (sp & Hin & Hsp).
    exists sp. split; [now apply in_rev | exact Hsp].
  - intros Hne Hm. destruct (F3 Hne Hm) as (targets & predicted & Hr & Hall).
    exists targets, predicted. split; [exact Hr|].
    intros c rest Hb. destruct (Hall c rest Hb) as (Hp & _). split; [exact Hp|].
    destruct (binder_before_split _ _ _ _ Hb) as (nearer & Hrev).
    assert (Hpre : pre = (rev rest ++ c :: rev nearer)%list).
    { rewrite <- (rev_involutive pre), Hrev, rev_app_distr. simpl.
      now rewrite <- app_assoc. }
    assert (Hbody' : body nb = (rev rest ++ c :: (rev nearer ++ s :: post))%list).
    { rewrite Hbody, Hpre, <- app_assoc. reflexivity. }
    destruct (models_are_fitted_once_before_use nb _ _ c Hnb Hbody') as [U _].
    destruct (U (or_introl Hp)) as (f & Hf & Hff & Hfr).
    exists f. split; [now apply in_rev | auto].
Qed.

(** In the two PID scripts every [predict] takes the test features. *)
Lemma pid_predictions_take_test_features (nb : notebook) (pre post : list stmt) (s : stmt) :
  In nb [pid_boosting; pid_forest] ->
  body nb = (pre ++ s :: post)%list ->
  func s = "predict" ->
  exists features, reads s = [features] /\ part_of 4 (rev pre) features = Some 1%nat.
Proof.
  intros Hnb Hbody E.
  assert (Hc : predicts_from_test_features nb = true).
  { destruct Hnb as [<-|[<-|[]]]; vm_compute; reflexivity. }
  pose proof (scan_all_spec _ _ _ Hc pre s post Hbody) as H.
  rewrite app_nil_r in H. cbv beta in H. rewrite E in H.
  cbn [String.eqb Ascii.eqb Bool.eqb] in H.
  destruct (reads s) as [|features [|]]; try discriminate H.
  exists features. split; [reflexivity|].
  destruct (part_of 4 (rev pre) features) as [[|[|]]|] eqn:E1; try discriminate H.
  reflexivity.
Qed.

End CheckFacts.

(** ** The parts of a split *)

Section PartitionFacts.
Context {L : sklearn.Library}.

Lemma take_app {A : Type} (a : list A) (i1 i2 : list nat) :
  sklearn.take a (i1 ++ i2) = (sklearn.take a i1 ++ sklearn.take a i2)%list.
Proof. unfold sklearn.take. apply flat_map_app. Qed.

Lemma take_seq_from {A : Type} (front a : list A) :
  sklearn.take (front ++ a) (seq (List.length front) (List.length a)) = a.
Proof.
  revert front; induction a as [|x a IH]; intros front; [reflexivity|].
  cbn [List.length seq]. unfold sklearn.take. cbn [flat_map].
  rewrite nth_error_app2 by lia. rewrite Nat.sub_diag. cbn [nth_error app].
  f_equal. specialize (IH (front ++ [x])%list).
  rewrite <- app_assoc, length_app in IH. cbn [List.length app] in IH.
  rewrite Nat.add_1_r in IH. exact IH.
Qed.

Lemma take_seq {A : Type} (a : list A) : sklearn.take a (seq 0 (List.length a)) = a.
Proof. exact (take_seq_from [] a). Qed.

(** Taking the rows at the positions of a shuffled index shuffles the
    rows. *)
Lemma take_Permutation {A : Type} (a : list A) (idx : list nat) :
  Permutation idx (seq 0 (List.length a)) -> Permutation (sklearn.take a idx) a.
Proof.
  intros H. rewrite <- (take_seq a) at 2. unfold sklearn.take.
  now apply Permutation_flat_map.
Qed.

Lemma take_length {A : Type} (a : list A) (idx : list nat) :
  Forall (fun i => (i < List.length a)%nat) idx ->
  List.length (sklearn.take a idx) = List.length idx.
Proof.
  induction 1 as [|i idx Hi _ IH]; [reflexivity|].
  unfold sklearn.take in *. cbn [flat_map]. rewrite length_app, IH.
  destruct (nth_error a i) eqn:E; [reflexivity|].
  apply nth_error_None in E. lia.
Qed.

Lemma take_combine {A B : Type} (a : list A) (b : list B) (idx : list nat) :
  List.length a = List.length b ->
  combine (sklearn.take a idx) (sklearn.take b idx) = sklearn.take (combine a b) idx.
Proof.
  intros Hab. induction idx as [|i idx IH]; [reflexivity|].
  unfold sklearn.take in *. cbn [flat_map].
  destruct (nth_error a i) as [x|] eqn:Ea; destruct (nth_error b i) as [y|] eqn:Eb.
  - assert (Ec : nth_error (combine a b) i = Some (x, y)).
    { clear IH. revert b i Hab Ea Eb. induction a as [|a0 a IHa]; intros [|b0 b] [|i] Hab Ea Eb;
        simpl in *; try discriminate.
      - now injection Ea as <-; injection Eb as <-.
      - apply IHa; [lia | assumption | assumption]. }
    rewrite Ec. cbn [app combine]. now rewrite IH.
  - apply nth_error_None in Eb. assert (Hi : (i < List.length a)%nat)
      by (apply nth_error_Some; congruence). lia.
  - apply nth_error_None in Ea. assert (Hi : (i < List.length b)%nat)
      by (apply nth_error_Some; congruence). lia.
  - assert (Ec : nth_error (combine a b) i = None).
    { apply nth_error_None. rewrite length_combine. apply nth_error_None in Ea. lia. }
    rewrite Ec. cbn [app]. exact IH.
Qed.

(** A split, under a library that shuffles: every row goes to exactly one
    of the two parts, together with its target, and the test part takes
    the number of rows that [test_size] asks for. *)
Lemma train_test_split_partition {A B : Type} (X : list A) (y : list B)
    (test_size : Q) (random_state : Z) (X_train X_test : list A) (y_train y_test : list B) :
  Contracts.shuffles L ->
  sklearn.train_test_split X y test_size random_state =
    inr (X_train, X_test, y_train, y_test) ->
  let n := List.length X in
  let k := Nat.min (sklearn.n_test test_size n) n in
  List.length X_test = k /\ List.length X_train = (n - k)%nat /\
  List.length y_test = k /\ List.length y_train = (n - k)%nat /\
  Permutation (X_test ++ X_train) X /\
  Permutation (y_test ++ y_train) y /\
  Permutation (combine X_test y_test ++ combine X_train y_train) (combine X y).
Proof.
  intros HL Hs. cbv zeta. unfold sklearn.train_test_split in Hs.
  destruct (Nat.eqb_spec (List.length X) (List.length y)) as [Hlen|]; [|discriminate].
  injection Hs as <- <- <- <-.
  set (n := List.length X) in *.
  set (shuffled := sklearn.permutation random_state n).
  set (k := sklearn.n_test test_size n).
  pose proof (HL random_state n) as Hperm. fold shuffled in Hperm.
  assert (Hshl : List.length shuffled = n).
  { rewrite (Permutation_length Hperm). apply length_seq. }
  assert (Hvalid : Forall (fun i => (i < n)%nat) shuffled).
  { apply Forall_forall. intros i Hi.
    apply (Permutation_in _ Hperm) in Hi. apply in_seq in Hi. lia. }
  assert (Hf : Forall (fun i => (i < n)%nat) (firstn k shuffled)).
  { apply Forall_forall. intros i Hi. rewrite Forall_forall in Hvalid.
    apply Hvalid. rewrite <- (firstn_skipn k shuffled). apply in_or_app. now left. }
  assert (Hsk : Forall (fun i => (i < n)%nat) (skipn k shuffled)).
  { apply Forall_forall. intros i Hi. rewrite Forall_forall in Hvalid.
    apply Hvalid. rewrite <- (firstn_skipn k shuffled). apply in_or_app. now right. }
  assert (Hwhole : forall (C : Type) (c : list C), List.length c = n ->
             Permutation (sklearn.take c (firstn k shuffled) ++
                          sklearn.take c (skipn k shuffled)) c).
  { intros C c Hc. rewrite <- take_app, firstn_skipn.
    apply take_Permutation. now rewrite Hc. }
  repeat split.
  - rewrite take_length by exact Hf. rewrite length_firstn, Hshl. reflexivity.
  - rewrite take_length by exact Hsk. rewrite length_skipn, Hshl. lia.
  - rewrite take_length by (now rewrite <- Hlen). rewrite length_firstn, Hshl. reflexivity.
  - rewrite take_length by (now rewrite <- Hlen). rewrite length_skipn, Hshl. lia.
  - apply Hwhole. reflexivity.
  - apply Hwhole. now rewrite <- Hlen.
  - rewrite !take_combine by exact Hlen. apply Hwhole.
    rewrite length_combine. fold n. lia.
Qed.

End PartitionFacts.

(** ** C8 and C6: the PID notebooks *)

Section PidClaims.
Context {G : np.BitGenerator} {L : sklearn.Library}.

(** C8, amended.  In both PID notebooks, whatever state the generator is
    in when the notebook starts, the table holds the seven simulated
    arrays, and every row [i] of the 1000 rows holds the double-precision
    values of the expressions of the cell: Kp is 2.0 + 0.5 Error +
    0.1 Derivative and Kd is 0.02 + 0.01 Derivative, every product and sum
    rounded to the nearest double, and Integral is the running double sum
    of the Errors.  Error lies in [-2, 2] and Derivative in [-0.5, 0.5].
    Kp lies between the doubles 0.95 and 3.05 and within 1e-15 of the
    exact value of its expression, Kd between the doubles 0.015 and 0.025
    and within 1e-17, and Integral within 2 (i + 1) of zero and within
    i 2^-43 of the exact sum of the Errors of rows 0 to [i]. *)
Theorem pid_rows_rounded_and_bounded
    (nb : np.random (Pid.arrays * py.result Pid.prepared))
    (s0 : np.rng_state) (i : nat) :
  np.unit_sampler G ->
  In nb [Pid.boosting_notebook; Pid.forest_notebook] ->
  (i < Pid.n_samples)%nat ->
  let a := fst (evalState nb s0) in
  let e := nth i (Pid.error a) 0 in
  let d := nth i (Pid.derivative a) 0 in
  let kp := nth i (Pid.Kp a) 0 in
  let kd := nth i (Pid.Kd a) 0 in
  let integral := nth i (Pid.integral a) 0 in
  (exists p, snd (evalState nb s0) = inr p /\ Pid.data p = frame_columns a) /\
  pd.all_length Pid.n_samples (frame_columns a) /\
  kp = float64.add (float64.add 2 (float64.mul 0.5 e)) (float64.mul (np.float 0.1) d) /\
  kd = float64.add (np.float 0.02) (float64.mul (np.float 0.01) d) /\
  nth 0 (Pid.integral a) 0 = nth 0 (Pid.error a) 0 /\
  ((S i < Pid.n_samples)%nat ->
   nth (S i) (Pid.integral a) 0 = float64.add integral (nth (S i) (Pid.error a) 0)) /\
  (-2 <= e /\ e <= 2) /\ (-0.5 <= d /\ d <= 0.5) /\
  (np.float 0.95 <= kp /\ kp <= np.float 3.05) /\
  (np.float 0.015 <= kd /\ kd <= np.float 0.025) /\
  Qabs (kp - (2 + 0.5 * e + 0.1 * d)) <= 1 # 1000000000000000 /\
  Qabs (kd - (0.02 + 0.01 * d)) <= 1 # 100000000000000000 /\
  Qabs integral <= inject_Z (2 * Z.of_nat (S i)) /\
  Qabs (integral - np.sum (firstn (S i) (Pid.error a))) <=
    inject_Z (Z.of_nat i) * float64.pow2 (-43).
Proof.
  intros HG Hnb Hi. cbv zeta.
  destruct (notebook_run nb s0 Hnb) as (W & p & Hp & Hfrom).
  pose proof (notebook_in_range nb s0 HG Hnb) as [Her Hdr].
  set (a := fst (evalState nb s0)) in *.
  pose proof W as [He Hd Hs Hint Hkp Hki Hkd].
  pose proof (Forall_nth_Q _ _ i Her ltac:(lia)) as [He1 He2].
  pose proof (Forall_nth_Q _ _ i Hdr ltac:(lia)) as [Hd1 Hd2].
  cbv beta in He1, He2, Hd1, Hd2.
  assert (Ekp : nth i (Pid.Kp a) 0 =
                float64.add (float64.add 2 (float64.mul 0.5 (nth i (Pid.error a) 0)))
                            (float64.mul (np.float 0.1) (nth i (Pid.derivative a) 0))).
  { rewrite Hkp, nth_vadd, nth_sadd, !nth_smul;
      rewrite ?sadd_length, ?smul_length; try lia. reflexivity. }
  assert (Ekd : nth i (Pid.Kd a) 0 =
                float64.add (np.float 0.02)
                            (float64.mul (np.float 0.01) (nth i (Pid.derivative a) 0))).
  { rewrite Hkd, nth_sadd, nth_smul; rewrite ?smul_length; try lia. reflexivity. }
  destruct (kp_of_row _ _ He1 He2 Hd1 Hd2) as [[Kp1 Kp2] [Kp3 Kp4]].
  destruct (kd_of_row _ Hd1 Hd2) as [[Kd1 Kd2] [Kd3 Kd4]].
  cbv zeta in Kp1, Kp2, Kp3, Kp4, Kd1, Kd2, Kd3, Kd4.
  rewrite <- Ekp in Kp1, Kp2, Kp3, Kp4. rewrite <- Ekd in Kd1, Kd2, Kd3, Kd4.
  assert (Hsum : Qabs (nth i (Pid.integral a) 0) <= inject_Z (2 * Z.of_nat (S i)) /\
                 Qabs (nth i (Pid.integral a) 0 - np.sum (firstn (S i) (Pid.error a))) <=
                 inject_Z (Z.of_nat i) * float64.pow2 (-43)).
  { rewrite Hint. destruct (Pid.error a) as [|e0 rest] eqn:Eerr; [simpl in He; lia|].
    pose proof (Forall_inv Her) as [H01 H02]. pose proof (Forall_inv_tail Her) as Hrest.
    simpl in He. unfold Pid.n_samples in *.
    destruct i as [|j].
    - cbn [np.cumsum nth firstn np.sum]. split.
      + apply Qabs_Qle_condition. change (inject_Z (2 * Z.of_nat 1)) with 2. lra.
      + apply Qabs_Qle_condition. change (inject_Z (Z.of_nat 0)) with 0. split; lra.
    - change (nth (S j) (np.cumsum (e0 :: rest)) 0)
        with (nth j (np.cumsum_from e0 rest) 0).
      change (firstn (S (S j)) (e0 :: rest)) with (e0 :: firstn (S j) rest).
      cbn [np.sum].
      destruct (cumsum_from_near rest e0 2 Hrest ltac:(lia) ltac:(lia)
                  ltac:(change (inject_Z 2) with 2; lra)
                  ltac:(change (inject_Z 2) with 2; lra) j ltac:(lia))
        as [[B1 B2] [E1 E2]].
      split.
      + apply Qabs_Qle_condition.
        replace (2 * Z.of_nat (S (S j)))%Z with (2 + 2 * Z.of_nat (S j))%Z by lia.
        split; assumption.
      + apply Qabs_Qle_condition. split; lra. }
  destruct Hsum as [Hsum1 Hsum2].
  repeat split; try assumption.
  - exists p. split; [exact Hp | apply (pf_data _ _ Hfrom)].
  - now apply frame_columns_length.
  - rewrite Hint. apply nth_cumsum_0.
  - intros Hi'. rewrite Hint. apply nth_cumsum_S. lia.
  - apply Qabs_Qle_condition. split; assumption.
  - apply Qabs_Qle_condition. split; assumption.
Qed.

(** C6.  In both PID notebooks the feature table [X] is exactly the four
    columns Error, Derivative, Integral, Setpoint of the simulated arrays
    and holds none of Kp, Ki, Kd, which make up the target table; the
    array that is split is the scaled [X], every row of the training and
    the test features is one of its rows and has four entries; and in both
    scripts every call of fit and of predict takes as its features a part
    returned by that split of the scaled [X].

    Which part: the first of the four that the split returns, with the
    third as targets, for every fit, and the second for every predict;
    these are the two parts of the first argument of the split, the scaled
    [X], as the model has them.  Under a library that shuffles, the 1000
    scaled rows go 800 to the training and 200 to the test features, every
    row to exactly one of them, next to its own targets. *)
Theorem pid_features_exclude_gains
    (nb : np.random (Pid.arrays * py.result Pid.prepared)) (s0 : np.rng_state) :
  In nb [Pid.boosting_notebook; Pid.forest_notebook] ->
  let a := fst (evalState nb s0) in
  (exists p,
     snd (evalState nb s0) = inr p /\
     Pid.X p = feature_columns a /\
     pd.columns (Pid.X p) = ["Error"; "Derivative"; "Integral"; "Setpoint"] /\
     (forall gain, In gain ["Kp"; "Ki"; "Kd"] -> ~ In gain (pd.columns (Pid.X p))) /\
     Pid.y p = target_columns a /\
     pd.columns (Pid.y p) = ["Kp"; "Ki"; "Kd"] /\
     Pid.X_scaled p = sklearn.fit_transform (pd.values 0 (Pid.X p)) /\
     (forall row, In row (Pid.X_train p) \/ In row (Pid.X_test p) ->
        In row (Pid.X_scaled p) /\ List.length row = 4%nat) /\
     sklearn.train_test_split (Pid.X_scaled p) (pd.values 0 (Pid.y p)) 0.2 42 =
       inr (Pid.X_train p, Pid.X_test p, Pid.y_train p, Pid.y_test p) /\
     List.length (Pid.X_scaled p) = 1000%nat /\
     (Contracts.shuffles L ->
      List.length (Pid.X_train p) = 800%nat /\ List.length (Pid.X_test p) = 200%nat /\
      List.length (Pid.y_train p) = 800%nat /\ List.length (Pid.y_test p) = 200%nat /\
      Permutation (Pid.X_test p ++ Pid.X_train p) (Pid.X_scaled p) /\
      Permutation (combine (Pid.X_test p) (Pid.y_test p) ++
                   combine (Pid.X_train p) (Pid.y_train p))
                  (combine (Pid.X_scaled p) (pd.values 0 (Pid.y p))))) /\
  Script.model_calls_fed_by [111; 108; 104; 71; 60; 59]%nat Script.pid_boosting = true /\
  Script.model_calls_fed_by [127; 124; 119; 85; 74; 73]%nat Script.pid_forest = true /\
  (forall script pre s post,
     In script [Script.pid_boosting; Script.pid_forest] ->
     Script.body script = (pre ++ s :: post)%list ->
     (Script.func s = "fit" ->
      exists features targets,
        Script.reads s = [features; targets] /\
        Checks.part_of 4 (rev pre) features = Some 0%nat /\
        Checks.part_of 4 (rev pre) targets = Some 2%nat) /\
     (Script.func s = "predict" ->
      exists features,
        Script.reads s = [features] /\
        Checks.part_of 4 (rev pre) features = Some 1%nat)).
Proof.
  intros Hnb. cbv zeta.
  destruct (notebook_run nb s0 Hnb) as (W & p & Hp & Hfrom).
  destruct Hfrom as [Hdata HX Hy Hsc (train & test & Htr & Hte & _ & _) Hparts].
  set (a := fst (evalState nb s0)) in *.
  assert (Hrows : List.length (Pid.X_scaled p) = 1000%nat).
  { rewrite Hsc, HX, fit_transform_length, values_length.
    destruct W as [He _ _ _ _ _ _]. exact He. }
  split; [|split; [reflexivity|split; [reflexivity|]]].
  - exists p. rewrite HX, Hy.
    split; [exact Hp|]. split; [reflexivity|]. split; [reflexivity|].
    split.
    { intros gain Hg. unfold feature_columns, pd.columns; simpl.
      simpl in Hg. intuition (subst; discriminate). }
    split; [reflexivity|]. split; [reflexivity|].
    split; [now rewrite Hsc, HX|].
    split.
    { intros row H.
      assert (Hin : In row (Pid.X_scaled p))
        by (destruct H as [H|H]; [rewrite Htr in H | rewrite Hte in H]; eapply take_In, H).
      split; [exact Hin|].
      rewrite Hsc, HX in Hin.
      apply (fit_transform_row_length (pd.values 0 (feature_columns a))); [|exact Hin].
      intros r Hr. apply values_row_length in Hr. exact Hr. }
    split; [now rewrite <- Hy|]. split; [exact Hrows|].
    intros HL.
    destruct (train_test_split_partition _ _ _ _ _ _ _ _ HL Hparts)
      as (H1 & H2 & H3 & H4 & H5 & _ & H7).
    cbv zeta in H1, H2, H3, H4. rewrite Hrows in H1, H2, H3, H4.
    change (Nat.min (sklearn.n_test 0.2 1000) 1000) with 200%nat in H1, H2, H3, H4.
    rewrite <- Hy. repeat split; assumption.
  - intros script pre s post Hscript Hbody. split.
    + intros E.
      assert (Hin : In script Script.notebooks).
      { destruct Hscript as [<-|[<-|[]]]; unfold Script.notebooks; simpl; tauto. }
      exact (proj1 (models_fit_and_score_on_their_parts script pre post s Hin Hbody) E).
    + intros E. exact (pid_predictions_take_test_features script pre post s Hscript Hbody E).
Qed.

End PidClaims.

(** Row 0 of the boosting notebook on the demonstration generator. *)
Lemma pid_rows_rounded_and_bounded_witness :
  In (@Pid.boosting_notebook Demo.generator Demo.library)
     [@Pid.boosting_notebook Demo.generator Demo.library;
      @Pid.forest_notebook Demo.generator Demo.library] /\
  np.unit_sampler Demo.generator /\
  (0 < Pid.n_samples)%nat /\
  np.float 0.95 <= nth 0 (Pid.Kp (fst (evalState
            (@Pid.boosting_notebook Demo.generator Demo.library) 0%Z))) 0.
Proof.
  assert (H1 : In (@Pid.boosting_notebook Demo.generator Demo.library)
                  [@Pid.boosting_notebook Demo.generator Demo.library;
      @Pid.forest_notebook Demo.generator Demo.library]) by (left; reflexivity).
  assert (H2 : (0 < Pid.n_samples)%nat) by (unfold Pid.n_samples; lia).
  split; [exact H1 | split; [exact demo_unit_sampler | split; [exact H2|]]].
  exact (proj1 (proj1 (proj2 (proj2 (proj2 (proj2 (proj2 (proj2 (proj2 (proj2
    (pid_rows_rounded_and_bounded (G := Demo.generator) (L := Demo.library)
       Pid.boosting_notebook 0%Z 0%nat demo_unit_sampler H1 H2))))))))))).
Defined.

(** C8, counterexample.  On a generator whose [random_sample] returns 0.0,
    row 0 of the boosting notebook has Error -2 and Derivative -0.5; the
    stored Kp is the double nearest to 0.95, which is not the exact value
    0.95 of 2 + 0.5 Error + 0.1 Derivative and lies below the interval
    [0.95, 3.05], and the stored Kd is the double nearest to 0.015, which
    is not the exact value of 0.02 + 0.01 Derivative and lies below
    [0.015, 0.025]. *)
Lemma pid_gains_are_rounded_below_the_interval :
  np.unit_sampler Lowest.generator /\
  let a := fst (evalState (@Pid.boosting_notebook Lowest.generator Demo.library) tt) in
  let e := nth 0 (Pid.error a) 0 in
  let d := nth 0 (Pid.derivative a) 0 in
  let kp := nth 0 (Pid.Kp a) 0 in
  let kd := nth 0 (Pid.Kd a) 0 in
  e == -2 /\ d == -0.5 /\
  kp = np.float 0.95 /\ kd = np.float 0.015 /\
  ~ kp == 2 + 0.5 * e + 0.1 * d /\
  ~ kd == 0.02 + 0.01 * d /\
  ~ (0.95 <= kp /\ kp <= 3.05) /\
  ~ (0.015 <= kd /\ kd <= 0.025).
Proof.
  split.
  - intros s. split; vm_compute; [discriminate | reflexivity].
  - cbv zeta.
    rewrite (notebook_arrays (G := Lowest.generator) (L := Demo.library)
               Pid.boosting_notebook tt (or_introl eq_refl)).
    assert (E : nth 0 (Pid.error (evalState (@Pid.simulate Lowest.generator Pid.n_samples) tt)) 0
                = -2) by (vm_compute; reflexivity).
    assert (D : nth 0 (Pid.derivative
                         (evalState (@Pid.simulate Lowest.generator Pid.n_samples) tt)) 0
                == -0.5) by (vm_compute; reflexivity).
    assert (P : nth 0 (Pid.Kp (evalState (@Pid.simulate Lowest.generator Pid.n_samples) tt)) 0
                = np.float 0.95) by (vm_compute; reflexivity).
    assert (K : nth 0 (Pid.Kd (evalState (@Pid.simulate Lowest.generator Pid.n_samples) tt)) 0
                = np.float 0.015) by (vm_compute; reflexivity).
    rewrite E, P, K.
    split; [reflexivity|]. split; [exact D|].
    split; [reflexivity|]. split; [reflexivity|].
    split; [intros H; rewrite D in H; vm_compute in H; discriminate H|].
    split; [intros H; rewrite D in H; vm_compute in H; discriminate H|].
    split; intros [H _]; vm_compute in H; apply H; reflexivity.
Qed.

Lemma demo_shuffles : Contracts.shuffles Demo.library.
Proof. intros random_state n. apply Permutation_refl. Qed.

(** The forest notebook on the demonstration generator and library. *)
Lemma pid_features_exclude_gains_witness :
  In (@Pid.forest_notebook Demo.generator Demo.library)
     [@Pid.boosting_notebook Demo.generator Demo.library;
      @Pid.forest_notebook Demo.generator Demo.library] /\
  Contracts.shuffles Demo.library /\
  (exists p,
     snd (evalState (@Pid.forest_notebook Demo.generator Demo.library) 0%Z) = inr p /\
     pd.columns (Pid.X p) = ["Error"; "Derivative"; "Integral"; "Setpoint"] /\
     List.length (Pid.X_train p) = 800%nat /\ List.length (Pid.X_test p) = 200%nat) /\
  Script.model_calls_fed_by [127; 124; 119; 85; 74; 73]%nat Script.pid_forest = true.
Proof.
  assert (H1 : In (@Pid.forest_notebook Demo.generator Demo.library)
                  [@Pid.boosting_notebook Demo.generator Demo.library;
      @Pid.forest_notebook Demo.generator Demo.library]) by (right; left; reflexivity).
  split; [exact H1|]. split; [exact demo_shuffles|].
  destruct (pid_features_exclude_gains (G := Demo.generator) (L := Demo.library)
              Pid.forest_notebook 0%Z H1)
    as [(p & Hp & _ & Hcols & _ & _ & _ & _ & _ & _ & _ & Hsh) [_ [Hchain _]]].
  split; [|exact Hchain].
  exists p. split; [exact Hp|]. split; [exact Hcols|].
  destruct (Hsh demo_shuffles) as (Htr & Hte & _). split; assumption.
Defined.

(** ** C3: the tables up to the split *)

Lemma consistentb_sound (sn : Rows.snapshot) :
  Rows.consistentb sn = true -> Rows.consistent sn.
Proof.
  unfold Rows.consistentb, Rows.consistent.
  destruct sn as [fs ts]; simpl.
  destruct (fs ++ ts)%list as [|n rest] eqn:E.
  - intros _. apply app_eq_nil in E as [-> ->]. exists O. split; constructor.
  - intros H. exists n. rewrite forallb_forall in H.
    assert (Hall : Forall (eq n) (fs ++ ts)%list).
    { rewrite E. constructor; [reflexivity|]. apply Forall_forall.
      intros m Hm. symmetry. apply Nat.eqb_eq. rewrite Nat.eqb_sym. now apply H. }
    apply Forall_app in Hall. exact Hall.
Qed.

Lemma evalState_bind_ret {G : np.BitGenerator} {A B : Type}
    (c : np.random A) (f : A -> B) (s : np.rng_state) :
  evalState (a <- c ;; ret (f a)) s = f (evalState c s).
Proof. unfold evalState. simpl. destruct (runState c s). reflexivity. Qed.

(** Names the arrays a generation cell draws, with their lengths. *)
Ltac name_draws :=
  repeat match goal with
  | |- context [runState (np.randint ?l ?h ?n) ?s] =>
      let H := fresh "Hlen" in
      pose proof (randint_length l h n s) as H;
      destruct (runState (np.randint l h n) s) as [? ?]; cbn [fst snd] in H
  | |- context [runState (np.uniform ?l ?h ?n) ?s] =>
      let H := fresh "Hlen" in
      pose proof (uniform_length l h n s) as H;
      destruct (runState (np.uniform l h n) s) as [? ?]; cbn [fst snd] in H
  | |- context [runState (np.normal ?l ?h ?n) ?s] =>
      let H := fresh "Hlen" in
      pose proof (normal_length l h n s) as H;
      destruct (runState (np.normal l h n) s) as [? ?]; cbn [fst snd] in H
  | |- context [runState (np.choice2 ?a ?b ?p ?n) ?s] =>
      let H := fresh "Hlen" in
      pose proof (choice2_length a b p n s) as H;
      destruct (runState (np.choice2 a b p n) s) as [? ?]; cbn [fst snd] in H
  end.

(** The split of arrays with equally many rows goes through. *)
Ltac split_goes_through :=
  match goal with
  | |- context [sklearn.train_test_split ?X ?y ?t ?r] =>
      let H := fresh "Hsplit" in
      let parts := fresh "parts" in
      destruct (train_test_split_ok X y t r) as [parts H];
      [ | rewrite H ]
  end.

Ltac frame_is_built n :=
  match goal with
  | |- context [pd.DataFrame_of ?d] =>
      let H := fresh "Hframe" in
      assert (H : pd.all_length n d);
      [ unfold pd.all_length; repeat constructor; cbn [snd];
        rewrite ?length_map; try assumption
      | rewrite (DataFrame_of_ok n d H) ]
  end.

Section TableFacts.
Context {G : np.BitGenerator} {L : sklearn.Library}.

Lemma pid_tables_ok (nb : np.random (Pid.arrays * py.result Pid.prepared)) (s0 : np.rng_state) :
  In nb [Pid.boosting_notebook; Pid.forest_notebook] ->
  tables_ok (evalState (Tables.pid nb) s0).
Proof.
  intros Hnb. unfold Tables.pid.
  rewrite (evalState_bind_ret nb (fun r => p <- snd r ;; ret (Tables.of_prepared p))).
  destruct (notebook_run nb s0 Hnb) as (W & p & Hp & Hfrom). rewrite Hp.
  exists (Tables.of_prepared p). split; [reflexivity|]. split; [discriminate|].
  destruct Hfrom as [Hdata HX Hy Hsc _].
  pose proof (frame_columns_length _ _ W) as Hall.
  unfold Tables.of_prepared. repeat constructor.
  - rewrite Hdata. now apply (of_frame_consistent Pid.n_samples).
  - apply of_arrays_consistent. rewrite HX, Hy.
    rewrite <- (fit_transform_length (pd.values 0 (feature_columns _))).
    apply (features_targets_rows _ _ W).
  - apply of_arrays_consistent. rewrite Hsc, HX, Hy.
    apply (features_targets_rows _ _ W).
Qed.

Lemma spam_tables_ok : tables_ok Spam.tables.
Proof.
  eexists. split; [reflexivity|]. split; [discriminate|].
  repeat constructor; apply consistentb_sound; reflexivity.
Qed.

Lemma loan_tables_ok (s0 : np.rng_state) : tables_ok (evalState Loan.tables s0).
Proof.
  unfold Loan.tables. rewrite evalState_bind_ret.
  generalize Loan.n_samples as n. intros n.
  unfold Loan.generate, evalState. simpl runState. name_draws.
  unfold Loan.tables_of. cbn [fst Loan.income Loan.age Loan.credit_score Loan.loan_default].
  frame_is_built n.
  cbn -[sklearn.train_test_split pd.values Rows.of_frame Rows.of_arrays].
  split_goes_through.
  { rewrite values_length. simpl. congruence. }
  eexists. split; [reflexivity|]. split; [discriminate|].
  repeat constructor.
  - now apply (of_frame_consistent n).
  - apply of_arrays_consistent. rewrite values_length. simpl. congruence.
Qed.

End TableFacts.

(** Row counts of the array and frame operations, as rewrite rules. *)

Lemma interpolate_from_length last a :
  List.length (pd.interpolate_from last a) = List.length a.
Proof.
  revert last; induction a as [|[v|] a IH]; intros last; simpl.
  - reflexivity.
  - now rewrite IH.
  - destruct last as [l|]; [destruct (pd.next_valid a) as [[k v]|]|];
      simpl; now rewrite IH.
Qed.

Lemma interpolate_length a : List.length (pd.interpolate a) = List.length a.
Proof. apply interpolate_from_length. Qed.

Lemma rolling_mean_length window a :
  List.length (pd.rolling_mean window a) = List.length a.
Proof. unfold pd.rolling_mean. now rewrite length_map, length_seq. Qed.

Lemma date_range_length start periods :
  List.length (pd.date_range start periods) = periods.
Proof. unfold pd.date_range. now rewrite length_map, length_seq. Qed.

Lemma to_floats_length a : List.length (pd.to_floats a) = List.length a.
Proof. apply length_map. Qed.

Lemma column_length j X : List.length (sklearn.column j X) = List.length X.
Proof. apply length_map. Qed.

Lemma reshape_column_length {A : Type} (a : list A) :
  List.length (House.reshape_column a) = List.length a.
Proof. apply length_map. Qed.

Lemma flatten_reshape_column {A : Type} (a : list A) :
  House.flatten (House.reshape_column a) = a.
Proof.
  unfold House.flatten, House.reshape_column.
  induction a as [|x a IH]; simpl; [reflexivity | now rewrite IH].
Qed.

Lemma where_length {A B : Type} (cond : A -> bool) (x y : B) (a : list A) :
  List.length (np.where_ cond x y a) = List.length a.
Proof. apply length_map. Qed.

Create Rewrite HintDb rows.

#[local] Hint Rewrite @length_map @length_seq sadd_length smul_length adds_length
  cumsum_length interpolate_length rolling_mean_length date_range_length
  to_floats_length column_length @values_length @reshape_column_length
  @flatten_reshape_column @where_length @fit_transform_length
  @polynomial_features_length : rows.

Ltac rows :=
  repeat progress (autorewrite with rows; cbn [pd.len snd fst]);
  try assumption; try congruence; try reflexivity.

Ltac frame_of n d :=
  let H := fresh "Hframe" in
  assert (H : pd.all_length n d);
  [ unfold pd.all_length; repeat constructor; cbn [snd]; rows
  | rewrite (DataFrame_of_ok n d H) ].

Ltac column_is_set n :=
  match goal with
  | |- context [pd.setitem ?df ?k ?c] =>
      let Heq := fresh "Hset" in
      let Hal := fresh "Hall" in
      destruct (setitem_all_length n df k c) as [Heq Hal];
      [ unfold pd.all_length; repeat constructor; cbn [snd]; rows
      | rows
      | rewrite Heq; clear Heq ]
  end.

Section MoreTableFacts.
Context {G : np.BitGenerator} {L : sklearn.Library}.

Lemma wearable_tables_ok (s0 : np.rng_state) : tables_ok (evalState Wearable.tables s0).
Proof.
  unfold Wearable.tables. rewrite evalState_bind_ret.
  generalize Wearable.n_samples as n. intros n.
  unfold Wearable.generate, evalState. simpl runState. name_draws.
  unfold Wearable.tables_of.
  cbn [fst Wearable.heart_rate Wearable.steps Wearable.temperature
       Wearable.activity_level Wearable.sleep_duration Wearable.label].
  frame_of 10%nat Wearable.sample_data.
  unfold Wearable.sample_data in *.
  match goal with |- context [pd.DataFrame_of ?d] => frame_of n d end.
  cbn -[sklearn.train_test_split pd.values sklearn.fit_transform Rows.of_frame Rows.of_arrays].
  split_goes_through.
  { rows. }
  eexists. split; [reflexivity|]. split; [discriminate|].
  repeat constructor.
  - now apply (of_frame_consistent 10%nat).
  - apply consistentb_sound. reflexivity.
  - now apply (of_frame_consistent n).
  - apply of_arrays_consistent. rows.
  - apply of_arrays_consistent. rows.
Qed.

Lemma house_tables_ok (s0 : np.rng_state) : tables_ok (evalState House.tables s0).
Proof.
  unfold House.tables. rewrite evalState_bind_ret.
  generalize 1000%nat as n. intros n.
  unfold House.generate, evalState. simpl runState. name_draws.
  unfold House.tables_of. cbn [fst].
  assert (Hy : List.length (House.reshape_column l) =
               List.length (np.vadd (np.adds (np.smul 100 (House.flatten (House.reshape_column l))) 50000) l0)).
  { rewrite vadd_length; rows. }
  split_goes_through; [exact Hy|].
  eexists. split; [reflexivity|]. split; [discriminate|].
  repeat constructor.
  - apply consistentb_sound. reflexivity.
  - now apply of_arrays_consistent.
Qed.

Lemma heavy_and_sweet_length (f1 f2 : list Z) :
  List.length f1 = List.length f2 ->
  List.length (Fruit.heavy_and_sweet f1 f2) = List.length f1.
Proof.
  revert f2; induction f1 as [|w f1 IH]; intros [|s f2] H; simpl in *;
    try discriminate; try reflexivity.
  f_equal. apply IH. lia.
Qed.

Lemma fruit_tables_ok (s0 : np.rng_state) : tables_ok (evalState Fruit.tables s0).
Proof.
  unfold Fruit.tables. rewrite evalState_bind_ret.
  generalize 100%nat as n. intros n.
  unfold Fruit.generate, evalState. simpl runState. name_draws.
  unfold Fruit.tables_of. cbn [fst].
  assert (Hl : List.length (Fruit.heavy_and_sweet l l0) = n).
  { rewrite heavy_and_sweet_length; congruence. }
  match goal with |- context [pd.DataFrame_of ?d] => frame_of n d end.
  cbn -[sklearn.train_test_split pd.values Rows.of_frame Rows.of_arrays np.where_].
  split_goes_through.
  { rows. }
  eexists. split; [reflexivity|]. split; [discriminate|].
  repeat constructor.
  - now apply (of_frame_consistent n).
  - apply of_arrays_consistent. rows.
Qed.

Lemma emails_tables_ok : tables_ok Emails.tables.
Proof.
  unfold Emails.tables. cbv zeta.
  split_goes_through.
  { unfold sklearn.count_vectorizer. now rewrite length_map. }
  eexists. split; [reflexivity|]. split; [discriminate|].
  repeat constructor.
  - apply consistentb_sound. reflexivity.
  - apply of_arrays_consistent. unfold sklearn.count_vectorizer. now rewrite length_map.
Qed.

Lemma iris_tables_ok : sklearn.documented_shapes L -> tables_ok Iris.tables.
Proof.
  intros (_ & HX & Hy). unfold Iris.tables. cbv zeta.
  split_goes_through; [congruence|].
  eexists. split; [reflexivity|]. split; [discriminate|].
  repeat constructor. apply of_arrays_consistent. congruence.
Qed.

End MoreTableFacts.

Section StockFaultFacts.
Context {G : np.BitGenerator} {L : sklearn.Library}.

Lemma stock_tables_of_ok (n : nat) (a : Stock.arrays) :
  List.length (Stock.stock_prices a) = n -> tables_ok (Stock.tables_of n a).
Proof.
  intros Hp. unfold Stock.tables_of. cbv zeta.
  match goal with |- context [pd.DataFrame_of ?d] => frame_of n d end.
  cbn -[pd.setitem pd.interpolate pd.rolling_mean sklearn.train_test_split pd.values
        sklearn.fit_transform sklearn.polynomial_features Rows.of_frame Rows.of_arrays
        pd.date_range pd.min pd.to_floats sklearn.column].
  column_is_set n.
  cbn -[pd.setitem pd.interpolate pd.rolling_mean sklearn.train_test_split pd.values
        sklearn.fit_transform sklearn.polynomial_features Rows.of_frame Rows.of_arrays
        pd.date_range pd.min pd.to_floats sklearn.column].
  column_is_set n.
  cbn -[pd.setitem pd.interpolate pd.rolling_mean sklearn.train_test_split pd.values
        sklearn.fit_transform sklearn.polynomial_features Rows.of_frame Rows.of_arrays
        pd.date_range pd.min pd.to_floats sklearn.column].
  column_is_set n.
  cbn -[pd.setitem pd.interpolate pd.rolling_mean sklearn.train_test_split pd.values
        sklearn.fit_transform sklearn.polynomial_features Rows.of_frame Rows.of_arrays
        pd.date_range pd.min pd.to_floats sklearn.column].
  column_is_set n.
  cbn -[pd.setitem pd.interpolate pd.rolling_mean sklearn.train_test_split pd.values
        sklearn.fit_transform sklearn.polynomial_features Rows.of_frame Rows.of_arrays
        pd.date_range pd.min pd.to_floats sklearn.column].
  column_is_set n.
  cbn -[pd.setitem pd.interpolate pd.rolling_mean sklearn.train_test_split pd.values
        sklearn.fit_transform sklearn.polynomial_features Rows.of_frame Rows.of_arrays
        pd.date_range pd.min pd.to_floats sklearn.column].
  split_goes_through.
  { rows. }
  eexists. split; [reflexivity|]. split; [discriminate|].
  repeat constructor; try (apply (of_frame_consistent n); assumption).
  - apply of_arrays_consistent. rows.
  - apply of_arrays_consistent. rows.
Qed.

Lemma stock_tables_ok (s0 : np.rng_state) : tables_ok (evalState Stock.tables s0).
Proof.
  unfold Stock.tables. rewrite evalState_bind_ret.
  generalize Stock.n_days as n. intros n.
  apply stock_tables_of_ok.
  unfold Stock.generate, evalState. simpl runState. name_draws.
  cbn [fst Stock.stock_prices]. rows.
Qed.

Lemma feature_names_length (X : list (list Q)) :
  List.length (Fault.feature_names X) = sklearn.n_features X.
Proof. unfold Fault.feature_names. now rewrite length_map, length_seq. Qed.

Lemma DataFrame_of_rows_ok (X : list (list Q)) (names : list string) :
  List.length names = sklearn.n_features X ->
  exists df, pd.DataFrame_of_rows 0 X names = inr df /\
             pd.all_length (List.length X) df.
Proof.
  intros H. unfold pd.DataFrame_of_rows.
  change (match X with [] => O | row :: _ => List.length row end)
    with (sklearn.n_features X).
  rewrite H, Nat.eqb_refl. eexists. split; [reflexivity|].
  unfold pd.all_length. apply Forall_forall. intros kc Hin.
  apply in_map_iff in Hin. destruct Hin as (jn & <- & _). simpl. apply length_map.
Qed.

Lemma fault_tables_ok : sklearn.documented_shapes L -> tables_ok Fault.tables.
Proof.
  intros (Hshape & _). unfold Fault.tables, Fault.generate, Fault.tables_of.
  destruct (Hshape 1000%nat 20%nat 42%Z) as [HX Hy].
  destruct (sklearn.make_classification 1000 20 42) as [X y]. cbn [fst snd] in *.
  destruct (DataFrame_of_rows_ok X (Fault.feature_names X) (feature_names_length X))
    as (df & Hdf & Hall).
  rewrite Hdf.
  destruct (setitem_all_length (List.length X) df "Target" (map inject_Z y) Hall)
    as [Hset Hall1].
  { rewrite length_map. congruence. }
  cbn -[sklearn.train_test_split pd.setitem Rows.of_frame Rows.of_arrays].
  rewrite Hset.
  cbn -[sklearn.train_test_split pd.setitem Rows.of_frame Rows.of_arrays].
  split_goes_through; [congruence|].
  eexists. split; [reflexivity|]. split; [discriminate|].
  repeat constructor.
  - apply of_arrays_consistent. congruence.
  - now apply (of_frame_consistent (List.length X)).
Qed.

End StockFaultFacts.

Section TableClaim.
Context {G : np.BitGenerator} {L : sklearn.Library}.

(** C3.  In every notebook, whatever state the generator starts in, the
    cells up to the train/test split run without raising, and at every
    point where the notebook holds a table (the frame as constructed, the
    frame after every column it gains or that is overwritten, the selected
    features with the targets, the scaled or expanded features with the
    targets, the arrays handed to [train_test_split]) every target column
    has the same number of rows as every feature column.  The two data
    sets that come ready-made from the library have the row counts the
    library documents. *)
Theorem tables_consistent_until_split
    (nb : Script.notebook) (tables : np.random (py.result (list Rows.snapshot)))
    (s0 : np.rng_state) :
  sklearn.documented_shapes L ->
  In (nb, tables) Tables.all ->
  exists sns,
    evalState tables s0 = inr sns /\ sns <> [] /\ Forall Rows.consistent sns.
Proof.
  intros HL H. change (tables_ok (evalState tables s0)).
  unfold Tables.all in H. simpl In in H.
  repeat (destruct H as [H|H]; [injection H as <- <- | ]); try contradiction.
  - apply pid_tables_ok. left. reflexivity.
  - apply pid_tables_ok. right. left. reflexivity.
  - apply spam_tables_ok.
  - apply stock_tables_ok.
  - apply house_tables_ok.
  - apply loan_tables_ok.
  - apply emails_tables_ok.
  - now apply iris_tables_ok.
  - apply fruit_tables_ok.
  - apply spam_tables_ok.
  - apply wearable_tables_ok.
  - now apply fault_tables_ok.
Qed.

End TableClaim.

(** The stock-price notebook on the demonstration generator and library. *)
Lemma tables_consistent_until_split_witness :
  In (Script.stock_prices, @Stock.tables Demo.generator Demo.library)
     (@Tables.all Demo.generator Demo.library) /\
  sklearn.documented_shapes Demo.library /\
  exists sns,
    evalState (@Stock.tables Demo.generator Demo.library) 7%Z = inr sns /\
    sns <> [] /\ Forall Rows.consistent sns.
Proof.
  assert (H : In (Script.stock_prices, @Stock.tables Demo.generator Demo.library)
                 (@Tables.all Demo.generator Demo.library)).
  { unfold Tables.all. do 3 right. left. reflexivity. }
  split; [exact H | split; [exact demo_documented_shapes|]].
  exact (tables_consistent_until_split (G := Demo.generator) (L := Demo.library)
           Script.stock_prices Stock.tables 7%Z demo_documented_shapes H).
Defined.

(** ** C10: seeds and repeatability *)

Section SeedFacts.
Context {G : np.BitGenerator} {L : sklearn.Library}.

(** A cell that begins with [np.random.seed] forgets the state it is
    started in. *)
Lemma seeded_run {A : Type} (k : Z) (c : np.random A) (s1 s2 : np.rng_state) :
  evalState (np.seed k ;; c) s1 = evalState (np.seed k ;; c) s2.
Proof. reflexivity. Qed.

Lemma simulate_repeatable n s1 s2 :
  evalState (Pid.simulate n) s1 = evalState (Pid.simulate n) s2.
Proof. apply seeded_run. Qed.

Lemma pid_notebook_repeatable
    (nb : np.random (Pid.arrays * py.result Pid.prepared)) s1 s2 :
  In nb [Pid.boosting_notebook; Pid.forest_notebook] ->
  evalState nb s1 = evalState nb s2.
Proof.
  intros [<-|[<-|[]]].
  - unfold Pid.boosting_notebook.
    rewrite !(evalState_bind_ret (Pid.simulate Pid.n_samples)
               (fun a => (a, data <- Pid.frame a ;; Pid.prepare_boosting data))).
    now rewrite (simulate_repeatable _ s1 s2).
  - unfold Pid.forest_notebook.
    rewrite !(evalState_bind_ret (Pid.simulate Pid.n_samples)
               (fun a => (a, data <- Pid.frame a ;; Pid.prepare_forest data))).
    now rewrite (simulate_repeatable _ s1 s2).
Qed.

Lemma normal_head loc scale n s :
  hd 0 (fst (runState (np.normal loc scale (S n)) s)) =
  loc + scale * fst (np.standard_normal s).
Proof.
  unfold np.normal. rewrite draws_head. simpl.
  destruct (np.standard_normal s). reflexivity.
Qed.

Lemma stock_daily_returns initial_price volatility n s :
  Stock.daily_returns (evalState (Stock.generate initial_price volatility n) s) =
  fst (runState (np.normal 0 volatility n) s).
Proof.
  unfold Stock.generate, evalState. simpl runState.
  destruct (runState (np.normal 0 volatility n) s). reflexivity.
Qed.

(** Two runs of the stock cell that start with different first normal
    draws simulate different returns. *)
Lemma stock_runs_differ initial_price volatility n s1 s2 :
  ~ volatility == 0 ->
  ~ fst (np.standard_normal s1) == fst (np.standard_normal s2) ->
  evalState (Stock.generate initial_price volatility (S n)) s1 <>
  evalState (Stock.generate initial_price volatility (S n)) s2.
Proof.
  intros Hv Hz Heq.
  assert (Hr : forall s,
             hd 0 (Stock.daily_returns
                     (evalState (Stock.generate initial_price volatility (S n)) s)) =
             0 + volatility * fst (np.standard_normal s)).
  { intros s. rewrite stock_daily_returns. apply normal_head. }
  pose proof (Hr s1) as H1. pose proof (Hr s2) as H2.
  rewrite Heq in H1. rewrite H1 in H2.
  apply Hz. apply (Qmult_inj_l _ _ volatility Hv).
  assert (H3 : 0 + volatility * fst (np.standard_normal s1) ==
               0 + volatility * fst (np.standard_normal s2)) by (rewrite H2; reflexivity).
  lra.
Qed.

End SeedFacts.

Section SeedClaim.
Context {G : np.BitGenerator} {L : sklearn.Library}.

(** C10, amended.  Two executions of the data generation produce identical
    arrays in every notebook that seeds it with 42: the six notebooks that
    call [np.random.seed(42)] before sampling (both PID notebooks, house
    prices, loan default, fruit classification and wearable sensor; these
    are exactly the scripts in which the seed call comes before every draw)
    and the fault-detection notebook, which never draws from [np.random]
    but passes [random_state=42] to [make_classification].  The stock-price
    notebook is the only one that samples without a seed, and two of its
    runs whose first normal draws differ produce different arrays. *)
Theorem seeded_generation_repeatable (s1 s2 : np.rng_state) :
  (forall nb, In nb [Pid.boosting_notebook; Pid.forest_notebook] ->
     evalState nb s1 = evalState nb s2) /\
  evalState (House.generate 1000) s1 = evalState (House.generate 1000) s2 /\
  evalState (Loan.generate Loan.n_samples) s1 =
    evalState (Loan.generate Loan.n_samples) s2 /\
  evalState (Fruit.generate 100) s1 = evalState (Fruit.generate 100) s2 /\
  evalState (Wearable.generate Wearable.n_samples) s1 =
    evalState (Wearable.generate Wearable.n_samples) s2 /\
  evalState (ret Fault.generate) s1 = evalState (ret Fault.generate) s2 /\
  (forall nb, In nb Script.notebooks ->
     (Script.seeds_before_sampling nb = true <-> In nb seeded_by_np_random_seed) /\
     (Script.samples_unseeded nb = true <-> nb = Script.stock_prices)) /\
  Script.samples Script.fault_detection = false /\
  (~ fst (np.standard_normal s1) == fst (np.standard_normal s2) ->
   evalState (Stock.generate Stock.initial_price Stock.volatility Stock.n_days) s1 <>
   evalState (Stock.generate Stock.initial_price Stock.volatility Stock.n_days) s2).
Proof.
  split; [intros nb Hnb; now apply pid_notebook_repeatable|].
  split; [apply seeded_run|].
  split; [apply seeded_run|].
  split; [apply seeded_run|].
  split; [apply seeded_run|].
  split; [reflexivity|].
  split.
  - intros nb Hnb. unfold Script.notebooks, seeded_by_np_random_seed in *.
    simpl In in *.
    repeat (destruct Hnb as [<-|Hnb]); try contradiction;
      (split; split; intros H;
       first [ discriminate H
             | reflexivity
             | now (repeat (first [left; reflexivity | right]))
             | exfalso; repeat (destruct H as [H|H]; [discriminate H|]); exact H ]).
  - split; [reflexivity|].
    intros Hz. unfold Stock.n_days. change 500%nat with (S 499).
    apply stock_runs_differ; [|exact Hz].
    unfold Stock.volatility. intros H. discriminate H.
Qed.

End SeedClaim.

(** C10, counterexample.  The fault-detection notebook is named among the
    notebooks that call [np.random.seed(42)] before sampling; its script
    holds no call of [np.random.seed] and no draw from [np.random]
    (Lec7_1_Demo:73 seeds [make_classification] through [random_state]). *)
Lemma fault_detection_calls_no_seed :
  existsb Script.is_seed (Script.body Script.fault_detection) = false /\
  ~ (forall nb,
       In nb [Script.pid_boosting; Script.pid_forest; Script.loan_default;
              Script.wearable_sensor; Script.house_prices; Script.fault_detection] ->
       Script.seeds_before_sampling nb = true).
Proof.
  split; [reflexivity|].
  intros H.
  assert (Hf : Script.seeds_before_sampling Script.fault_detection = true).
  { apply H. do 5 right. left. reflexivity. }
  vm_compute in Hf. discriminate Hf.
Qed.

(** Two states of the demonstration generator with different first normal
    draws. *)
Lemma seeded_generation_repeatable_witness :
  ~ fst (np.standard_normal (BitGenerator := Demo.generator) 0%Z) ==
    fst (np.standard_normal (BitGenerator := Demo.generator) 1%Z) /\
  evalState (Stock.generate (G := Demo.generator)
               Stock.initial_price Stock.volatility Stock.n_days) 0%Z <>
  evalState (Stock.generate (G := Demo.generator)
               Stock.initial_price Stock.volatility Stock.n_days) 1%Z.
Proof.
  assert (H : ~ fst (np.standard_normal (BitGenerator := Demo.generator) 0%Z) ==
                fst (np.standard_normal (BitGenerator := Demo.generator) 1%Z)).
  { intros E. vm_compute in E. discriminate E. }
  split; [exact H|].
  exact (proj2 (proj2 (proj2 (proj2 (proj2 (proj2 (proj2 (proj2
           (seeded_generation_repeatable (G := Demo.generator) (L := Demo.library)
              0%Z 1%Z)))))))) H).
Defined.


(** ** C4: the range of the metrics *)

Section MetricFacts.

Lemma matches_le (y_true y_pred : list Z) :
  (metrics.matches y_true y_pred <= List.length y_true)%nat.
Proof.
  revert y_pred; induction y_true as [|t y_true IH]; intros [|p y_pred]; simpl; try lia.
  specialize (IH y_pred). destruct (t =? p)%Z; lia.
Qed.

Lemma ss_nonneg (a b : list Q) : 0 <= metrics.ss a b.
Proof.
  revert b; induction a as [|x a IH]; intros [|y b]; simpl; try lra.
  specialize (IH b).
  assert (Hsq : 0 <= (x - y) * (x - y)) by (set (z := x - y); nra).
  lra.
Qed.

Lemma accuracy_score_range (y_true y_pred : list Z) :
  y_true <> [] ->
  0 <= metrics.accuracy_score y_true y_pred /\ metrics.accuracy_score y_true y_pred <= 1.
Proof.
  intros Hne. unfold metrics.accuracy_score.
  pose proof (matches_le y_true y_pred) as Hle.
  assert (Hpos : 0 < inject_Z (Z.of_nat (List.length y_true))).
  { change 0 with (inject_Z 0). rewrite <- Zlt_Qlt.
    destruct y_true; [congruence | simpl; lia]. }
  split.
  - apply Qle_shift_div_l; [exact Hpos|]. rewrite Qmult_0_l.
    change 0 with (inject_Z 0). rewrite <- Zle_Qle. lia.
  - apply Qle_shift_div_r; [exact Hpos|]. rewrite Qmult_1_l.
    rewrite <- Zle_Qle. lia.
Qed.

Lemma r2_score_le_1 (y_true y_pred : list Q) : metrics.r2_score y_true y_pred <= 1.
Proof.
  unfold metrics.r2_score.
  destruct (Qeq_bool (metrics.ss_tot y_true) 0) eqn:Etot.
  - destruct (Qeq_bool (metrics.ss_res y_true y_pred) 0); lra.
  - apply Qeq_bool_neq in Etot.
    pose proof (ss_nonneg y_true (map (fun _ => np.mean y_true) y_true)) as Htot.
    fold (metrics.ss_tot y_true) in Htot.
    pose proof (ss_nonneg y_true y_pred) as Hres. fold (metrics.ss_res y_true y_pred) in Hres.
    assert (Hpos : 0 < metrics.ss_tot y_true).
    { destruct (Qlt_le_dec 0 (metrics.ss_tot y_true)) as [H|H]; [exact H|].
      exfalso. apply Etot. lra. }
    assert (Hq : 0 <= metrics.ss_res y_true y_pred / metrics.ss_tot y_true).
    { apply Qle_shift_div_l; [exact Hpos|]. lra. }
    lra.
Qed.

(** A prediction that misses one of two targets by [k] scores 1 - 2 k^2. *)
Lemma r2_score_two_points (k : Q) :
  metrics.r2_score [0; 1] [k; 1] == 1 - 2 * k * k.
Proof.
  unfold metrics.r2_score.
  assert (Htot : metrics.ss_tot [0; 1] == 1 # 2) by reflexivity.
  assert (Hb : Qeq_bool (metrics.ss_tot [0; 1]) 0 = false) by reflexivity.
  rewrite Hb, Htot. unfold metrics.ss_res. simpl. field.
Qed.

Lemma two_points_not_constant : ~ constant [0; 1].
Proof.
  intros H. specialize (H 0 1 (or_introl eq_refl) (or_intror (or_introl eq_refl))).
  discriminate H.
Qed.

End MetricFacts.

(** C4.  For label vectors of equal length that are not empty the accuracy
    lies in [0, 1]; for vectors of equal length whose truth is not constant
    R^2 is at most 1; and R^2 has no lower bound: below every bound there
    is a score of such a pair. *)
Theorem metrics_ranges :
  (forall y_true y_pred : list Z,
     List.length y_true = List.length y_pred -> y_true <> [] ->
     0 <= metrics.accuracy_score y_true y_pred /\
     metrics.accuracy_score y_true y_pred <= 1) /\
  (forall y_true y_pred : list Q,
     List.length y_true = List.length y_pred -> ~ constant y_true ->
     metrics.r2_score y_true y_pred <= 1) /\
  (forall bound : Q,
     exists y_true y_pred : list Q,
       List.length y_true = List.length y_pred /\ ~ constant y_true /\
       metrics.r2_score y_true y_pred < bound).
Proof.
  split; [|split].
  - intros y_true y_pred _ Hne. now apply accuracy_score_range.
  - intros y_true y_pred _ _. apply r2_score_le_1.
  - intros bound. exists [0; 1], [bound * bound + 1; 1].
    split; [reflexivity|]. split; [exact two_points_not_constant|].
    rewrite r2_score_two_points. nra.
Qed.

(** Four labels with two hits, and two targets missed by 3. *)
Lemma metrics_ranges_witness :
  (List.length [1; 0; 1; 1]%Z = List.length [1; 1; 1; 0]%Z /\ [1; 0; 1; 1]%Z <> [] /\
   metrics.accuracy_score [1; 0; 1; 1]%Z [1; 1; 1; 0]%Z <= 1) /\
  (List.length [0; 1] = List.length [3; 1] /\ ~ constant [0; 1] /\
   metrics.r2_score [0; 1] [3; 1] <= 1).
Proof.
  split.
  - assert (H1 : List.length [1; 0; 1; 1]%Z = List.length [1; 1; 1; 0]%Z) by reflexivity.
    assert (H2 : [1; 0; 1; 1]%Z <> []) by discriminate.
    split; [exact H1 | split; [exact H2|]].
    exact (proj2 (proj1 metrics_ranges [1; 0; 1; 1]%Z [1; 1; 1; 0]%Z H1 H2)).
  - assert (H1 : List.length [0; 1] = List.length [3; 1]) by reflexivity.
    split; [exact H1 | split; [exact two_points_not_constant|]].
    exact (proj1 (proj2 metrics_ranges) [0; 1] [3; 1] H1 two_points_not_constant).
Defined.

(** ** C5 and C9: the functions of the spam notebook, and failing calls *)

Section RunFacts.
Context {E : Type}.

(** A call that raises ends the run: the exception is the outcome, and the
    call is the last entry of the log. *)
Lemma call_raises {A B : Type} (entry : E) (e : py.exn) (k : A -> py.M E B) (log : list E) :
  runState (unEitherT (x <- py.call entry (inl e) ;; k x)) log = (inl e, (log ++ [entry])%list).
Proof. reflexivity. Qed.

Lemma call_returns {A B : Type} (entry : E) (a : A) (k : A -> py.M E B) (log : list E) :
  runState (unEitherT (x <- py.call entry (inr a) ;; k x)) log =
  runState (unEitherT (k a)) (log ++ [entry])%list.
Proof.
  simpl. destruct (runState (unEitherT (k a)) (log ++ [entry])%list). reflexivity.
Qed.

End RunFacts.

Section ScriptRunFacts.

Lemma run_body_from (outcome : Script.stmt -> option py.exn)
    (pre post : list Script.stmt) (s : Script.stmt) (e : py.exn) (log : list Script.stmt) :
  (forall t, In t pre -> outcome t = None) ->
  outcome s = Some e ->
  runState (unEitherT (Script.run_body outcome (pre ++ s :: post))) log =
  (inl e, (log ++ pre ++ [s])%list).
Proof.
  revert log; induction pre as [|t pre IH]; intros log Hpre Hs.
  - simpl app. cbn [Script.run_body]. rewrite Hs.
    apply (call_raises (A := unit)).
  - change ((t :: pre) ++ s :: post)%list with (t :: (pre ++ s :: post))%list.
    cbn [Script.run_body]. rewrite (Hpre t (or_introl eq_refl)).
    rewrite (call_returns (A := unit)).
    rewrite IH; [|intros u Hu; apply Hpre; now right|exact Hs].
    now rewrite <- app_assoc.
Qed.

Lemma run_body_all (outcome : Script.stmt -> option py.exn)
    (body : list Script.stmt) (log : list Script.stmt) :
  (forall t, In t body -> outcome t = None) ->
  runState (unEitherT (Script.run_body outcome body)) log = (inr tt, (log ++ body)%list).
Proof.
  revert log; induction body as [|t body IH]; intros log Hb.
  - simpl. now rewrite app_nil_r.
  - cbn [Script.run_body]. rewrite (Hb t (or_introl eq_refl)).
    rewrite (call_returns (A := unit)).
    rewrite IH; [|intros u Hu; apply Hb; now right].
    now rewrite <- app_assoc.
Qed.

End ScriptRunFacts.

Section UnseenClaims.
Variable np_array : list (list Z) -> py.result (list (list Z)).
Variable gnb_predict : list (list Z) -> py.result (list Z).

(** C5.  Nothing catches, retries or rewrites an exception.  When
    [np.array] or [gnb.predict] raises inside [predict_single_email] or
    [predict_batch_emails], the function raises that same exception and the
    failing call is the last one performed (an empty prediction makes the
    index [0] raise after both calls); and when a statement of any
    notebook raises, the run of the notebook ends with that exception,
    having performed the statements before it and the failing one, and
    nothing after it. *)
Theorem exceptions_propagate_unhandled :
  (forall (w c : Z) (e : py.exn),
     np_array [[w; c]] = inl e ->
     py.run (UnseenInput.predict_single_email np_array gnb_predict w c) = (inl e, ["np.array"])) /\
  (forall (w c : Z) (a : list (list Z)) (e : py.exn),
     np_array [[w; c]] = inr a -> gnb_predict a = inl e ->
     py.run (UnseenInput.predict_single_email np_array gnb_predict w c) = (inl e, ["np.array"; "gnb.predict"])) /\
  (forall (w c : Z) (a : list (list Z)),
     np_array [[w; c]] = inr a -> gnb_predict a = inr [] ->
     exists msg,
       py.run (UnseenInput.predict_single_email np_array gnb_predict w c) =
         (inl (py.IndexError msg), ["np.array"; "gnb.predict"])) /\
  (forall (email_list : list (list Z)) (e : py.exn),
     np_array email_list = inl e ->
     py.run (UnseenInput.predict_batch_emails np_array gnb_predict email_list) = (inl e, ["np.array"])) /\
  (forall (email_list a : list (list Z)) (e : py.exn),
     np_array email_list = inr a -> gnb_predict a = inl e ->
     py.run (UnseenInput.predict_batch_emails np_array gnb_predict email_list) = (inl e, ["np.array"; "gnb.predict"])) /\
  (forall (nb : Script.notebook) (outcome : Script.stmt -> option py.exn)
          (pre post : list Script.stmt) (s : Script.stmt) (e : py.exn),
     In nb Script.notebooks ->
     Script.body nb = (pre ++ s :: post)%list ->
     (forall t, In t pre -> outcome t = None) ->
     outcome s = Some e ->
     Script.execute outcome nb = (inl e, (pre ++ [s])%list)).
Proof.
  unfold UnseenInput.predict_single_email, UnseenInput.predict_batch_emails, py.run.
  repeat split.
  - intros w c e H. rewrite H. reflexivity.
  - intros w c a e Ha Hp. rewrite Ha. rewrite (call_returns (A := list (list Z))).
    rewrite Hp. reflexivity.
  - intros w c a Ha Hp. rewrite Ha. rewrite (call_returns (A := list (list Z))).
    rewrite Hp. eexists. reflexivity.
  - intros l e H. rewrite H. reflexivity.
  - intros l a e Ha Hp. rewrite Ha. rewrite (call_returns (A := list (list Z))).
    rewrite Hp. reflexivity.
  - intros nb outcome pre post s e _ Hbody Hpre Hs.
    unfold Script.execute, py.run. rewrite Hbody.
    now rewrite (run_body_from outcome pre post s e [] Hpre Hs).
Qed.

(** C9.  When the two library calls return, [predict_single_email] returns
    "Spam" if and only if the model's prediction for the pair is 1 and
    "Not Spam" otherwise; and [predict_batch_emails], the model giving one
    prediction per input, returns a list as long as its input whose every
    element is one of the two strings, the i-th being "Spam" exactly when
    the i-th prediction is 1. *)
Theorem spam_labels_follow_predictions :
  (forall (w c : Z) (a : list (list Z)) (p : Z) (rest : list Z),
     np_array [[w; c]] = inr a -> gnb_predict a = inr (p :: rest) ->
     exists out,
       fst (py.run (UnseenInput.predict_single_email np_array gnb_predict w c)) = inr out /\
       (out = "Spam" <-> p = 1%Z) /\
       (out = "Not Spam" <-> p <> 1%Z)) /\
  (forall (email_list a : list (list Z)) (predictions : list Z),
     np_array email_list = inr a -> gnb_predict a = inr predictions ->
     List.length predictions = List.length email_list ->
     exists out,
       fst (py.run (UnseenInput.predict_batch_emails np_array gnb_predict email_list)) = inr out /\
       List.length out = List.length email_list /\
       (forall s, In s out -> s = "Spam" \/ s = "Not Spam") /\
       (forall i, (i < List.length email_list)%nat ->
          exists p, nth_error predictions i = Some p /\
                    nth_error out i = Some (UnseenInput.label p) /\
                    (nth_error out i = Some "Spam" <-> p = 1%Z))).
Proof.
  unfold UnseenInput.predict_single_email, UnseenInput.predict_batch_emails, py.run.
  split.
  - intros w c a p rest Ha Hp. rewrite Ha.
    rewrite (call_returns (A := list (list Z))). rewrite Hp.
    rewrite (call_returns (A := list Z)). cbn.
    exists (UnseenInput.label p). split; [reflexivity|].
    unfold UnseenInput.label. destruct (Z.eqb_spec p 1).
    + split; split; intros; congruence.
    + split; split; intros; congruence.
  - intros l a preds Ha Hp Hlen. rewrite Ha.
    rewrite (call_returns (A := list (list Z))). rewrite Hp.
    rewrite (call_returns (A := list Z)). cbn.
    exists (map UnseenInput.label preds). split; [reflexivity|].
    split; [now rewrite length_map|]. split.
    + intros s Hs. apply in_map_iff in Hs. destruct Hs as (p & <- & _).
      unfold UnseenInput.label. destruct (p =? 1)%Z; auto.
    + intros i Hi. rewrite <- Hlen in Hi.
      destruct (nth_error preds i) as [p|] eqn:E.
      * exists p. split; [reflexivity|].
        rewrite nth_error_map, E. split; [reflexivity|]. cbn.
        unfold UnseenInput.label. destruct (Z.eqb_spec p 1); split; intros; congruence.
      * apply nth_error_None in E. lia.
Qed.

End UnseenClaims.

(** A ragged batch: [np.array] raises, and the batch function with it. *)
Lemma exceptions_propagate_unhandled_witness :
  Demo.np_array [[150; 1]; [700]]%Z =
    inl (py.ValueError "setting an array element with a sequence: inhomogeneous shape") /\
  py.run (UnseenInput.predict_batch_emails Demo.np_array Demo.gnb_predict
            [[150; 1]; [700]]%Z) =
    (inl (py.ValueError "setting an array element with a sequence: inhomogeneous shape"),
     ["np.array"]).
Proof.
  assert (H : Demo.np_array [[150; 1]; [700]]%Z =
              inl (py.ValueError "setting an array element with a sequence: inhomogeneous shape"))
    by reflexivity.
  split; [exact H|].
  exact (proj1 (proj2 (proj2 (proj2
           (exceptions_propagate_unhandled Demo.np_array Demo.gnb_predict))))
           [[150; 1]; [700]]%Z _ H).
Defined.

(** The sample e-mail of the notebook, 400 words and 2 capitals. *)
Lemma spam_labels_follow_predictions_witness :
  Demo.np_array [[400; 2]]%Z = inr [[400; 2]]%Z /\
  Demo.gnb_predict [[400; 2]]%Z = inr [1%Z] /\
  exists out,
    fst (py.run (UnseenInput.predict_single_email Demo.np_array Demo.gnb_predict 400 2)) =
      inr out /\
    (out = "Spam" <-> 1%Z = 1%Z) /\ (out = "Not Spam" <-> 1%Z <> 1%Z).
Proof.
  assert (H1 : Demo.np_array [[400; 2]]%Z = inr [[400; 2]]%Z) by reflexivity.
  assert (H2 : Demo.gnb_predict [[400; 2]]%Z = inr [1%Z]) by reflexivity.
  split; [exact H1 | split; [exact H2|]].
  exact (proj1 (spam_labels_follow_predictions Demo.np_array Demo.gnb_predict)
           400%Z 2%Z [[400; 2]]%Z 1%Z [] H1 H2).
Defined.


(** ** C1 and C2: the order and the content of the scripts *)

Section StageFacts.
Import Script.

Lemma stage_eqb_eq (a b : stage) : stage_eqb a b = true <-> a = b.
Proof. destruct a, b; simpl; split; intros H; try reflexivity; discriminate H. Qed.

(** [precedes a b]: whatever stands before an occurrence of [b] holds an
    [a]. *)
Lemma precedes_spec (a b : stage) (l : list stage) :
  a <> b -> precedes a b l = true ->
  forall pre post, l = (pre ++ b :: post)%list -> In a pre.
Proof.
  intros Hab. induction l as [|x l IH]; intros H pre post Hl.
  - destruct pre; discriminate Hl.
  - simpl in H. destruct pre as [|y pre]; simpl in Hl; injection Hl as Hx Hl'.
    + subst x. destruct (stage_eqb b a) eqn:Eba.
      * apply stage_eqb_eq in Eba. congruence.
      * assert (Ebb : stage_eqb b b = true) by (now apply stage_eqb_eq).
        rewrite Ebb in H. discriminate H.
    + subst y. destruct (stage_eqb x a) eqn:Exa.
      * apply stage_eqb_eq in Exa. left. exact Exa.
      * destruct (stage_eqb x b); [discriminate H|].
        right. now apply (IH H pre post).
Qed.

(** [none_after a b]: nothing that follows an occurrence of [b] is an
    [a]. *)
Lemma none_after_spec (a b : stage) (l : list stage) :
  none_after a b l = true ->
  forall pre post, l = (pre ++ b :: post)%list -> ~ In a post.
Proof.
  induction l as [|x l IH]; intros H pre post Hl Hin.
  - destruct pre; discriminate Hl.
  - simpl in H. destruct (stage_eqb x b) eqn:Exb.
    + apply negb_true_iff in H.
      assert (Hex : existsb (stage_eqb a) l = true).
      { apply existsb_exists. exists a. split; [|now apply stage_eqb_eq].
        destruct pre as [|y pre]; simpl in Hl; injection Hl as _ Hl'; subst l.
        - exact Hin.
        - apply in_or_app. right. now right. }
      congruence.
    + destruct pre as [|y pre]; simpl in Hl; injection Hl as Hx Hl'.
      * subst x. assert (Ebb : stage_eqb b b = true) by (now apply stage_eqb_eq).
        congruence.
      * now apply (IH H pre post).
Qed.

Lemma all_staged : forallb staged notebooks = true.
Proof. vm_compute. reflexivity. Qed.

End StageFacts.



(** C1, counterexample.  The loan-default notebook is not in pipeline
    order: it calls [train_test_split] (part_003:100) and standardises
    afterwards (part_003:124-125). *)
Lemma loan_default_splits_before_preprocessing :
  In Script.loan_default Script.notebooks /\
  Script.stages (Script.body Script.loan_default) =
    [Script.Generate; Script.Generate; Script.Generate; Script.Generate;
     Script.Generate; Script.Generate; Script.Generate;
     Script.Split; Script.Preprocess; Script.Preprocess; Script.Fit;
     Script.Predict; Script.Evaluate; Script.Evaluate; Script.Evaluate;
     Script.Evaluate; Script.Evaluate; Script.Plot] /\
  Script.pipeline_ordered Script.loan_default = false /\
  ~ (forall nb, In nb Script.notebooks ->
       Script.pipeline_ordered nb = true /\
       Script.none_after Script.Preprocess Script.Split
         (Script.stages (Script.body nb)) = true).
Proof.
  assert (Hin : In Script.loan_default Script.notebooks).
  { unfold Script.notebooks. do 5 right. left. reflexivity. }
  split; [exact Hin|]. split; [reflexivity|]. split; [reflexivity|].
  intros H. destruct (H Script.loan_default Hin) as [H1 _].
  vm_compute in H1. discriminate H1.
Qed.

(** C1, amended.  In every notebook the data are generated or written down
    before the split, the split comes before every fit, a fit comes before
    every prediction and every evaluation, and no preprocessing follows a
    fit; so no notebook fits a model before splitting.  Preprocessing
    follows the split in the loan-default notebook and in no other.

    The order is the order of the data, not only of the stages: both
    arguments of every split are computed, step by step, from statements
    that stand before the split, and no statement that draws, loads or
    builds the data follows a split; every fit takes the training features
    and the training targets an earlier split returned; every [predict]
    and every [score] is called on the model an earlier statement fitted;
    and every metric takes a prediction that such a model made. *)
Theorem stages_in_order (nb : Script.notebook) :
  In nb Script.notebooks ->
  let l := Script.stages (Script.body nb) in
  In Script.Split l /\ In Script.Fit l /\
  (forall pre post, l = (pre ++ Script.Split :: post)%list -> In Script.Generate pre) /\
  (forall pre post, l = (pre ++ Script.Fit :: post)%list -> In Script.Split pre) /\
  (forall pre post, l = (pre ++ Script.Predict :: post)%list -> In Script.Fit pre) /\
  (forall pre post, l = (pre ++ Script.Evaluate :: post)%list -> In Script.Fit pre) /\
  (forall pre post, l = (pre ++ Script.Fit :: post)%list -> ~ In Script.Preprocess post) /\
  (Script.none_after Script.Preprocess Script.Split l = false <-> nb = Script.loan_default) /\
  (forall pre s post,
     Script.body nb = (pre ++ s :: post)%list ->
     (Checks.is_split s = true ->
      exists features targets,
        Script.reads s = [features; targets] /\
        Checks.grounded 12 (rev pre) features = true /\
        Checks.grounded 12 (rev pre) targets = true /\
        (exists c, In c pre /\ Script.mem features (Script.binds c) = true) /\
        (exists c, In c pre /\ Script.mem targets (Script.binds c) = true)) /\
     (Checks.is_generation s = true ->
      forall t, In t pre -> Checks.is_split t = false) /\
     (Script.func s = "fit" ->
      exists features targets,
        Script.reads s = [features; targets] /\
        Checks.part_of 4 (rev pre) features = Some 0%nat /\
        Checks.part_of 4 (rev pre) targets = Some 2%nat /\
        exists sp, In sp pre /\ Checks.is_split sp = true) /\
     (Script.func s = "predict" \/ Script.func s = "score" ->
      exists f, In f pre /\ Script.func f = "fit" /\
                Script.receiver f = Script.receiver s) /\
     (Script.func s <> "score" ->
      Script.mem (Script.func s) Script.scoring_functions = true ->
      exists targets predicted,
        Script.reads s = [targets; predicted] /\
        forall c rest,
          Checks.binder_before (rev pre) predicted = Some (c, rest) ->
          Script.func c = "predict" /\
          exists f, In f rest /\ Script.func f = "fit" /\
                    Script.receiver f = Script.receiver c)).
Proof.
  intros Hnb. cbv zeta.
  pose proof all_staged as Hall. rewrite forallb_forall in Hall.
  specialize (Hall nb Hnb). unfold staged in Hall. cbv zeta in Hall.
  repeat (apply andb_prop in Hall; destruct Hall as [Hall ?]).
  refine (conj _ (conj _ (conj _ (conj _ (conj _ (conj _ (conj _ (conj (conj _ _) _)))))))).
  10: { intros pre s post Hbody. exact (statements_in_order nb pre post s Hnb Hbody). }
  - apply existsb_exists in Hall. destruct Hall as (x & Hx & Hs).
    apply stage_eqb_eq in Hs. now subst x.
  - match goal with H : existsb (Script.stage_eqb Script.Fit) _ = true |- _ =>
      apply existsb_exists in H; destruct H as (x & Hx & Hs);
      apply stage_eqb_eq in Hs; now subst x end.
  - now apply precedes_spec.
  - now apply precedes_spec.
  - now apply precedes_spec.
  - now apply precedes_spec.
  - now apply none_after_spec.
  - intros Hf. unfold Script.notebooks in Hnb. simpl In in Hnb.
    repeat (destruct Hnb as [<-|Hnb]); try contradiction;
      first [reflexivity | (vm_compute in Hf; discriminate Hf)].
  - intros ->. vm_compute. reflexivity.
Qed.

(** The fault-detection notebook fits twice, both times after the split. *)
Lemma stages_in_order_witness :
  In Script.fault_detection Script.notebooks /\
  forall pre post,
    Script.stages (Script.body Script.fault_detection) =
      (pre ++ Script.Fit :: post)%list -> In Script.Split pre.
Proof.
  assert (H : In Script.fault_detection Script.notebooks).
  { unfold Script.notebooks. do 11 right. left. reflexivity. }
  split; [exact H|].
  exact (proj1 (proj2 (proj2 (proj2 (stages_in_order Script.fault_detection H))))).
Defined.

(** C2, counterexample.  The spam-filter notebook (part_001:382-592) draws
    no plot at all. *)
Lemma spam_filter_draws_no_plot :
  In Script.spam_filter Script.notebooks /\
  existsb (fun s => Script.mem (Script.func s) Script.plotting_functions)
          (Script.body Script.spam_filter) = false /\
  ~ (forall nb, In nb Script.notebooks ->
       Script.constructs_dataset nb = true /\ Script.fits_library_model nb = true /\
       Script.scores_predictions nb = true /\ Script.compares_in_plot nb = true).
Proof.
  assert (Hin : In Script.spam_filter Script.notebooks).
  { unfold Script.notebooks. do 2 right. left. reflexivity. }
  split; [exact Hin|]. split; [reflexivity|].
  intros H. destruct (H Script.spam_filter Hin) as (_ & _ & _ & H4).
  vm_compute in H4. discriminate H4.
Qed.

(** C2, amended.  Every notebook builds the data it splits and calls fit on
    a model of a library estimator class.  Every notebook other than the
    Iris pruning notebook, which scores with the estimator's own [score],
    and the e-mail naive-Bayes notebook applies one of the four standard
    metrics to the predictions of a fitted model.  A scatter or line plot of
    predictions next to one of the targets is drawn by the two PID
    notebooks, the stock-price and the house-price notebook, and by no
    other. *)
Theorem notebooks_fit_score_and_plot (nb : Script.notebook) :
  In nb Script.notebooks ->
  Script.constructs_dataset nb = true /\
  Script.fits_library_model nb = true /\
  (nb <> Script.iris_pruning -> nb <> Script.email_naive_bayes ->
   Script.scores_predictions nb = true) /\
  (Script.compares_in_plot nb = true <-> In nb plots_against_truth) /\
  existsb (fun s => String.eqb (Script.func s) "score") (Script.body Script.iris_pruning) = true.
Proof.
  intros Hnb. unfold Script.notebooks, plots_against_truth in *. simpl In in *.
  repeat (destruct Hnb as [<-|Hnb]); try contradiction;
    (split; [vm_compute; reflexivity|]);
    (split; [vm_compute; reflexivity|]);
    (split; [first [ vm_compute; reflexivity
                   | intros H1 H2; first [now elim H1 | now elim H2] ] |]);
    (split; [|vm_compute; reflexivity]);
    (split; intros H;
     first [ now (repeat (first [left; reflexivity | right]))
           | vm_compute; reflexivity
           | (vm_compute in H; discriminate H)
           | exfalso; repeat (destruct H as [H|H]; [discriminate H|]); exact H ]).
Qed.

(** The house-price notebook scores its predictions. *)
Lemma notebooks_fit_score_and_plot_witness :
  In Script.house_prices Script.notebooks /\
  Script.house_prices <> Script.iris_pruning /\
  Script.house_prices <> Script.email_naive_bayes /\
  Script.scores_predictions Script.house_prices = true.
Proof.
  assert (H : In Script.house_prices Script.notebooks).
  { unfold Script.notebooks. do 4 right. left. reflexivity. }
  assert (H1 : Script.house_prices <> Script.iris_pruning) by discriminate.
  assert (H2 : Script.house_prices <> Script.email_naive_bayes) by discriminate.
  split; [exact H | split; [exact H1 | split; [exact H2|]]].
  exact (proj1 (proj2 (proj2 (notebooks_fit_score_and_plot Script.house_prices H))) H1 H2).
Defined.

(** The e-mail naive-Bayes notebook reads [y_pred] (Lec2-3_Demo:110-112),
    which no statement binds: the cell that predicts is missing.  It is the
    only notebook that reads an unbound variable. *)
Lemma only_email_notebook_reads_unbound (nb : Script.notebook) :
  In nb Script.notebooks ->
  (Script.reads_unbound nb = true <-> nb = Script.email_naive_bayes).
Proof.
  intros Hnb. unfold Script.notebooks in Hnb. simpl In in Hnb.
  repeat (destruct Hnb as [<-|Hnb]); try contradiction;
    (split; intros H;
     first [ reflexivity | vm_compute; reflexivity
           | (vm_compute in H; discriminate H) | discriminate H ]).
Qed.

(** ** The models on concrete inputs *)

Example cumsum_of_three : np.cumsum [1; 2; 3] = [1; 3; 6].
Proof. vm_compute. reflexivity. Qed.

(** Rounding against the standard library's specification of binary64:
    0.1 * -0.5, then 1 + 0.1 * -0.5, with 0.1 the double
    3602879701896397 * 2^-55. *)
Example rounding_as_specified :
  let tenth := S754_finite false 3602879701896397 (-55) in
  let minus_half := S754_finite true 4503599627370496 (-53) in
  let one := S754_finite false 4503599627370496 (-52) in
  float64.of_spec tenth = np.float 0.1 /\
  float64.mul (float64.of_spec tenth) (float64.of_spec minus_half) ==
    float64.of_spec (SFmul 53 1024 tenth minus_half) /\
  float64.add (float64.of_spec one) (float64.of_spec (SFmul 53 1024 tenth minus_half)) ==
    float64.of_spec (SFadd 53 1024 one (SFmul 53 1024 tenth minus_half)) /\
  float64.of_spec (SFadd 53 1024 one (SFmul 53 1024 tenth minus_half)) == np.float 0.95.
Proof. cbv zeta. repeat split; vm_compute; reflexivity. Qed.

Example arange_of_ids : np.arange 1 21 = map Z.of_nat (seq 1 20).
Proof. reflexivity. Qed.

Example interpolate_fills_the_gap :
  map (option_map Qred) (pd.interpolate [Some 1; None; None; Some 4; None]) =
  [Some 1; Some 2; Some 3; Some 4; Some 4].
Proof. reflexivity. Qed.

Example rolling_mean_of_five :
  map (option_map Qred) (pd.rolling_mean 5 (map Some [1; 2; 3; 4; 5; 6])) =
  [None; None; None; None; Some 3; Some 4].
Proof. reflexivity. Qed.

Example ragged_frame_is_refused :
  py.raised (pd.DataFrame_of [("a", [1; 2]); ("b", [3])]) =
  Some (py.ValueError "All arrays must be of the same length").
Proof. reflexivity. Qed.

Example spam_frame_has_twenty_rows :
  option_map pd.len (match pd.DataFrame_of Spam.data with inr df => Some df | inl _ => None end) =
  Some 20%nat.
Proof. reflexivity. Qed.

Example spam_tables :
  Spam.tables (L := Demo.library) =
  inr [{| Rows.feature_rows := [20; 20; 20]%nat; Rows.target_rows := [20%nat] |};
       {| Rows.feature_rows := [20; 20]%nat; Rows.target_rows := [20%nat] |}].
Proof. reflexivity. Qed.

Example fruit_tables_on_five_samples :
  evalState (g <- Fruit.generate (G := Demo.generator) 5 ;;
             ret (Fruit.tables_of (L := Demo.library) g)) 0%Z =
  inr [{| Rows.feature_rows := [5; 5]%nat; Rows.target_rows := [5%nat] |};
       {| Rows.feature_rows := [5; 5]%nat; Rows.target_rows := [5%nat] |}].
Proof. reflexivity. Qed.

Example stock_tables_on_eight_days :
  option_map (map (fun sn => (Rows.feature_rows sn, Rows.target_rows sn)))
    (match evalState (a <- Stock.generate (G := Demo.generator) 100 1 8 ;;
                      ret (Stock.tables_of (L := Demo.library) 8 a)) 0%Z with
     | inr sns => Some sns
     | inl _ => None
     end) =
  Some [([8], [8]); ([8], [8]); ([8; 8], [8]); ([8; 8], [8]); ([8; 8], [8]);
        ([8], [8]); ([8; 8; 8; 8], [8])]%nat.
Proof. vm_compute. reflexivity. Qed.

Example split_of_ten_rows :
  sklearn.train_test_split (L := Demo.library) [10; 11; 12; 13; 14; 15; 16; 17; 18; 19]%Z
                           [0; 1; 0; 1; 0; 1; 0; 1; 0; 1]%Z 0.2 42 =
  inr ([12; 13; 14; 15; 16; 17; 18; 19]%Z, [10; 11]%Z,
       [0; 1; 0; 1; 0; 1; 0; 1]%Z, [0; 1]%Z).
Proof. reflexivity. Qed.

Example split_refuses_unequal_rows :
  py.raised (sklearn.train_test_split (L := Demo.library) [1; 2; 3]%Z [0; 1]%Z 0.2 42) =
  Some (py.ValueError "Found input variables with inconsistent numbers of samples").
Proof. reflexivity. Qed.

Example accuracy_of_three_in_four :
  Qred (metrics.accuracy_score [1; 0; 1; 1]%Z [1; 0; 0; 1]%Z) = 3 # 4.
Proof. reflexivity. Qed.

Example r2_of_a_perfect_fit : Qred (metrics.r2_score [1; 2; 3] [1; 2; 3]) = 1.
Proof. reflexivity. Qed.

Example r2_of_a_bad_fit : Qred (metrics.r2_score [0; 1] [3; 1]) = -17.
Proof. reflexivity. Qed.

Example sample_email_is_spam :
  py.run (UnseenInput.predict_single_email Demo.np_array Demo.gnb_predict 400 2) =
  (inr "Spam", ["np.array"; "gnb.predict"]).
Proof. reflexivity. Qed.

Example sample_batch_labels :
  py.run (UnseenInput.predict_batch_emails Demo.np_array Demo.gnb_predict
            [[150; 1]; [700; 5]; [300; 2]]%Z) =
  (inr ["Not Spam"; "Spam"; "Not Spam"], ["np.array"; "gnb.predict"]).
Proof. reflexivity. Qed.

Example wrong_width_reaches_the_caller :
  py.run (UnseenInput.predict_batch_emails Demo.np_array Demo.gnb_predict [[1; 2; 3]]%Z) =
  (inl (py.ValueError "X has a different number of features than GaussianNB is expecting"),
   ["np.array"; "gnb.predict"]).
Proof. reflexivity. Qed.

(** Four rows: the exact values of Kp would be 1.1146, 1.0775, 1.5312 and
    2.4893; the second and the third stored value are not even the doubles
    nearest to these. *)
Example pid_run_on_four_samples :
  Pid.Kp (evalState (Pid.simulate (G := Demo.generator) 4) 0%Z) =
  [5019712144667155 # 4503599627370496; 2426314299245855 # 2251799813685248;
   861988968678713 # 562949953421312; 175168914881459 # 70368744177664] /\
  map np.float [1.1146; 1.0775; 1.5312; 2.4893] =
  [5019712144667155 # 4503599627370496; 4852628598491709 # 4503599627370496;
   6895911749429703 # 4503599627370496; 175168914881459 # 70368744177664].
Proof. split; vm_compute; reflexivity. Qed.

Example fault_script_stages :
  Script.stages (Script.body Script.fault_detection) =
  [Script.Generate; Script.Generate; Script.Split; Script.Fit; Script.Predict;
   Script.Evaluate; Script.Fit; Script.Predict; Script.Evaluate; Script.Evaluate; Script.Evaluate].
Proof. reflexivity. Qed.

Example a_failing_fit_stops_the_spam_script :
  Script.execute
    (fun s => if String.eqb (Script.func s) "fit"
              then Some (py.ValueError "Input contains NaN") else None)
    Script.spam_checkpoint =
  (inl (py.ValueError "Input contains NaN"), firstn 8 (Script.body Script.spam_checkpoint)).
Proof. reflexivity. Qed.

(** * More of the code *)

(** ** [plot_predictions] *)

Section PlottingFacts.
Import Plotting.

Lemma smaller_cases (m x : Q) :
  (smaller m x = m /\ m <= x) \/ (smaller m x = x /\ x <= m).
Proof.
  unfold smaller. destruct (Qle_bool m x) eqn:E.
  - left. split; [reflexivity|]. now apply Qle_bool_iff.
  - right. split; [reflexivity|].
    destruct (Qlt_le_dec x m) as [H|H]; [now apply Qlt_le_weak|].
    apply Qle_bool_iff in H. congruence.
Qed.

Lemma larger_cases (m x : Q) :
  (larger m x = m /\ x <= m) \/ (larger m x = x /\ m <= x).
Proof.
  unfold larger. destruct (Qle_bool x m) eqn:E.
  - left. split; [reflexivity|]. now apply Qle_bool_iff.
  - right. split; [reflexivity|].
    destruct (Qlt_le_dec m x) as [H|H]; [now apply Qlt_le_weak|].
    apply Qle_bool_iff in H. congruence.
Qed.

(** The value [min] ends with is an element, and none is below it. *)
Lemma fold_smaller (a : list Q) (x : Q) :
  In (fold_left smaller a x) (x :: a) /\
  forall v, In v (x :: a) -> fold_left smaller a x <= v.
Proof.
  revert x; induction a as [|y a IH]; intros x.
  - simpl. split; [now left|]. intros v [<-|[]]. apply Qle_refl.
  - cbn [fold_left]. destruct (IH (smaller x y)) as [Hin Hle]. split.
    + destruct Hin as [Hin|Hin]; [|now right; right].
      rewrite <- Hin. destruct (smaller_cases x y) as [[-> _]|[-> _]];
        [now left | now right; left].
    + intros v Hv.
      assert (Hs : fold_left smaller a (smaller x y) <= smaller x y)
        by (apply Hle; now left).
      destruct Hv as [<-|[<-|Hv]].
      * eapply Qle_trans; [exact Hs|].
        destruct (smaller_cases x y) as [[-> H]|[-> H]]; [apply Qle_refl|exact H].
      * eapply Qle_trans; [exact Hs|].
        destruct (smaller_cases x y) as [[-> H]|[-> H]]; [exact H|apply Qle_refl].
      * apply Hle. now right.
Qed.

Lemma fold_larger (a : list Q) (x : Q) :
  In (fold_left larger a x) (x :: a) /\
  forall v, In v (x :: a) -> v <= fold_left larger a x.
Proof.
  revert x; induction a as [|y a IH]; intros x.
  - simpl. split; [now left|]. intros v [<-|[]]. apply Qle_refl.
  - cbn [fold_left]. destruct (IH (larger x y)) as [Hin Hle]. split.
    + destruct Hin as [Hin|Hin]; [|now right; right].
      rewrite <- Hin. destruct (larger_cases x y) as [[-> _]|[-> _]];
        [now left | now right; left].
    + intros v Hv.
      assert (Hs : larger x y <= fold_left larger a (larger x y))
        by (apply Hle; now left).
      destruct Hv as [<-|[<-|Hv]].
      * eapply Qle_trans; [|exact Hs].
        destruct (larger_cases x y) as [[-> H]|[-> H]]; [apply Qle_refl|exact H].
      * eapply Qle_trans; [|exact Hs].
        destruct (larger_cases x y) as [[-> H]|[-> H]]; [exact H|apply Qle_refl].
      * apply Hle. now right.
Qed.

Variable plt : drawing -> py.result unit.

(** X1.  [plot_predictions], its drawing calls all returning: on an empty
    [true_values] it raises the [ValueError] of [min] after the scatter
    plot was drawn, and draws nothing else; on any other input it returns,
    having drawn, in this order, the scatter plot of the true against the
    predicted values, one line, the two axis labels, the title and the
    figure.  The line is a piece of the diagonal: it runs from [(lo, lo)]
    to [(hi, hi)], where [lo] and [hi] are the least and the greatest of
    the true values, whatever was predicted. *)
Theorem plot_predictions_draws_the_diagonal
    (true_values predicted_values : list Q) (title_ : string) :
  (forall d, plt d = inr tt) ->
  (true_values = [] ->
   py.run (plot_predictions plt true_values predicted_values title_) =
     (inl (py.ValueError "min() arg is an empty sequence"),
      [scatter true_values predicted_values])) /\
  (true_values <> [] ->
   exists lo hi,
     py.run (plot_predictions plt true_values predicted_values title_) =
       (inr tt,
        [scatter true_values predicted_values; line [lo; hi] [lo; hi];
         xlabel "True Values"; ylabel "Predicted Values"; title title_; show]) /\
     In lo true_values /\ In hi true_values /\
     forall v, In v true_values -> lo <= v /\ v <= hi).
Proof.
  intros Hplt. unfold plot_predictions, draw, py.run. split.
  - intros ->. rewrite Hplt. reflexivity.
  - intros Hne. destruct true_values as [|x a]; [congruence|].
    exists (fold_left smaller a x), (fold_left larger a x).
    destruct (fold_smaller a x) as [Hin1 Hle1].
    destruct (fold_larger a x) as [Hin2 Hle2].
    split; [|split; [exact Hin1|split; [exact Hin2|]]].
    + rewrite Hplt. rewrite (call_returns (A := unit)). cbn [value min max].
      cbn. rewrite !Hplt. reflexivity.
    + intros v Hv. split; [now apply Hle1|now apply Hle2].
Qed.

End PlottingFacts.

(** The targets 3, 1, 2 with some predictions: the line runs from (1, 1) to
    (3, 3). *)
Lemma plot_predictions_draws_the_diagonal_witness :
  exists lo hi,
    py.run (Plotting.plot_predictions (fun _ => inr tt) [3; 1; 2] [2.5; 1.5; 2] "Kp") =
      (inr tt,
       [Plotting.scatter [3; 1; 2] [2.5; 1.5; 2]; Plotting.line [lo; hi] [lo; hi];
        Plotting.xlabel "True Values"; Plotting.ylabel "Predicted Values";
        Plotting.title "Kp"; Plotting.show]) /\
    In lo [3; 1; 2] /\ In hi [3; 1; 2] /\
    forall v, In v [3; 1; 2] -> lo <= v /\ v <= hi.
Proof.
  apply (plot_predictions_draws_the_diagonal (fun _ => inr tt) [3; 1; 2] [2.5; 1.5; 2] "Kp").
  - intros d. reflexivity.
  - discriminate.
Defined.

(** ** The two functions of the spam notebook, one against the other *)

Section UnseenFacts.
Variable np_array : list (list Z) -> py.result (list (list Z)).
Variable gnb_predict : list (list Z) -> py.result (list Z).
Variable classify : list Z -> Z.

(** X2.  With a model that predicts row by row, [predict_batch_emails]
    returns for every e-mail of its list the string that
    [predict_single_email] returns for that e-mail alone: the batch
    function is the single one, mapped over the list. *)
Theorem batch_agrees_with_single (email_list : list (list Z)) :
  np_array email_list = inr email_list ->
  (forall w c, np_array [[w; c]] = inr [[w; c]]) ->
  (forall X, gnb_predict X = inr (map classify X)) ->
  exists out,
    fst (py.run (UnseenInput.predict_batch_emails np_array gnb_predict email_list)) = inr out /\
    List.length out = List.length email_list /\
    forall i w c,
      nth_error email_list i = Some [w; c] ->
      exists s,
        fst (py.run (UnseenInput.predict_single_email np_array gnb_predict w c)) = inr s /\
        nth_error out i = Some s.
Proof.
  intros Hbatch Hone Hrow.
  unfold UnseenInput.predict_single_email, UnseenInput.predict_batch_emails, py.run.
  rewrite Hbatch. rewrite (call_returns (A := list (list Z))). rewrite Hrow.
  rewrite (call_returns (A := list Z)). cbn [ret].
  exists (map UnseenInput.label (map classify email_list)).
  split; [reflexivity|]. split; [now rewrite !length_map|].
  intros i w c Hi. exists (UnseenInput.label (classify [w; c])). split.
  - rewrite Hone. rewrite (call_returns (A := list (list Z))). rewrite Hrow.
    rewrite (call_returns (A := list Z)). reflexivity.
  - rewrite !nth_error_map, Hi. reflexivity.
Qed.

End UnseenFacts.

(** The batch of the notebook (part_001:590), with a classifier that reads
    each row on its own. *)
Lemma batch_agrees_with_single_witness :
  exists out,
    fst (py.run (UnseenInput.predict_batch_emails Demo.np_array
                   (fun X => inr (map (fun r => if (390 <? hd 0 r)%Z then 1 else 0)%Z X))
                   [[150; 1]; [700; 5]; [300; 2]]%Z)) = inr out /\
    List.length out = 3%nat /\
    forall i w c,
      nth_error [[150; 1]; [700; 5]; [300; 2]]%Z i = Some [w; c] ->
      exists s,
        fst (py.run (UnseenInput.predict_single_email Demo.np_array
                       (fun X => inr (map (fun r => if (390 <? hd 0 r)%Z then 1 else 0)%Z X))
                       w c)) = inr s /\
        nth_error out i = Some s.
Proof.
  apply (batch_agrees_with_single Demo.np_array _
           (fun r => if (390 <? hd 0 r)%Z then 1 else 0)%Z
           [[150; 1]; [700; 5]; [300; 2]]%Z).
  - reflexivity.
  - intros w c. reflexivity.
  - intros X. reflexivity.
Defined.

(** ** The integral gain of the PID notebooks *)

Section PidKi.
Context {G : np.BitGenerator} {L : sklearn.Library}.

(** The running sum of the Errors up to row [i] lies within 2 (i + 1) of
    zero. *)
Lemma integral_bounded (a : Pid.arrays) (i : nat) :
  well_simulated Pid.n_samples a ->
  Forall (fun x => -2 <= x /\ x <= 2) (Pid.error a) ->
  (i < Pid.n_samples)%nat ->
  - inject_Z (2 * Z.of_nat (S i)) <= nth i (Pid.integral a) 0 /\
  nth i (Pid.integral a) 0 <= inject_Z (2 * Z.of_nat (S i)).
Proof.
  intros W Her Hi. pose proof W as [He Hd Hs Hint Hkp Hki Hkd].
  rewrite Hint. destruct (Pid.error a) as [|e0 rest] eqn:Eerr; [simpl in He; lia|].
  pose proof (Forall_inv Her) as [H01 H02]. pose proof (Forall_inv_tail Her) as Hrest.
  simpl in He. unfold Pid.n_samples in *.
  destruct i as [|j].
  - cbn [np.cumsum nth]. change (inject_Z (2 * Z.of_nat 1)) with 2. split; lra.
  - change (nth (S j) (np.cumsum (e0 :: rest)) 0)
      with (nth j (np.cumsum_from e0 rest) 0).
    destruct (cumsum_from_near rest e0 2 Hrest ltac:(lia) ltac:(lia)
                ltac:(change (inject_Z 2) with 2; lra)
                ltac:(change (inject_Z 2) with 2; lra) j ltac:(lia))
      as [[B1 B2] _].
    replace (2 * Z.of_nat (S (S j)))%Z with (2 + 2 * Z.of_nat (S j))%Z by lia.
    split; assumption.
Qed.

(** [Ki = 0.1 + 0.05 * integral] grows with the integral. *)
Lemma ki_monotone (x y : Q) :
  x <= y ->
  float64.add (np.float 0.1) (float64.mul (np.float 0.05) x) <=
  float64.add (np.float 0.1) (float64.mul (np.float 0.05) y).
Proof.
  intros Hxy. unfold float64.add, float64.mul.
  assert (Hc : np.float 0.05 = 3602879701896397 # 72057594037927936)
    by (vm_compute; reflexivity).
  apply round_le. apply Qplus_le_r. apply round_le. rewrite Hc.
  apply Qmult_le_l; [reflexivity | exact Hxy].
Qed.

(** X3.  In both PID notebooks every row [i] of the 1000 rows holds the
    double-precision value of [0.1 + 0.05 * integral]: the product with
    the double nearest to 0.05, rounded, added to the double nearest to
    0.1, rounded.  The Integral of the row lies within 2 (i + 1) of zero,
    so that Ki lies between the values of the expression at -2 (i + 1) and
    at 2 (i + 1), and between -100 and 100.2 on the whole table. *)
Theorem pid_ki_follows_the_integral
    (nb : np.random (Pid.arrays * py.result Pid.prepared))
    (s0 : np.rng_state) (i : nat) :
  np.unit_sampler G ->
  In nb [Pid.boosting_notebook; Pid.forest_notebook] ->
  (i < Pid.n_samples)%nat ->
  let a := fst (evalState nb s0) in
  let integral := nth i (Pid.integral a) 0 in
  let ki := nth i (Pid.Ki a) 0 in
  let k := inject_Z (2 * Z.of_nat (S i)) in
  let Ki_of := fun x => float64.add (np.float 0.1) (float64.mul (np.float 0.05) x) in
  ki = Ki_of integral /\
  (- k <= integral /\ integral <= k) /\
  (Ki_of (- k) <= ki /\ ki <= Ki_of k) /\
  (-100 <= ki /\ ki <= 100.2).
Proof.
  intros HG Hnb Hi. cbv zeta.
  destruct (notebook_run nb s0 Hnb) as (W & p & Hp & Hfrom).
  pose proof (notebook_in_range nb s0 HG Hnb) as [Her _].
  set (a := fst (evalState nb s0)) in *.
  destruct (well_simulated_lengths _ _ W) as (Hil & _ & _ & _).
  pose proof W as [He Hd Hs Hint Hkp Hki Hkd].
  destruct (integral_bounded a i W Her Hi) as [B1 B2].
  assert (Hrow : nth i (Pid.Ki a) 0 =
                 float64.add (np.float 0.1)
                   (float64.mul (np.float 0.05) (nth i (Pid.integral a) 0))).
  { rewrite Hki, nth_sadd, nth_smul; rewrite ?smul_length; try lia. reflexivity. }
  assert (Hk : inject_Z (2 * Z.of_nat (S i)) <= 2000).
  { change 2000 with (inject_Z 2000). rewrite <- Zle_Qle.
    unfold Pid.n_samples in Hi. lia. }
  rewrite Hrow. split; [reflexivity|]. split; [split; assumption|].
  split; [split; apply ki_monotone; assumption|].
  split.
  - apply Qle_trans with
      (float64.add (np.float 0.1) (float64.mul (np.float 0.05) (-2000))).
    + vm_compute. discriminate.
    + apply ki_monotone. lra.
  - apply Qle_trans with
      (float64.add (np.float 0.1) (float64.mul (np.float 0.05) 2000)).
    + apply ki_monotone. lra.
    + vm_compute. discriminate.
Qed.

End PidKi.

(** Row 0 of the forest notebook on the demonstration generator. *)
Lemma pid_ki_follows_the_integral_witness :
  let a := fst (evalState (@Pid.forest_notebook Demo.generator Demo.library) 0%Z) in
  nth 0 (Pid.Ki a) 0 =
    float64.add (np.float 0.1) (float64.mul (np.float 0.05) (nth 0 (Pid.integral a) 0)).
Proof.
  assert (H1 : In (@Pid.forest_notebook Demo.generator Demo.library)
                  [@Pid.boosting_notebook Demo.generator Demo.library;
                   @Pid.forest_notebook Demo.generator Demo.library])
    by (right; left; reflexivity).
  assert (H2 : (0 < Pid.n_samples)%nat) by (unfold Pid.n_samples; lia).
  exact (proj1 (pid_ki_follows_the_integral (G := Demo.generator) (L := Demo.library)
                  Pid.forest_notebook 0%Z 0%nat demo_unit_sampler H1 H2)).
Defined.

(** ** The stock notebook *)

Section StockFacts.
Context {G : np.BitGenerator} {L : sklearn.Library}.

(** X4.  The simulated prices are a random walk from the initial price, in
    double precision: the walk starts at the first return, every later
    value of the walk is the rounded sum of the value of the day before
    and the return of the day, and the price of a day is the rounded sum of
    the initial price and the walk of that day. *)
Theorem stock_prices_walk_by_the_returns
    (initial_price volatility : Q) (n : nat) (s0 : np.rng_state) (i : nat) :
  (i < n)%nat ->
  let a := evalState (Stock.generate initial_price volatility n) s0 in
  let ret_ := fun j => nth j (Stock.daily_returns a) 0 in
  let walk := fun j => nth j (np.cumsum (Stock.daily_returns a)) 0 in
  let price := fun j => nth j (Stock.stock_prices a) 0 in
  List.length (Stock.daily_returns a) = n /\
  List.length (Stock.stock_prices a) = n /\
  walk O = ret_ O /\
  ((S i < n)%nat -> walk (S i) = float64.add (walk i) (ret_ (S i))) /\
  price i = float64.add initial_price (walk i) /\
  price O = float64.add initial_price (ret_ O).
Proof.
  intros Hi. cbv zeta.
  unfold Stock.generate, evalState. simpl runState.
  pose proof (normal_length 0 volatility n s0) as Hlen.
  destruct (runState (np.normal 0 volatility n) s0) as [r s1]. cbn [fst] in *.
  cbn [Stock.daily_returns Stock.stock_prices].
  split; [exact Hlen|]. split; [rewrite sadd_length, cumsum_length; exact Hlen|].
  split; [apply nth_cumsum_0|].
  split; [intros Hi'; apply nth_cumsum_S; lia|].
  split.
  - apply nth_sadd. rewrite cumsum_length. lia.
  - rewrite nth_sadd by (rewrite cumsum_length; lia). now rewrite nth_cumsum_0.
Qed.

End StockFacts.

(** Three days on the demonstration generator. *)
Lemma stock_prices_walk_by_the_returns_witness :
  let a := evalState (@Stock.generate Demo.generator 100 1 3) 0%Z in
  nth 0 (Stock.stock_prices a) 0 = float64.add 100 (nth 0 (Stock.daily_returns a) 0).
Proof.
  assert (H : (0 < 3)%nat) by lia.
  exact (proj2 (proj2 (proj2 (proj2 (proj2
    (stock_prices_walk_by_the_returns (G := Demo.generator) 100 1 3 0%Z 0 H)))))).
Defined.

Section SeriesFacts.

(** A column without NaN is left as it is. *)
Lemma interpolate_from_valid (last : option Q) (a : list Q) :
  pd.interpolate_from last (map Some a) = map Some a.
Proof.
  revert last; induction a as [|x a IH]; intros last; simpl; [reflexivity|].
  now rewrite IH.
Qed.

Lemma interpolate_valid (a : list Q) : pd.interpolate (map Some a) = map Some a.
Proof. apply interpolate_from_valid. Qed.

Lemma all_valid_Some (a : list Q) : pd.all_valid (map Some a) = Some a.
Proof. induction a as [|x a IH]; simpl; [reflexivity|]. now rewrite IH. Qed.

Lemma to_floats_Some (a : list Q) : pd.to_floats (map Some a) = a.
Proof. induction a as [|x a IH]; simpl; [reflexivity|]. now rewrite IH. Qed.

Lemma to_floats_map_Some {A : Type} (f : A -> Q) (a : list A) :
  pd.to_floats (map (fun x => Some (f x)) a) = map f a.
Proof. induction a as [|x a IH]; simpl; [reflexivity|]. now rewrite IH. Qed.

Lemma rolling_mean_valid (window : nat) (a : list Q) :
  pd.rolling_mean window (map Some a) =
  map (fun i => if (S i <? window)%nat then None
                else Some (np.mean (firstn window (skipn (S i - window) a))))
      (seq 0 (List.length a)).
Proof.
  unfold pd.rolling_mean. rewrite length_map. apply map_ext. intros i.
  destruct (S i <? window)%nat; [reflexivity|].
  now rewrite skipn_map, firstn_map, all_valid_Some.
Qed.

Lemma fold_min_below (l : list Z) (x : Z) :
  Forall (fun v => (x <= v)%Z) l -> fold_left Z.min l x = x.
Proof.
  induction 1 as [|v l Hv Hl IH]; simpl; [reflexivity|].
  now rewrite Z.min_l by exact Hv.
Qed.

(** The first date of a range is its earliest. *)
Lemma min_date_range (start : Z) (n : nat) :
  pd.min (pd.date_range start (S n)) = start.
Proof.
  unfold pd.date_range. cbn [seq map pd.min]. rewrite Z.add_0_r.
  apply fold_min_below. apply Forall_forall. intros v Hv.
  apply in_map_iff in Hv as (i & <- & _). lia.
Qed.

Lemma days_since_the_first (start : Z) (n : nat) :
  map (fun d => (d - pd.min (pd.date_range start n))%Z) (pd.date_range start n) =
  map Z.of_nat (seq 0 n).
Proof.
  destruct n as [|n]; [reflexivity|]. rewrite min_date_range.
  unfold pd.date_range. rewrite map_map. apply map_ext. intros i. lia.
Qed.

(** The rows of a frame of one column. *)
Lemma values_of_one_column (k : string) (c : list Q) :
  pd.values 0 [(k, c)] = House.reshape_column c.
Proof.
  unfold pd.values, House.reshape_column. cbn [pd.len map snd].
  apply nth_ext with (d := []) (d' := []).
  - now rewrite !length_map, length_seq.
  - intros i Hi. rewrite length_map, length_seq in Hi.
    rewrite (nth_indep _ [] ((fun i => [nth i c 0]) O)) by (now rewrite length_map, length_seq).
    rewrite (map_nth (fun i => [nth i c 0])), seq_nth by exact Hi.
    rewrite (nth_indep _ [] ((fun x => [x]) 0)) by (now rewrite length_map).
    now rewrite (map_nth (fun x => [x])).
Qed.

End SeriesFacts.

Section StockFrameFacts.
Context {L : sklearn.Library}.

Ltac stock_step :=
  cbn [bind ret Monad_either pd.getitem pd.getitems pd.replace_column
       String.eqb Ascii.eqb Bool.eqb fst snd map].

Lemma prepare_frames (n : nat) (a : Stock.arrays) :
  List.length (Stock.stock_prices a) = n ->
  let dates := map (fun d => Some (inject_Z d)) (pd.date_range Stock.start_date n) in
  let days := map (fun d => Some (inject_Z d)) (map Z.of_nat (seq 0 n)) in
  let price := map Some (Stock.stock_prices a) in
  let average := pd.rolling_mean 5 price in
  let scaled := sklearn.fit_transform (StockFrames.scaler_input n a) in
  StockFrames.prepare n a =
    inr {| StockFrames.created := [("Date", dates); ("Stock Price", price)];
           StockFrames.interpolated := [("Date", dates); ("Stock Price", price)];
           StockFrames.averaged :=
             [("Date", dates); ("Stock Price", price); ("Moving Average", average)];
           StockFrames.in_days :=
             [("Date", days); ("Stock Price", price); ("Moving Average", average)];
           StockFrames.normalized :=
             [("Date", map Some (sklearn.column 0 scaled));
              ("Stock Price", map Some (sklearn.column 1 scaled));
              ("Moving Average", average)];
           StockFrames.X := House.reshape_column (sklearn.column 0 scaled);
           StockFrames.y := sklearn.column 1 scaled;
           StockFrames.X_poly :=
             sklearn.polynomial_features 3 (House.reshape_column (sklearn.column 0 scaled)) |}.
Proof.
  intros Hp. cbv zeta. unfold StockFrames.prepare. cbv zeta.
  rewrite days_since_the_first.
  match goal with |- context [pd.DataFrame_of ?d] => frame_of n d end.
  cbn [bind Monad_either pd.getitem String.eqb Ascii.eqb Bool.eqb].
  rewrite interpolate_valid.
  column_is_set n. stock_step.
  column_is_set n. stock_step.
  column_is_set n. stock_step.
  rewrite to_floats_Some, (to_floats_map_Some inject_Z).
  column_is_set n. stock_step.
  column_is_set n. stock_step.
  rewrite !to_floats_Some, values_of_one_column. reflexivity.
Qed.

(** [Stock.tables_of] counts the rows of these frames. *)
Lemma tables_of_prepare (n : nat) (a : Stock.arrays) :
  Stock.tables_of n a =
  (f <- StockFrames.prepare n a ;;
   _ <- sklearn.train_test_split (StockFrames.X_poly f) (StockFrames.y f) 0.2 42 ;;
   ret [Rows.of_frame ["Stock Price"] (StockFrames.created f);
        Rows.of_frame ["Stock Price"] (StockFrames.interpolated f);
        Rows.of_frame ["Stock Price"] (StockFrames.averaged f);
        Rows.of_frame ["Stock Price"] (StockFrames.in_days f);
        Rows.of_frame ["Stock Price"] (StockFrames.normalized f);
        Rows.of_arrays 0 (StockFrames.X f) (StockFrames.y f);
        Rows.of_arrays 0 (StockFrames.X_poly f) (StockFrames.y f)]).
Proof.
  unfold Stock.tables_of, StockFrames.prepare. cbv zeta.
  cbn [bind ret Monad_either].
  repeat match goal with
         | |- context [match ?x with inl _ => _ | inr _ => _ end] =>
             destruct x; try reflexivity
         end.
Qed.
End StockFrameFacts.

(** ** The scaling cell of the loan notebook *)

Section LoanScalingFacts.
Context {L : sklearn.Library}.


End LoanScalingFacts.

Section StockPreprocessing.
Context {G : np.BitGenerator} {L : sklearn.Library}.

Lemma generated_prices_length (initial_price volatility : Q) (n : nat) (s0 : np.rng_state) :
  List.length (Stock.stock_prices
                 (evalState (Stock.generate initial_price volatility n) s0)) = n.
Proof.
  unfold Stock.generate, evalState. simpl runState. name_draws.
  cbn [fst Stock.stock_prices]. rows.
Qed.

(** X6.  The preprocessing cell of the stock notebook on the simulated
    prices: interpolating changes nothing, since a simulated price is never
    missing; the Date column, from line 116 on, counts the days since the
    first date, 0 for the first row and [i] for row [i]; and the prices
    stay in the table as simulated until the scaler replaces them. *)
Theorem stock_preprocessing_keeps_the_prices
    (initial_price volatility : Q) (n : nat) (s0 : np.rng_state) :
  let a := evalState (Stock.generate initial_price volatility n) s0 in
  exists f,
    StockFrames.prepare n a = inr f /\
    StockFrames.interpolated f = StockFrames.created f /\
    pd.getitem (StockFrames.created f) "Date" =
      inr (map (fun i => Some (inject_Z (Stock.start_date + Z.of_nat i))) (seq 0 n)) /\
    pd.getitem (StockFrames.in_days f) "Date" =
      inr (map (fun i => Some (inject_Z (Z.of_nat i))) (seq 0 n)) /\
    pd.getitem (StockFrames.in_days f) "Stock Price" = inr (map Some (Stock.stock_prices a)) /\
    pd.columns (StockFrames.normalized f) = ["Date"; "Stock Price"; "Moving Average"].
Proof.
  cbv zeta. eexists. split.
  - apply prepare_frames. apply generated_prices_length.
  - cbn [StockFrames.interpolated StockFrames.created StockFrames.in_days
         StockFrames.normalized pd.getitem String.eqb Ascii.eqb Bool.eqb].
    unfold pd.date_range. rewrite !map_map. repeat split.
Qed.


(** X7.  The Moving Average column of the stock notebook has one cell per
    day, missing in rows 0 to 3 and present from row 4 on, and it is left
    as it is when the scaler overwrites the other two columns.  The column
    never reaches the model: [X] and [y] have one row per day, every row
    of [X] is one cell, cell [i] of the scaled Date column, and [y] is the
    scaled Stock Price column. *)
Theorem stock_moving_average_stays_out_of_the_features
    (initial_price volatility : Q) (n : nat) (s0 : np.rng_state) (i : nat) :
  (i < n)%nat ->
  let a := evalState (Stock.generate initial_price volatility n) s0 in
  let scaled := sklearn.fit_transform (StockFrames.scaler_input n a) in
  exists f average,
    StockFrames.prepare n a = inr f /\
    pd.getitem (StockFrames.averaged f) "Moving Average" = inr average /\
    pd.getitem (StockFrames.normalized f) "Moving Average" = inr average /\
    List.length average = n /\
    ((i < 4)%nat -> nth i average None = None) /\
    ((4 <= i)%nat -> nth i average None <> None) /\
    List.length (StockFrames.X f) = n /\ List.length (StockFrames.y f) = n /\
    nth i (StockFrames.X f) [] = [nth i (sklearn.column 0 scaled) 0] /\
    StockFrames.y f = sklearn.column 1 scaled.
Proof.
  intros Hi. cbv zeta.
  pose proof (generated_prices_length initial_price volatility n s0) as Hlen.
  set (a := evalState (Stock.generate initial_price volatility n) s0) in *.
  eexists. exists (pd.rolling_mean 5 (map Some (Stock.stock_prices a))). split.
  - apply prepare_frames. exact Hlen.
  - cbn [StockFrames.averaged StockFrames.normalized StockFrames.X StockFrames.y
         pd.getitem String.eqb Ascii.eqb Bool.eqb].
    assert (Hrow : (i < List.length (Stock.stock_prices a))%nat) by lia.
    assert (Hsc : List.length (sklearn.fit_transform (StockFrames.scaler_input n a)) = n).
    { unfold StockFrames.scaler_input. rows. }
    assert (Hnth : nth i (pd.rolling_mean 5 (map Some (Stock.stock_prices a))) None =
                   if (S i <? 5)%nat then None
                   else Some (np.mean (firstn 5 (skipn (S i - 5) (Stock.stock_prices a))))).
    { rewrite rolling_mean_valid.
      rewrite (nth_indep _ None
                 ((fun i => if (S i <? 5)%nat then None
                            else Some (np.mean (firstn 5 (skipn (S i - 5)
                                                            (Stock.stock_prices a))))) O))
        by (now rewrite length_map, length_seq).
      rewrite (map_nth (fun i => if (S i <? 5)%nat then None
                                 else Some (np.mean (firstn 5 (skipn (S i - 5)
                                                                 (Stock.stock_prices a)))))).
      now rewrite seq_nth. }
    split; [reflexivity|]. split; [reflexivity|].
    split; [rows|]. split; [|split; [|split; [|split; [|split]]]].
    + intros H4. rewrite Hnth. destruct (Nat.ltb_spec (S i) 5); [reflexivity|lia].
    + intros H4. rewrite Hnth. destruct (Nat.ltb_spec (S i) 5); [lia|discriminate].
    + rewrite reshape_column_length, column_length. exact Hsc.
    + rewrite column_length. exact Hsc.
    + unfold House.reshape_column.
      rewrite (nth_indep _ [] ((fun x => [x]) 0))
        by (rewrite length_map, column_length, Hsc; exact Hi).
      now rewrite (map_nth (fun x => [x])).
    + reflexivity.
Qed.

End StockPreprocessing.

(** Six days: day 4 is the first with a full window. *)
Lemma stock_moving_average_stays_out_of_the_features_witness :
  let a := evalState (@Stock.generate Demo.generator 100 1 6) 0%Z in
  exists f average,
    @StockFrames.prepare Demo.library 6 a = inr f /\
    pd.getitem (StockFrames.averaged f) "Moving Average" = inr average /\
    nth 4 average None <> None.
Proof.
  cbv zeta.
  assert (H : (4 < 6)%nat) by lia.
  destruct (stock_moving_average_stays_out_of_the_features
              (G := Demo.generator) (L := Demo.library) 100 1 6 0%Z 4 H)
    as (f & average & H1 & H2 & _ & _ & _ & H6 & _).
  exists f, average. split; [exact H1|]. split; [exact H2|].
  apply H6. lia.
Defined.

(** ** The ranges of the generated tables *)

Lemma demo_bounded_integers : Contracts.bounded_integers Demo.generator.
Proof.
  intros low high s Hlh. simpl. unfold Demo.between.
  pose proof (Z.mod_pos_bound s (high - low)). lia.
Qed.

Section RangeFacts.
Context {G : np.BitGenerator}.

Lemma randint_range (low high : Z) (n : nat) (s : np.rng_state) :
  Contracts.bounded_integers G -> (low < high)%Z ->
  Forall (fun v => (low <= v < high)%Z) (fst (runState (np.randint low high n) s)).
Proof.
  intros HG Hlh. apply draws_Forall. intros s1. simpl. apply HG, Hlh.
Qed.

Lemma choice2_cases {A : Type} (a b : A) (p : Q) (n : nat) (s : np.rng_state) :
  Forall (fun v => v = a \/ v = b) (fst (runState (np.choice2 a b p n) s)).
Proof.
  apply draws_Forall. intros s1. simpl.
  destruct (np.random_sample s1) as [u s2]. simpl.
  destruct (Qle_bool p u); auto.
Qed.

Lemma Forall_nth_Z (P : Z -> Prop) (a : list Z) (i : nat) :
  Forall P a -> (i < List.length a)%nat -> P (nth i a 0%Z).
Proof. intros H Hi. rewrite Forall_forall in H. apply H, nth_In, Hi. Qed.

End RangeFacts.

(** Names the arrays a generation cell draws, with their lengths and their
    ranges. *)
Ltac name_ranged_draws HG HU :=
  repeat match goal with
  | |- context [runState (np.randint ?l ?h ?n) ?s] =>
      let H := fresh "Hlen" in
      let R := fresh "Hrange" in
      pose proof (randint_length l h n s) as H;
      pose proof (randint_range l h n s HG ltac:(lia)) as R;
      destruct (runState (np.randint l h n) s) as [? ?]; cbn [fst snd] in H, R
  | |- context [runState (np.uniform ?l ?h ?n) ?s] =>
      let H := fresh "Hlen" in
      let R := fresh "Hrange" in
      pose proof (uniform_length l h n s) as H;
      pose proof (uniform_range l h n s HU ltac:(discriminate)) as R;
      destruct (runState (np.uniform l h n) s) as [? ?]; cbn [fst snd] in H, R
  | |- context [runState (np.choice2 ?a ?b ?p ?n) ?s] =>
      let H := fresh "Hlen" in
      let R := fresh "Hrange" in
      pose proof (choice2_length a b p n s) as H;
      pose proof (choice2_cases a b p n s) as R;
      destruct (runState (np.choice2 a b p n) s) as [? ?]; cbn [fst snd] in H, R
  | |- context [runState (np.normal ?l ?h ?n) ?s] =>
      let H := fresh "Hlen" in
      pose proof (normal_length l h n s) as H;
      destruct (runState (np.normal l h n) s) as [? ?]; cbn [fst snd] in H
  end.

Section GeneratedTables.
Context {G : np.BitGenerator} {L : sklearn.Library}.

(** X8.  Every row of the 1000 rows of the loan table has an income from
    30000 up to, but not including, 150000, an age from 18 to 69, a credit
    score from 600 to 799 and a default flag that is 0 or 1; every row of
    the 1000 generated rows of the wearable table has a heart rate from 60
    to 99, from 500 to 2499 steps, a temperature in [36, 37.5], an
    activity level from 1 to 5, a sleep duration from 4 to 8 and a label
    that is 0 or 1. *)
Theorem generated_rows_stay_in_range (s0 : np.rng_state) (i : nat) :
  Contracts.bounded_integers G -> np.unit_sampler G ->
  (i < 1000)%nat ->
  let loan := evalState (Loan.generate Loan.n_samples) s0 in
  let sensor := evalState (Wearable.generate Wearable.n_samples) s0 in
  ((30000 <= nth i (Loan.income loan) 0 < 150000)%Z /\
   (18 <= nth i (Loan.age loan) 0 <= 69)%Z /\
   (600 <= nth i (Loan.credit_score loan) 0 <= 799)%Z /\
   (nth i (Loan.loan_default loan) 0 = 0 \/ nth i (Loan.loan_default loan) 0 = 1)%Z) /\
  ((60 <= nth i (Wearable.heart_rate sensor) 0 <= 99)%Z /\
   (500 <= nth i (Wearable.steps sensor) 0 <= 2499)%Z /\
   (36 <= nth i (Wearable.temperature sensor) 0 /\
    nth i (Wearable.temperature sensor) 0 <= 37.5) /\
   (1 <= nth i (Wearable.activity_level sensor) 0 <= 5)%Z /\
   (4 <= nth i (Wearable.sleep_duration sensor) 0 <= 8)%Z /\
   (nth i (Wearable.label sensor) 0 = 0 \/ nth i (Wearable.label sensor) 0 = 1)%Z).
Proof.
  intros HG HU Hi. cbv zeta. split.
  - change (i < Loan.n_samples)%nat in Hi. revert Hi.
    generalize Loan.n_samples as n. intros n Hi.
    unfold Loan.generate, evalState. simpl runState. name_ranged_draws HG HU.
    cbn [fst Loan.income Loan.age Loan.credit_score Loan.loan_default].
    repeat split;
      try (match goal with
           | R : Forall _ ?l |- context [nth i ?l _] =>
               pose proof (Forall_nth_Z _ _ i R ltac:(lia)) as Hr; cbv beta in Hr; lia
           end).
  - change (i < Wearable.n_samples)%nat in Hi. revert Hi.
    generalize Wearable.n_samples as n. intros n Hi.
    unfold Wearable.generate, evalState. simpl runState. name_ranged_draws HG HU.
    cbn [fst Wearable.heart_rate Wearable.steps Wearable.temperature
         Wearable.activity_level Wearable.sleep_duration Wearable.label].
    repeat split;
      try (match goal with
           | R : Forall _ ?l |- context [nth i ?l 0%Z] =>
               pose proof (Forall_nth_Z _ _ i R ltac:(lia)) as Hr; cbv beta in Hr; lia
           end);
      try (match goal with
           | R : Forall _ ?l |- context [nth i ?l 0%Q] =>
               pose proof (Forall_nth_Q _ _ i R ltac:(lia)) as Hr; cbv beta in Hr;
               destruct Hr as [Hr1 Hr2]; lra
           end).
Qed.

End GeneratedTables.

(** Row 0 on the demonstration generator. *)
Lemma generated_rows_stay_in_range_witness :
  (18 <= nth 0 (Loan.age (evalState (@Loan.generate Demo.generator Loan.n_samples) 0%Z)) 0
      <= 69)%Z.
Proof.
  assert (H : (0 < 1000)%nat) by lia.
  exact (proj1 (proj2 (proj1
    (generated_rows_stay_in_range (G := Demo.generator) 0%Z 0
       demo_bounded_integers demo_unit_sampler H)))).
Defined.

Section FruitHouse.
Context {G : np.BitGenerator} {L : sklearn.Library}.

Lemma nth_heavy_and_sweet (f1 f2 : list Z) (i : nat) :
  (i < List.length f1)%nat -> (i < List.length f2)%nat ->
  nth i (Fruit.heavy_and_sweet f1 f2) false =
  ((200 <? nth i f1 0)%Z && (5 <? nth i f2 0)%Z).
Proof.
  revert f2 i; induction f1 as [|w f1 IH]; intros [|s f2] [|i] H1 H2; simpl in *;
    try lia; try reflexivity.
  apply IH; lia.
Qed.

(** X9.  The fruit table: the weight of every row is from 100 to 299, its
    sweetness from 1 to 9 (10 is never drawn), and its label is "Apple"
    exactly when the weight is above 200 and the sweetness above 5, and
    "Orange" otherwise: the label is a function of the two features. *)
Theorem fruit_labels_follow_the_rule (size : nat) (s0 : np.rng_state) (i : nat) :
  Contracts.bounded_integers G ->
  (i < size)%nat ->
  let g := evalState (Fruit.generate size) s0 in
  let weight := nth i (fst (fst g)) 0%Z in
  let sweetness := nth i (snd (fst g)) 0%Z in
  let label := nth i (snd g) EmptyString in
  List.length (fst (fst g)) = size /\ List.length (snd (fst g)) = size /\
  List.length (snd g) = size /\
  (100 <= weight <= 299)%Z /\ (1 <= sweetness <= 9)%Z /\
  (label = "Apple" <-> (200 < weight /\ 5 < sweetness)%Z) /\
  (label = "Orange" <-> ~ (200 < weight /\ 5 < sweetness)%Z).
Proof.
  intros HG Hi. cbv zeta.
  unfold Fruit.generate, evalState. simpl runState.
  name_ranged_draws HG HG. cbn [fst snd].
  assert (Hhs : List.length (Fruit.heavy_and_sweet l l0) = size)
    by (rewrite heavy_and_sweet_length; lia).
  pose proof (Forall_nth_Z _ _ i Hrange ltac:(lia)) as Hw.
  pose proof (Forall_nth_Z _ _ i Hrange0 ltac:(lia)) as Hs. cbv beta in Hw, Hs.
  assert (Hlabel : nth i (np.where_ (fun b : bool => b) "Apple" "Orange"
                            (Fruit.heavy_and_sweet l l0)) EmptyString =
                   if ((200 <? nth i l 0)%Z && (5 <? nth i l0 0)%Z)
                   then "Apple" else "Orange").
  { unfold np.where_.
    rewrite (nth_indep _ EmptyString "Orange") by (rewrite length_map; lia).
    transitivity ((fun v : bool => if v then "Apple" else "Orange")
                    (nth i (Fruit.heavy_and_sweet l l0) false));
      [exact (map_nth (fun v : bool => if v then "Apple" else "Orange")
                      (Fruit.heavy_and_sweet l l0) false i)|].
    cbv beta. rewrite nth_heavy_and_sweet by lia. reflexivity. }
  rewrite Hlabel.
  split; [exact Hlen|]. split; [exact Hlen0|].
  split; [rewrite where_length; exact Hhs|].
  split; [lia|]. split; [lia|].
  destruct (Z.ltb_spec 200 (nth i l 0%Z)); destruct (Z.ltb_spec 5 (nth i l0 0%Z));
    cbn [andb]; split; split; intros; try lia; try discriminate; try reflexivity;
    try tauto.
Qed.


(** X10.  The house table has one row and one price per draw; every row of
    [X] is one cell, a square footage in [1000, 4000], and the price of the
    row is the double-precision value of [100 * sqft + 50000 + noise] with
    the noise drawn for the row: reshaping to a column and flattening back
    keeps the rows in order.  Before the noise is added the price lies in
    [150000, 450000]. *)
Theorem house_prices_follow_the_square_footage (n : nat) (s0 : np.rng_state) (i : nat) :
  np.unit_sampler G ->
  (i < n)%nat ->
  let X := fst (evalState (House.generate n) s0) in
  let y := snd (evalState (House.generate n) s0) in
  exists (noise : list Q) (s1 : np.rng_state) (sqft : Q),
    noise = fst (runState (np.normal 0 50000 n) s1) /\
    List.length X = n /\ List.length y = n /\
    nth i X [] = [sqft] /\
    (1000 <= sqft /\ sqft <= 4000) /\
    let base := float64.add (float64.mul 100 sqft) 50000 in
    nth i y 0 = float64.add base (nth i noise 0) /\
    (150000 <= base /\ base <= 450000).
Proof.
  intros HU Hi. cbv zeta.
  unfold House.generate, evalState. simpl runState.
  destruct (runState (np.uniform 1000 4000 n) (np.seed_state 42)) as [sq s1] eqn:E1.
  pose proof (uniform_length 1000 4000 n (np.seed_state 42)) as Hlen.
  pose proof (uniform_range 1000 4000 n (np.seed_state 42) HU ltac:(discriminate)) as Hr.
  rewrite E1 in Hlen, Hr. cbn [fst] in Hlen, Hr.
  pose proof (normal_length 0 50000 n s1) as Hlenz.
  exists (fst (runState (np.normal 0 50000 n) s1)), s1, (nth i sq 0).
  destruct (runState (np.normal 0 50000 n) s1) as [z s2]. cbn [fst snd] in *.
  rewrite flatten_reshape_column.
  pose proof (Forall_nth_Q _ _ i Hr ltac:(lia)) as [Hsq1 Hsq2]. cbv beta in Hsq1, Hsq2.
  split; [reflexivity|]. split; [now rewrite reshape_column_length|].
  split; [rewrite vadd_length; rewrite ?adds_length, ?smul_length; lia|].
  split.
  { unfold House.reshape_column.
    rewrite (nth_indep _ [] ((fun x => [x]) 0)) by (rewrite length_map; lia).
    now rewrite (map_nth (fun x => [x])). }
  split; [split; assumption|]. split.
  { rewrite nth_vadd by (rewrite ?adds_length, ?smul_length; lia).
    rewrite nth_adds by (rewrite smul_length; lia).
    rewrite nth_smul by lia. reflexivity. }
  unfold float64.add, float64.mul.
  assert (R1 : float64.round (inject_Z 100000) == inject_Z 100000)
    by (apply round_Z; reflexivity).
  assert (R2 : float64.round (inject_Z 400000) == inject_Z 400000)
    by (apply round_Z; reflexivity).
  assert (R3 : float64.round (inject_Z 150000) == inject_Z 150000)
    by (apply round_Z; reflexivity).
  assert (R4 : float64.round (inject_Z 450000) == inject_Z 450000)
    by (apply round_Z; reflexivity).
  assert (M1 : inject_Z 100000 <= float64.round (100 * nth i sq 0)).
  { rewrite <- R1. apply round_le. change (inject_Z 100000) with 100000. lra. }
  assert (M2 : float64.round (100 * nth i sq 0) <= inject_Z 400000).
  { rewrite <- R2. apply round_le. change (inject_Z 400000) with 400000. lra. }
  change (inject_Z 100000) with 100000 in M1.
  change (inject_Z 400000) with 400000 in M2.
  split.
  - change 150000 with (inject_Z 150000). rewrite <- R3. apply round_le.
    change (inject_Z 150000) with 150000. lra.
  - change 450000 with (inject_Z 450000). rewrite <- R4. apply round_le.
    change (inject_Z 450000) with 450000. lra.
Qed.

End FruitHouse.

(** Row 0 of three houses on the demonstration generator. *)
Lemma house_prices_follow_the_square_footage_witness :
  exists (noise : list Q) (s1 : Z) (sqft : Q),
    noise = fst (runState (@np.normal Demo.generator 0 50000 3) s1) /\
    List.length (fst (evalState (@House.generate Demo.generator 3) 0%Z)) = 3%nat /\
    List.length (snd (evalState (@House.generate Demo.generator 3) 0%Z)) = 3%nat /\
    nth 0 (fst (evalState (@House.generate Demo.generator 3) 0%Z)) [] = [sqft] /\
    (1000 <= sqft /\ sqft <= 4000) /\
    nth 0 (snd (evalState (@House.generate Demo.generator 3) 0%Z)) 0 =
      float64.add (float64.add (float64.mul 100 sqft) 50000) (nth 0 noise 0) /\
    (150000 <= float64.add (float64.mul 100 sqft) 50000 /\
     float64.add (float64.mul 100 sqft) 50000 <= 450000).
Proof.
  assert (H : (0 < 3)%nat) by lia.
  exact (house_prices_follow_the_square_footage (G := Demo.generator) 3 0%Z 0
           demo_unit_sampler H).
Defined.

(** Row 0 of five fruits on the demonstration generator. *)
Lemma fruit_labels_follow_the_rule_witness :
  let g := evalState (@Fruit.generate Demo.generator 5) 0%Z in
  (nth 0 (snd g) EmptyString = "Apple" <->
   (200 < nth 0 (fst (fst g)) 0 /\ 5 < nth 0 (snd (fst g)) 0)%Z).
Proof.
  assert (H : (0 < 5)%nat) by lia.
  exact (proj1 (proj2 (proj2 (proj2 (proj2 (proj2
    (fruit_labels_follow_the_rule (G := Demo.generator) 5 0%Z 0
       demo_bounded_integers H))))))).
Defined.

(** ** The frame of the fault-detection notebook *)

Section FaultNames.
Context {L : sklearn.Library}.

Lemma to_uint_nonnil (n : nat) : Nat.to_uint n <> Decimal.Nil.
Proof.
  intros H. pose proof (Unsigned.of_to n) as E. rewrite H in E. simpl in E.
  subst n. discriminate H.
Qed.

(** Different numbers are printed differently. *)
Lemma decimal_injective (a b : nat) :
  NilZero.string_of_uint (Nat.to_uint a) = NilZero.string_of_uint (Nat.to_uint b) -> a = b.
Proof.
  intros H. apply (f_equal NilZero.uint_of_string) in H.
  rewrite !NilZero.usu in H by apply to_uint_nonnil.
  injection H as H. now apply Unsigned.to_uint_inj.
Qed.


Lemma feature_names_spelled (X : list (list Q)) :
  Fault.feature_names X = map FaultFrame.feature_name (seq 0 (sklearn.n_features X)).
Proof. reflexivity. Qed.

Lemma feature_name_injective (a b : nat) :
  FaultFrame.feature_name a = FaultFrame.feature_name b -> a = b.
Proof.
  unfold FaultFrame.feature_name. intros H. simpl in H.
  injection H as H. apply decimal_injective in H. lia.
Qed.

Lemma feature_names_NoDup (X : list (list Q)) : NoDup (Fault.feature_names X).
Proof.
  rewrite feature_names_spelled. apply NoDup_map_NoDup_ForallPairs; [|apply seq_NoDup].
  intros a b _ _. apply feature_name_injective.
Qed.

Lemma Target_is_no_feature (X : list (list Q)) : ~ In "Target" (Fault.feature_names X).
Proof.
  rewrite feature_names_spelled. intros H. apply in_map_iff in H as (j & H & _).
  discriminate H.
Qed.

End FaultNames.

Section ColumnFacts.
Context {A : Type}.

Lemma map_snd_combine {B : Type} (idx : list B) (names : list string) :
  List.length idx = List.length names -> map snd (combine idx names) = names.
Proof.
  revert idx; induction names as [|k names IH]; intros [|i idx] H;
    simpl in *; try discriminate; try reflexivity.
  f_equal. apply IH. lia.
Qed.

(** Setting a column under a new name appends it. *)
Lemma replace_column_new (df : pd.DataFrame A) (k : string) (c : list A) :
  ~ In k (pd.columns df) -> pd.replace_column df k c = (df ++ [(k, c)])%list.
Proof.
  induction df as [|[k0 c0] df IH]; intros Hk; simpl; [reflexivity|].
  destruct (String.eqb_spec k0 k) as [->|Hne].
  - exfalso. apply Hk. now left.
  - rewrite IH; [reflexivity|]. intros H. apply Hk. now right.
Qed.

Lemma getitem_app_new (df : pd.DataFrame A) (k : string) (c : list A) :
  ~ In k (pd.columns df) -> pd.getitem (df ++ [(k, c)])%list k = inr c.
Proof.
  induction df as [|[k0 c0] df IH]; intros Hk; simpl.
  - now rewrite String.eqb_refl.
  - destruct (String.eqb_spec k0 k) as [->|Hne].
    + exfalso. apply Hk. now left.
    + apply IH. intros H. apply Hk. now right.
Qed.

Lemma getitem_app_old (df rest : pd.DataFrame A) (k : string) :
  In k (pd.columns df) -> pd.getitem (df ++ rest)%list k = pd.getitem df k.
Proof.
  induction df as [|[k0 c0] df IH]; intros Hk; simpl in *; [contradiction|].
  destruct (String.eqb_spec k0 k) as [->|Hne]; [reflexivity|].
  apply IH. destruct Hk as [Hk|Hk]; [congruence|exact Hk].
Qed.

(** Under distinct names, a name selects its own column. *)
Lemma getitem_nth (df : pd.DataFrame A) (j : nat) (d : string * list A) :
  NoDup (pd.columns df) -> (j < List.length df)%nat ->
  pd.getitem df (fst (nth j df d)) = inr (snd (nth j df d)).
Proof.
  revert j; induction df as [|[k0 c0] df IH]; intros j Hnd Hj; simpl in Hj; [lia|].
  simpl in Hnd. apply NoDup_cons_iff in Hnd as [Hk0 Hnd].
  destruct j as [|j]; simpl.
  - now rewrite String.eqb_refl.
  - destruct (String.eqb_spec k0 (fst (nth j df d))) as [E|Hne].
    + exfalso. apply Hk0. rewrite E. unfold pd.columns.
      apply in_map. apply nth_In. lia.
    + apply IH; [exact Hnd | lia].
Qed.

End ColumnFacts.

Section FaultTable.
Context {L : sklearn.Library}.

(** X11.  The frame of the fault-detection notebook: the features are
    named Feature_1, Feature_2, ... with one name per column of [X]; the
    names differ from one another and from "Target", so that assigning
    [df['Target']] appends a column and overwrites no feature; afterwards
    the name Feature_(j+1) selects column [j] of [X] and "Target" selects
    the labels. *)
Theorem fault_frame_keeps_the_features (X : list (list Q)) (y : list Z) :
  List.length y = List.length X ->
  let names := Fault.feature_names X in
  NoDup names /\ ~ In "Target" names /\
  exists df df1,
    pd.DataFrame_of_rows 0 X names = inr df /\
    pd.setitem df "Target" (map inject_Z y) = inr df1 /\
    pd.columns df1 = (names ++ ["Target"])%list /\
    pd.getitem df1 "Target" = inr (map inject_Z y) /\
    forall j, (j < sklearn.n_features X)%nat ->
      nth j names EmptyString = FaultFrame.feature_name j /\
      pd.getitem df1 (FaultFrame.feature_name j) = inr (sklearn.column j X).
Proof.
  intros Hy. cbv zeta.
  split; [apply feature_names_NoDup|]. split; [apply Target_is_no_feature|].
  set (names := Fault.feature_names X).
  set (w := sklearn.n_features X).
  set (df := map (fun jn : nat * string =>
                    (snd jn, map (fun row : list Q => nth (fst jn) row 0) X))
                 (combine (seq 0 w) names)).
  assert (Hnames : List.length names = w) by apply feature_names_length.
  assert (Hcols : pd.columns df = names).
  { unfold pd.columns, df. rewrite map_map. cbn [fst snd].
    apply map_snd_combine. now rewrite length_seq. }
  assert (Hdf : pd.DataFrame_of_rows 0 X names = inr df).
  { unfold pd.DataFrame_of_rows.
    change (match X with [] => O | row :: _ => List.length row end) with w.
    rewrite Hnames, Nat.eqb_refl. reflexivity. }
  assert (Hnew : ~ In "Target" (pd.columns df))
    by (rewrite Hcols; apply Target_is_no_feature).
  assert (Hset : pd.setitem df "Target" (map inject_Z y) =
                 inr (df ++ [("Target", map inject_Z y)])%list).
  { destruct (DataFrame_of_rows_ok X names Hnames) as (df' & Hdf' & Hall).
    rewrite Hdf in Hdf'. injection Hdf' as <-.
    destruct (setitem_all_length (List.length X) df "Target" (map inject_Z y) Hall)
      as [Hs _]; [rewrite length_map; exact Hy|].
    rewrite Hs. now rewrite replace_column_new. }
  exists df, (df ++ [("Target", map inject_Z y)])%list.
  split; [exact Hdf|]. split; [exact Hset|]. split; [|split].
  - unfold pd.columns in *. rewrite map_app, Hcols. reflexivity.
  - apply getitem_app_new. exact Hnew.
  - intros j Hj.
    assert (Hname : nth j names EmptyString = FaultFrame.feature_name j).
    { unfold names. rewrite feature_names_spelled. fold w.
      rewrite (nth_indep _ EmptyString (FaultFrame.feature_name O))
        by (rewrite length_map, length_seq; exact Hj).
      rewrite map_nth, seq_nth by exact Hj. reflexivity. }
    split; [exact Hname|].
    assert (Hlen : List.length df = w).
    { unfold df. rewrite length_map, length_combine, length_seq, Hnames. lia. }
    assert (Hnth : nth j df (EmptyString, []) =
                   (FaultFrame.feature_name j, sklearn.column j X)).
    { unfold df.
      rewrite (nth_indep _ (EmptyString, [])
                 ((fun jn : nat * string =>
                     (snd jn, map (fun row : list Q => nth (fst jn) row 0) X))
                    (O, EmptyString)))
        by (rewrite length_map, length_combine, length_seq, Hnames; lia).
      rewrite (map_nth (fun jn : nat * string =>
                          (snd jn, map (fun row : list Q => nth (fst jn) row 0) X))).
      rewrite combine_nth by (rewrite length_seq; lia).
      rewrite seq_nth by exact Hj. cbn [fst snd]. rewrite Hname. reflexivity. }
    rewrite getitem_app_old.
    + pose proof (getitem_nth df j (EmptyString, [])) as Hg.
      rewrite Hnth in Hg. cbn [fst snd] in Hg. apply Hg; [|lia].
      rewrite Hcols. apply feature_names_NoDup.
    + rewrite Hcols, <- Hname. apply nth_In. lia.
Qed.

End FaultTable.

(** Two rows of three features. *)
Lemma fault_frame_keeps_the_features_witness :
  exists df df1,
    pd.DataFrame_of_rows 0 [[1; 2; 3]; [4; 5; 6]]
      (Fault.feature_names [[1; 2; 3]; [4; 5; 6]]) = inr df /\
    pd.setitem df "Target" (map inject_Z [0; 1]%Z) = inr df1 /\
    pd.columns df1 = (Fault.feature_names [[1; 2; 3]; [4; 5; 6]] ++ ["Target"])%list /\
    pd.getitem df1 "Target" = inr (map inject_Z [0; 1]%Z) /\
    forall j, (j < 3)%nat ->
      nth j (Fault.feature_names [[1; 2; 3]; [4; 5; 6]]) EmptyString =
        FaultFrame.feature_name j /\
      pd.getitem df1 (FaultFrame.feature_name j) =
        inr (sklearn.column j [[1; 2; 3]; [4; 5; 6]]).
Proof.
  assert (H : List.length [0; 1]%Z = List.length [[1; 2; 3]; [4; 5; 6]]) by reflexivity.
  exact (proj2 (proj2 (fault_frame_keeps_the_features [[1; 2; 3]; [4; 5; 6]] [0; 1]%Z H))).
Defined.

